(** * mri-reader: the DICOM semantic extraction and assembly engine

    A shallow embedding of the decoding modules of the viewer
    (dicom-utils, dicom-sr, dicom-ko, dicom-pr, dicom-loader and the
    annotation renderer of AnnotationOverlay.tsx), followed by the
    properties of the assembled study that the specification states.

    Conventions of the embedding:
    - a JavaScript value that may be [undefined] or [null] is an [option];
    - an exception thrown inside a [try] block is a [None] of the fallible
      step, and the [catch] turns it into the [null] the source returns;
    - the generic DICOM byte-stream reader ([dicom-parser]) and the file
      access of the shell ([window.electronAPI.readFile]) are outside the
      repository: a dataset is the record of what the accessors of the
      reader answer, and reading and parsing are variables of the sections
      that need them;
    - an unsigned short decoded by the reader ([uint16]) is a [Z]; what
      [intString] answers is what [parseInt] makes of the text, which may
      be NaN or an infinity; floating-point numbers are an abstract type
      [number] with the built-in conversions of the language as a class,
      so that the decoders never depend on how a float is represented. *)

From Stdlib Require Import ZArith List String Ascii Bool Lia Permutation Sorted.
From Stdlib Require Import Reals.
From stdpp Require Import base list.
Import ListNotations.

Local Open Scope string_scope.
Local Open Scope list_scope.
Local Open Scope Z_scope.

Set Default Proof Using "Type".
Set Warnings "-register-all".

(** ** JavaScript built-ins used by the decoders *)

Module JS.

  (** Truthiness of an optional string: [undefined] and the empty string
      are falsy. *)
Definition truthy (o : option string) : bool :=
    match o with
    | Some s => negb (String.eqb s "")
    | None => false
    end.

  (** [a || b] on strings. *)
Definition or_else (a b : string) : string :=
    if String.eqb a "" then b else a.

  (** [o === s] for an optional string and a string literal. *)
Definition strict_eq (o : option string) (s : string) : bool :=
    match o with
    | Some x => String.eqb x s
    | None => false
    end.

  (** [a ?? b]. *)
Definition nullish {A : Type} (o : option A) (d : A) : A :=
    match o with
    | Some a => a
    | None => d
    end.

  (** [list.includes(s)] on a list of strings. *)
Fixpoint includes (l : list string) (s : string) : bool :=
    match l with
    | [] => false
    | x :: r => String.eqb x s || includes r s
    end.

  (** [s.split(sep)] for a one-character separator: the pieces between the
      occurrences of [sep], never an empty list. *)
Fixpoint split_aux (sep : ascii) (s : string) (cur : string) : list string :=
    match s with
    | EmptyString => [cur]
    | String c r =>
        if Ascii.eqb c sep
        then cur :: split_aux sep r EmptyString
        else split_aux sep r (cur ++ String c EmptyString)%string
    end.

Definition split (sep : ascii) (s : string) : list string :=
    split_aux sep s EmptyString.

  (** [s.replace(/c/g, d)] for single characters. *)
Fixpoint replace_all (c d : ascii) (s : string) : string :=
    match s with
    | EmptyString => EmptyString
    | String x r => String (if Ascii.eqb x c then d else x) (replace_all c d r)
    end.

  (** White space of [String.prototype.trim] among the one-byte characters
      the reader produces: TAB, LF, VT, FF, CR, SP and NBSP. *)
Definition is_white (c : ascii) : bool :=
    let n := nat_of_ascii c in
    ((9 <=? n)%nat && (n <=? 13)%nat) || (n =? 32)%nat || (n =? 160)%nat.

Fixpoint trim_start (s : string) : string :=
    match s with
    | EmptyString => EmptyString
    | String c r => if is_white c then trim_start r else s
    end.

Fixpoint rev_string (s acc : string) : string :=
    match s with
    | EmptyString => acc
    | String c r => rev_string r (String c acc)
    end.

Definition trim (s : string) : string :=
    rev_string (trim_start (rev_string (trim_start s) EmptyString)) EmptyString.

  (** [array.pop()] read only for its result: the last element. *)
Definition pop {A : Type} (l : list A) : option A := last l.

  (** One hexadecimal digit, lower case as [toString(16)] prints it. *)
Definition hex_digit (d : Z) : string :=
    match d with
    | 0 => "0" | 1 => "1" | 2 => "2" | 3 => "3"
    | 4 => "4" | 5 => "5" | 6 => "6" | 7 => "7"
    | 8 => "8" | 9 => "9" | 10 => "a" | 11 => "b"
    | 12 => "c" | 13 => "d" | 14 => "e" | _ => "f"
    end.

Fixpoint toString16_aux (fuel : nat) (n : Z) (acc : string) : string :=
    match fuel with
    | O => acc
    | S k =>
        let acc' := (hex_digit (n mod 16) ++ acc)%string in
        if n / 16 =? 0 then acc' else toString16_aux k (n / 16) acc'
    end.

  (** [n.toString(16)] for a non-negative integer. *)
Definition toString16 (n : Z) : string :=
    toString16_aux (S (Z.to_nat (Z.log2 n))) n "".

Fixpoint repeat_string (n : nat) (c : string) : string :=
    match n with
    | O => ""
    | S k => (c ++ repeat_string k c)%string
    end.

  (** [s.padStart(w, c)] for a one-character filler. *)
Definition padStart (w : nat) (c : string) (s : string) : string :=
    (repeat_string (w - String.length s) c ++ s)%string.

  (** The numbers that [parseInt] gives: NaN for a text that does not
      start with an integer, an infinity for a digit string beyond the
      range of a double, and otherwise an integer (it stands for the double
      nearest to it; the two zeros are not told apart). *)
Inductive Integer : Type :=
| NaN
| Infinite (negative : bool)
| Finite (z : Z).

  (** What a sort reads of the number that a comparator returns. *)
Inductive Sign : Type := Negative | Zero | Positive | NotANumber.

Definition sign_of (z : Z) : Sign :=
    if z <? 0 then Negative else if z =? 0 then Zero else Positive.

  (** The sign of [a - b]. The difference of two doubles has the sign of
      the exact difference; two infinities of one sign give NaN, and so
      does a NaN on either side. *)
Definition minus_sign (a b : Integer) : Sign :=
    match a, b with
    | NaN, _ | _, NaN => NotANumber
    | Infinite s, Infinite s' =>
        if Bool.eqb s s' then NotANumber else if s then Negative else Positive
    | Infinite s, Finite _ => if s then Negative else Positive
    | Finite _, Infinite s => if s then Positive else Negative
    | Finite x, Finite y => sign_of (x - y)
    end.

  (** [a <= b] on these numbers: false as soon as one of them is NaN. *)
Definition leb (a b : Integer) : bool :=
    match a, b with
    | NaN, _ | _, NaN => false
    | Infinite true, _ => true
    | Infinite false, Infinite false => true
    | Infinite false, _ => false
    | Finite _, Infinite s => negb s
    | Finite x, Finite y => x <=? y
    end.

  (** [Array.prototype.sort(cmp)]. A comparator result that is NaN counts
      as zero. The language requires a stable sort, and for a consistent
      comparator the result is the stable sorted arrangement, which
      insertion from the right computes. For a comparator that is not
      consistent the language leaves the order to the engine; the result
      is a permutation all the same, and the insertion stands for the
      engine there. *)
Section Sort.
Context {A : Type} (cmp : A -> A -> Sign).

Fixpoint sort_insert (x : A) (l : list A) : list A :=
      match l with
      | [] => [x]
      | y :: r =>
          match cmp x y with
          | Positive => y :: sort_insert x r
          | _ => x :: y :: r
          end
      end.

Definition sort (l : list A) : list A := foldr sort_insert [] l.
End Sort.

  (** [new Uint8Array(buffer, byteOffset, length)]: a view of [length]
      bytes, or a RangeError ([None]) when it does not fit the buffer. *)
Definition Uint8Array_view (buffer : list Z) (byteOffset len : Z) : option (list Z) :=
    if (0 <=? byteOffset) && (0 <=? len)
       && (byteOffset + len <=? Z.of_nat (length buffer))
    then Some (take (Z.to_nat len) (drop (Z.to_nat byteOffset) buffer))
    else None.

  (** The conversions between strings and floating-point numbers that the
      decoders call. *)
Class Number (number : Type) := {
    Number_of_string : string -> number;   (* Number(s) *)
    isNaN : number -> bool;
    toString : number -> string;           (* x.toString() *)
    of_Z : Z -> number                     (* an integer literal *)
  }.

  (** The arithmetic of [Math] and of the operators that the annotation
      renderer uses. *)
Class Arith (number : Type) := {
    add : number -> number -> number;
    sub : number -> number -> number;
    mul : number -> number -> number;
    div : number -> number -> number;
    square : number -> number;             (* x ** 2 *)
    sqrt : number -> number;               (* Math.sqrt *)
    atan2 : number -> number -> number;    (* Math.atan2 *)
    PI : number;                           (* Math.PI *)
    lit : Z -> number                      (* an integer literal *)
  }.

End JS.

(** ** The dataset surface of the byte-stream reader *)

Definition Tag := string.

Section DataSet.
Context {number : Type}.

  (** [elements[tag]] is the lookup itself; an element of a sequence has
      [items], each carrying the nested dataset (or none). [float(tag, i)]
      reads four bytes at the offset of the element plus [4 * i], whatever
      the length of the element: it throws when that is past the end of
      the buffer ([None]), and answers [undefined] ([Some None]) or a
      number. *)
Inductive DataSet : Type := mkDataSet {
    byteArray : list Z;
    string_ : Tag -> option string;
    intString : Tag -> option JS.Integer;
    uint16 : Tag -> option Z;
    floatString : Tag -> option number;
    float : Tag -> nat -> option (option number);
    elements : Tag -> option Element
  }
  with Element : Type := mkElement {
    length_ : Z;
    dataOffset : Z;
    items : option (list Item)
  }
  with Item : Type := mkItem {
    dataSet : option DataSet
  }.

  (** [seq?.items?.[0]?.dataSet] *)
Definition first_item_dataSet (seq : option Element) : option DataSet :=
    match seq with
    | Some e =>
        match items e with
        | Some (it :: _) => dataSet it
        | _ => None
        end
    | None => None
    end.

  (** [seq?.items] *)
Definition items_of (seq : option Element) : option (list Item) :=
    match seq with
    | Some e => items e
    | None => None
    end.

End DataSet.

Arguments DataSet : clear implicits.
Arguments Element : clear implicits.
Arguments Item : clear implicits.

(** ** types.ts: the assembled object graph *)

(** The branded identifier types are strings at run time; the [create...]
    functions are the identity casts of the source. *)
Definition StudyInstanceUID := string.
Definition SeriesInstanceUID := string.
Definition SOPInstanceUID := string.

Definition createStudyUID (uid : string) : StudyInstanceUID := uid.
Definition createSeriesUID (uid : string) : SeriesInstanceUID := uid.
Definition createSOPUID (uid : string) : SOPInstanceUID := uid.

(** A finding of a structured report; [children] is the optional list of
    nested findings. *)
Inductive ReportFinding : Type := mkReportFinding {
  conceptName : string;
  value : string;
  valueType : string;
  unit_ : option string;
  children : option (list ReportFinding);
  referencedImageUID : option string
}.

Record DicomReport : Type := mkDicomReport {
  sr_sopInstanceUID : SOPInstanceUID;
  sr_seriesInstanceUID : SeriesInstanceUID;
  contentDate : option string;
  completionFlag : string;
  verificationFlag : string;
  findings : list ReportFinding
}.

Record KeyObjectSelection : Type := mkKeyObjectSelection {
  ko_sopInstanceUID : SOPInstanceUID;
  title : string;
  description : option string;
  keyImages : list SOPInstanceUID
}.

Inductive GraphicType : Type := POINT | POLYLINE | CIRCLE | ELLIPSE | TEXT.

Inductive LoadingPhase : Type := scanning | extracting | parsing | loading.

Record LoadingProgress : Type := mkLoadingProgress {
  phase : LoadingPhase;
  current : Z;
  total : Z;
  currentFile : option string;
  message : option string
}.

Section Types.
Context {number : Type}.

Record GraphicOverlay : Type := mkGraphicOverlay {
  group : Z;
  ov_rows : Z;
  ov_columns : Z;
  ov_type : string;
  origin : number * number;
  bitsAllocated : Z;
  data : list Z;
  ov_description : option string;
  label : option string
}.

Record DicomImage : Type := mkDicomImage {
  sopInstanceUID : SOPInstanceUID;
  seriesInstanceUID : SeriesInstanceUID;
  instanceNumber : JS.Integer;
  filePath : string;
  rows : Z;
  columns : Z;
  windowCenter : option number;
  windowWidth : option number;
  sliceLocation : option number;
  sliceThickness : option number;
  overlays : option (list GraphicOverlay)
}.

Record DicomSeries : Type := mkDicomSeries {
  se_seriesInstanceUID : SeriesInstanceUID;
  se_studyInstanceUID : StudyInstanceUID;
  seriesNumber : JS.Integer;
  seriesDescription : string;
  bodyPart : option string;
  se_modality : string;
  images : list DicomImage
}.

Record GraphicAnnotation : Type := mkGraphicAnnotation {
  graphicType : GraphicType;
  graphicData : list number;
  textValue : option string
}.

Record PresentationState : Type := mkPresentationState {
  pr_sopInstanceUID : SOPInstanceUID;
  referencedImageUIDs : list SOPInstanceUID;
  pr_windowCenter : option number;
  pr_windowWidth : option number;
  presentationLabel : option string;
  graphicAnnotations : option (list GraphicAnnotation)
}.

Record DicomStudy : Type := mkDicomStudy {
  studyInstanceUID : StudyInstanceUID;
  patientName : string;
  patientId : string;
  studyDate : string;
  studyDescription : string;
  modality : string;
  institutionName : option string;
  referringPhysician : option string;
  series : list DicomSeries;
  reports : list DicomReport;
  keyObjectSelections : list KeyObjectSelection;
  presentationStates : list PresentationState
}.

End Types.

Arguments GraphicOverlay : clear implicits.
Arguments DicomImage : clear implicits.
Arguments DicomSeries : clear implicits.
Arguments GraphicAnnotation : clear implicits.
Arguments PresentationState : clear implicits.
Arguments DicomStudy : clear implicits.

(** ** dicom-utils.ts *)

Definition formatDicomDate (dateStr : option string) : string :=
  match dateStr with
  | Some s =>
      if String.eqb s "" || negb (String.length s =? 8)%nat
      then "Unknown Date"
      else (substring 0 4 s ++ "-" ++ substring 4 2 s ++ "-" ++ substring 6 2 s)%string
  | None => "Unknown Date"
  end.

(** ** dicom-sr.ts: the content-tree decoder *)

Module DicomSR.
Section WithNumber.
Context {number : Type} `{JS.Number number}.

Definition SR_SOP_CLASSES : list string :=
  [ "1.2.840.10008.5.1.4.1.1.88.11";
    "1.2.840.10008.5.1.4.1.1.88.22";
    "1.2.840.10008.5.1.4.1.1.88.33";
    "1.2.840.10008.5.1.4.1.1.88.34";
    "1.2.840.10008.5.1.4.1.1.88.35";
    "1.2.840.10008.5.1.4.1.1.88.40";
    "1.2.840.10008.5.1.4.1.1.88.50";
    "1.2.840.10008.5.1.4.1.1.88.65";
    "1.2.840.10008.5.1.4.1.1.88.67";
    "1.2.840.10008.5.1.4.1.1.88.68";
    "1.2.840.10008.5.1.4.1.1.88.69";
    "1.2.840.10008.5.1.4.1.1.88.70";
    "1.2.840.10008.5.1.4.1.1.88.71";
    "1.2.840.10008.5.1.4.1.1.88.72";
    "1.2.840.10008.5.1.4.1.1.88.73";
    "1.2.840.10008.5.1.4.1.1.88.74";
    "1.2.840.10008.5.1.4.1.1.88.75";
    "1.2.840.10008.5.1.4.1.1.88.76" ].

Definition isSRFile (dataSet : DataSet number) : bool :=
  let sopClassUID := string_ dataSet "x00080016" in
  if negb (JS.truthy sopClassUID) then false
  else JS.includes SR_SOP_CLASSES (JS.nullish sopClassUID "").

(** Concept Name Code Sequence (0040,A043), Code Meaning (0008,0104). *)
Definition getConceptName (dataSet : DataSet number) : string :=
  match first_item_dataSet (elements dataSet "x0040a043") with
  | None => ""
  | Some cnDataSet => JS.nullish (string_ cnDataSet "x00080104") ""
  end.

(** The value, unit and image reference of an item, by its value type
    (the [switch] of [parseContentItem]). *)
Definition contentValue (itemDataSet : DataSet number) (valueType conceptName : string)
  : string * option string * option string :=
  if String.eqb valueType "TEXT" then
    (JS.nullish (string_ itemDataSet "x0040a160") "", None, None)
  else if String.eqb valueType "NUM" then
    match first_item_dataSet (elements itemDataSet "x0040a300") with
    | Some mvDataSet =>
        let numericValue := floatString mvDataSet "x0040a30a" in
        let value := JS.nullish (option_map JS.toString numericValue) "" in
        let unit :=
          match first_item_dataSet (elements mvDataSet "x004008ea") with
          | Some unitDataSet => string_ unitDataSet "x00080104"
          | None => None
          end in
        (value, unit, None)
    | None => ("", None, None)
    end
  else if String.eqb valueType "CODE" then
    match first_item_dataSet (elements itemDataSet "x0040a168") with
    | Some codeDataSet => (JS.nullish (string_ codeDataSet "x00080104") "", None, None)
    | None => ("", None, None)
    end
  else if String.eqb valueType "IMAGE" then
    match first_item_dataSet (elements itemDataSet "x00081199") with
    | Some refDataSet =>
        (JS.or_else conceptName "Image Reference", None, string_ refDataSet "x00081155")
    | None => ("", None, None)
    end
  else if String.eqb valueType "CONTAINER" then
    (JS.or_else conceptName "Container", None, None)
  else
    (JS.or_else conceptName valueType, None, None).

(** [parseContentItem] on a dataset that is present: the part of the
    function after [if (!itemDataSet) return null]. *)
Fixpoint parseContentItem_present (itemDataSet : DataSet number) : option ReportFinding :=
  let valueType := string_ itemDataSet "x0040a040" in
  if negb (JS.truthy valueType) then None
  else
    let valueType := JS.nullish valueType "" in
    let conceptName := getConceptName itemDataSet in
    let '(value, unit, referencedImageUID) :=
      contentValue itemDataSet valueType conceptName in
    let contentSequence := elements itemDataSet "x0040a730" in
    let children :=
      match contentSequence with
      | Some e =>
          match items e with
          | Some childItems =>
              let children :=
                (fix each (l : list (Item number)) : list ReportFinding :=
                   match l with
                   | [] => []
                   | childItem :: rest =>
                       match dataSet childItem with
                       | Some d =>
                           match parseContentItem_present d with
                           | Some childFinding => childFinding :: each rest
                           | None => each rest
                           end
                       | None => each rest
                       end
                   end) childItems in
              if (length children =? 0)%nat then None else Some children
          | None => None
          end
      | None => None
      end in
    Some {| conceptName := JS.or_else conceptName "Finding";
            value := value;
            valueType := valueType;
            unit_ := unit;
            children := children;
            referencedImageUID := referencedImageUID |}.

Definition parseContentItem (itemDataSet : option (DataSet number)) : option ReportFinding :=
  match itemDataSet with
  | None => None
  | Some d => parseContentItem_present d
  end.

(** The loop [for (const item of items) { f = parseContentItem(item.dataSet);
    if (f) push(f) }] shared by the two places that decode a sequence. *)
Fixpoint collectFindings (l : list (Item number)) : list ReportFinding :=
  match l with
  | [] => []
  | item :: rest =>
      match parseContentItem (dataSet item) with
      | Some finding => finding :: collectFindings rest
      | None => collectFindings rest
      end
  end.

Definition parseContentSequence (dataSet : DataSet number) : list ReportFinding :=
  match items_of (elements dataSet "x0040a730") with
  | None => []
  | Some contentItems => collectFindings contentItems
  end.

Definition parseSR (dataSet : DataSet number) (filePath : string) : option DicomReport :=
  let sopInstanceUID := string_ dataSet "x00080018" in
  let seriesInstanceUID := string_ dataSet "x0020000e" in
  if negb (JS.truthy sopInstanceUID) || negb (JS.truthy seriesInstanceUID) then None
  else
    let completionFlag := string_ dataSet "x0040a491" in
    let verificationFlag := string_ dataSet "x0040a493" in
    let contentDate := string_ dataSet "x00080023" in
    let findings := parseContentSequence dataSet in
    Some {| sr_sopInstanceUID := createSOPUID (JS.nullish sopInstanceUID "");
            sr_seriesInstanceUID := createSeriesUID (JS.nullish seriesInstanceUID "");
            contentDate :=
              if JS.truthy contentDate then Some (formatDicomDate contentDate) else None;
            completionFlag := JS.nullish completionFlag "COMPLETE";
            verificationFlag := JS.nullish verificationFlag "UNVERIFIED";
            findings := findings |}.

End WithNumber.
End DicomSR.

(** ** dicom-ko.ts: key-object selections *)

Module DicomKO.
Section WithNumber.
Context {number : Type}.

Definition KO_SOP_CLASS : string := "1.2.840.10008.5.1.4.1.1.88.59".

Definition isKOFile (dataSet : DataSet number) : bool :=
  JS.strict_eq (string_ dataSet "x00080016") KO_SOP_CLASS.

Definition getKOTitle (dataSet : DataSet number) : string :=
  match first_item_dataSet (elements dataSet "x0040a043") with
  | Some cnDataSet => JS.nullish (string_ cnDataSet "x00080104") ""
  | None => ""
  end.

Fixpoint firstTextValue (l : list (Item number)) : option string :=
  match l with
  | [] => None
  | item :: rest =>
      match dataSet item with
      | None => firstTextValue rest
      | Some itemDS =>
          if JS.strict_eq (string_ itemDS "x0040a040") "TEXT"
          then
            let textValue := string_ itemDS "x0040a160" in
            if JS.truthy textValue then textValue else firstTextValue rest
          else firstTextValue rest
      end
  end.

Definition getKODescription (dataSet : DataSet number) : option string :=
  match items_of (elements dataSet "x0040a730") with
  | None => None
  | Some contentItems => firstTextValue contentItems
  end.

(** The block that the source writes twice, once per level: when the item
    is IMAGE-typed, push the Referenced SOP Instance UID of the first item
    of its Referenced SOP Sequence (0008,1199), if it has one. *)
Definition pushImageReference (itemDS : DataSet number) (keyImages : list SOPInstanceUID)
  : list SOPInstanceUID :=
  if JS.strict_eq (string_ itemDS "x0040a040") "IMAGE" then
    match first_item_dataSet (elements itemDS "x00081199") with
    | Some refDataSet =>
        let refUID := string_ refDataSet "x00081155" in
        if JS.truthy refUID
        then keyImages ++ [createSOPUID (JS.nullish refUID "")]
        else keyImages
    | None => keyImages
    end
  else keyImages.

(** The inner loop over [nestedContentSeq.items]. *)
Fixpoint eachNestedItem (l : list (Item number)) (keyImages : list SOPInstanceUID)
  : list SOPInstanceUID :=
  match l with
  | [] => keyImages
  | nestedItem :: rest =>
      match dataSet nestedItem with
      | None => eachNestedItem rest keyImages
      | Some nestedDS => eachNestedItem rest (pushImageReference nestedDS keyImages)
      end
  end.

(** The outer loop over [contentSeq.items]. *)
Fixpoint eachItem (l : list (Item number)) (keyImages : list SOPInstanceUID)
  : list SOPInstanceUID :=
  match l with
  | [] => keyImages
  | item :: rest =>
      match dataSet item with
      | None => eachItem rest keyImages
      | Some itemDS =>
          let keyImages := pushImageReference itemDS keyImages in
          let keyImages :=
            match items_of (elements itemDS "x0040a730") with
            | Some nestedItems => eachNestedItem nestedItems keyImages
            | None => keyImages
            end in
          eachItem rest keyImages
      end
  end.

Definition parseReferencedImages (dataSet : DataSet number) : list SOPInstanceUID :=
  match items_of (elements dataSet "x0040a730") with
  | None => []
  | Some contentItems => eachItem contentItems []
  end.

Definition parseKO (dataSet : DataSet number) (filePath : string) : option KeyObjectSelection :=
  let sopInstanceUID := string_ dataSet "x00080018" in
  if negb (JS.truthy sopInstanceUID) then None
  else
    let title := getKOTitle dataSet in
    let description := getKODescription dataSet in
    let keyImages := parseReferencedImages dataSet in
    if (length keyImages =? 0)%nat then None
    else
      Some {| ko_sopInstanceUID := createSOPUID (JS.nullish sopInstanceUID "");
              title := JS.or_else title "Key Images";
              description := description;
              keyImages := keyImages |}.

End WithNumber.
End DicomKO.

(** ** dicom-pr.ts: presentation states *)

Module DicomPR.
Section WithNumber.
Context {number : Type} `{JS.Number number}.

Definition PR_SOP_CLASSES : list string :=
  [ "1.2.840.10008.5.1.4.1.1.11.1";
    "1.2.840.10008.5.1.4.1.1.11.2";
    "1.2.840.10008.5.1.4.1.1.11.3";
    "1.2.840.10008.5.1.4.1.1.11.4";
    "1.2.840.10008.5.1.4.1.1.11.5";
    "1.2.840.10008.5.1.4.1.1.11.6";
    "1.2.840.10008.5.1.4.1.1.11.7";
    "1.2.840.10008.5.1.4.1.1.11.8";
    "1.2.840.10008.5.1.4.1.1.11.9";
    "1.2.840.10008.5.1.4.1.1.11.10";
    "1.2.840.10008.5.1.4.1.1.11.11";
    "1.2.840.10008.5.1.4.1.1.11.12" ].

Definition isPRFile (dataSet : DataSet number) : bool :=
  let sopClassUID := string_ dataSet "x00080016" in
  if negb (JS.truthy sopClassUID) then false
  else JS.includes PR_SOP_CLASSES (JS.nullish sopClassUID "").

(** Inner loop over the Referenced Image Sequence (0008,1140). *)
Fixpoint eachImageItem (l : list (Item number)) (imageUIDs : list SOPInstanceUID)
  : list SOPInstanceUID :=
  match l with
  | [] => imageUIDs
  | imageItem :: rest =>
      match dataSet imageItem with
      | None => eachImageItem rest imageUIDs
      | Some imageDS =>
          let refUID := string_ imageDS "x00081155" in
          if JS.truthy refUID
          then eachImageItem rest (imageUIDs ++ [createSOPUID (JS.nullish refUID "")])
          else eachImageItem rest imageUIDs
      end
  end.

(** Outer loop over the Referenced Series Sequence (0008,1115). *)
Fixpoint eachSeriesItem (l : list (Item number)) (imageUIDs : list SOPInstanceUID)
  : list SOPInstanceUID :=
  match l with
  | [] => imageUIDs
  | seriesItem :: rest =>
      match dataSet seriesItem with
      | None => eachSeriesItem rest imageUIDs
      | Some seriesDS =>
          match items_of (elements seriesDS "x00081140") with
          | None => eachSeriesItem rest imageUIDs
          | Some imageItems => eachSeriesItem rest (eachImageItem imageItems imageUIDs)
          end
      end
  end.

Definition parseReferencedImages (dataSet : DataSet number) : list SOPInstanceUID :=
  match items_of (elements dataSet "x00081115") with
  | None => []
  | Some seriesItems => eachSeriesItem seriesItems []
  end.

Definition parseVOILUT (dataSet : DataSet number) : option number * option number :=
  match first_item_dataSet (elements dataSet "x00283110") with
  | None => (None, None)
  | Some voiDS => (floatString voiDS "x00281050", floatString voiDS "x00281051")
  end.

(** [for (i = 0; i < numFloats; i++) { v = float(tag, i); if (v !== undefined)
    coords.push(v) }], from index [i] for [n] more rounds; [None] when a
    read throws. *)
Fixpoint readFloats (objectDS : DataSet number) (i : nat) (n : nat) (coords : list number)
  : option (list number) :=
  match n with
  | O => Some coords
  | S k =>
      match float objectDS "x00700022" i with
      | None => None
      | Some (Some floatValue) => readFloats objectDS (S i) k (coords ++ [floatValue])
      | Some None => readFloats objectDS (S i) k coords
      end
  end.

(** The test of the element length against the point count has an empty
    body in the source: the reads go on to the count that the file
    announces. [None] when a read throws. *)
Definition parseGraphicData (objectDS : DataSet number) : option (list number) :=
  match elements objectDS "x00700022" with
  | None => Some []
  | Some graphicDataElement =>
      let numPoints := JS.nullish (uint16 objectDS "x00700021") 0 in
      if numPoints =? 0 then Some []
      else
        let numFloats := numPoints * 2 in
        readFloats objectDS 0 (Z.to_nat numFloats) []
  end.

Definition mapGraphicType (graphicType : string) : GraphicType :=
  if String.eqb graphicType "POINT" then POINT
  else if String.eqb graphicType "POLYLINE" || String.eqb graphicType "INTERPOLATED"
  then POLYLINE
  else if String.eqb graphicType "CIRCLE" then CIRCLE
  else if String.eqb graphicType "ELLIPSE" then ELLIPSE
  else POLYLINE.

(** [None] when reading the coordinates throws, [Some None] for the
    [null] of the source. *)
Definition parseGraphicObject (objectDS : DataSet number)
  : option (option (GraphicAnnotation number)) :=
  let graphicType := string_ objectDS "x00700023" in
  if negb (JS.truthy graphicType) then Some None
  else
    let mappedType := mapGraphicType (JS.nullish graphicType "") in
    match parseGraphicData objectDS with
    | None => None
    | Some graphicData =>
        if (length graphicData =? 0)%nat then Some None
        else Some (Some {| graphicType := mappedType;
                           graphicData := graphicData;
                           textValue := None |})
    end.

(** [str.split('\\').map(Number)] accepted when it has at least two parts
    and none is NaN; the empty list otherwise. *)
Definition parsePosition (str : option string) : list number :=
  if JS.truthy str then
    let parts := map JS.Number_of_string (JS.split "\" (JS.nullish str "")) in
    if (2 <=? length parts)%nat && negb (existsb JS.isNaN parts) then parts else []
  else [].

Definition parseTextObject (textDS : DataSet number) : option (GraphicAnnotation number) :=
  let textValue := string_ textDS "x00700006" in
  if negb (JS.truthy textValue) then None
  else
    let graphicData := parsePosition (string_ textDS "x00700014") in
    let graphicData :=
      if (length graphicData =? 0)%nat
      then graphicData ++ parsePosition (string_ textDS "x00700010")
      else graphicData in
    let graphicData :=
      if (length graphicData =? 0)%nat
      then graphicData ++ [JS.of_Z 0; JS.of_Z 0]
      else graphicData in
    Some {| graphicType := TEXT;
            graphicData := graphicData;
            textValue := textValue |}.

(** A loop over object items; [parse] answers [None] when it throws, and
    the loop with it. *)
Fixpoint eachObjectItem
  (parse : DataSet number -> option (option (GraphicAnnotation number)))
  (l : list (Item number)) (annotations : list (GraphicAnnotation number))
  : option (list (GraphicAnnotation number)) :=
  match l with
  | [] => Some annotations
  | objectItem :: rest =>
      match dataSet objectItem with
      | None => eachObjectItem parse rest annotations
      | Some objectDS =>
          match parse objectDS with
          | None => None
          | Some (Some annotation) => eachObjectItem parse rest (annotations ++ [annotation])
          | Some None => eachObjectItem parse rest annotations
          end
      end
  end.

Fixpoint eachAnnotationItem (l : list (Item number))
  (annotations : list (GraphicAnnotation number))
  : option (list (GraphicAnnotation number)) :=
  match l with
  | [] => Some annotations
  | annotationItem :: rest =>
      match dataSet annotationItem with
      | None => eachAnnotationItem rest annotations
      | Some annotationDS =>
          match
            match items_of (elements annotationDS "x00700009") with
            | Some objectItems => eachObjectItem parseGraphicObject objectItems annotations
            | None => Some annotations
            end
          with
          | None => None
          | Some annotations =>
              match
                match items_of (elements annotationDS "x00700008") with
                | Some textItems =>
                    eachObjectItem (fun textDS => Some (parseTextObject textDS))
                      textItems annotations
                | None => Some annotations
                end
              with
              | None => None
              | Some annotations => eachAnnotationItem rest annotations
              end
          end
      end
  end.

(** [None] when reading the coordinates of a graphic object throws. *)
Definition parseGraphicAnnotations (dataSet : DataSet number)
  : option (list (GraphicAnnotation number)) :=
  match items_of (elements dataSet "x00700001") with
  | None => Some []
  | Some annotationItems => eachAnnotationItem annotationItems []
  end.

(** [None] for the [null] of the source, and also when decoding the
    annotations throws: the caller tests the result inside its [try], so
    that both end as its own [null]. *)
Definition parsePR (dataSet : DataSet number) (filePath : string)
  : option (PresentationState number) :=
  let sopInstanceUID := string_ dataSet "x00080018" in
  if negb (JS.truthy sopInstanceUID) then None
  else
    let referencedImageUIDs := parseReferencedImages dataSet in
    if (length referencedImageUIDs =? 0)%nat then None
    else
      let '(windowCenter, windowWidth) := parseVOILUT dataSet in
      let presentationLabel := string_ dataSet "x00700080" in
      match parseGraphicAnnotations dataSet with
      | None => None
      | Some graphicAnnotations =>
          Some {| pr_sopInstanceUID := createSOPUID (JS.nullish sopInstanceUID "");
                  referencedImageUIDs := referencedImageUIDs;
                  pr_windowCenter := windowCenter;
                  pr_windowWidth := windowWidth;
                  presentationLabel := presentationLabel;
                  graphicAnnotations :=
                    if (0 <? length graphicAnnotations)%nat
                    then Some graphicAnnotations else None |}
      end.

End WithNumber.
End DicomPR.

(** ** AnnotationOverlay.tsx: geometric reconstruction at render time *)

Module AnnotationOverlay.
Section WithNumber.
Context {number : Type} `{JS.Arith number}.

(** The SVG element a shape renders to, with the attributes that carry
    geometry; [points] of a polyline are the [x,y] pairs that the source
    joins into the attribute string. *)
Inductive SvgElement : Type :=
| svg_circle (cx cy r : number) (fill stroke : string)
| svg_polyline (points : list (number * option number))
| svg_ellipse (cx cy rx ry rotation : number)
| svg_text (x y : number) (content : string).

Definition strokeColor : string := "#00ff00".

(** [for (i = 0; i < graphicData.length; i += 2) points.push(`${g[i]},${g[i+1]}`)] *)
Fixpoint polylinePoints (graphicData : list number) : list (number * option number) :=
  match graphicData with
  | [] => []
  | [x] => [(x, None)]
  | x :: y :: rest => (x, Some y) :: polylinePoints rest
  end.

Definition AnnotationShape (annotation : GraphicAnnotation number) : option SvgElement :=
  let graphicData := graphicData annotation in
  let textValue := textValue annotation in
  match graphicType annotation with
  | POINT =>
      if (length graphicData <? 2)%nat then None
      else
        match graphicData with
        | x :: y :: _ => Some (svg_circle x y (JS.lit 4) strokeColor "none")
        | _ => None
        end
  | POLYLINE =>
      if (length graphicData <? 4)%nat then None
      else Some (svg_polyline (polylinePoints graphicData))
  | CIRCLE =>
      if (length graphicData <? 4)%nat then None
      else
        match graphicData with
        | cx :: cy :: px :: py :: _ =>
            let radius :=
              JS.sqrt (JS.add (JS.square (JS.sub px cx)) (JS.square (JS.sub py cy))) in
            Some (svg_circle cx cy radius "none" strokeColor)
        | _ => None
        end
  | ELLIPSE =>
      if (length graphicData <? 8)%nat then None
      else
        match graphicData with
        | ax1 :: ay1 :: ax2 :: ay2 :: bx1 :: by1 :: bx2 :: by2 :: _ =>
            let cx := JS.div (JS.add ax1 ax2) (JS.lit 2) in
            let cy := JS.div (JS.add ay1 ay2) (JS.lit 2) in
            let rx :=
              JS.div (JS.sqrt (JS.add (JS.square (JS.sub ax2 ax1))
                                      (JS.square (JS.sub ay2 ay1)))) (JS.lit 2) in
            let ry :=
              JS.div (JS.sqrt (JS.add (JS.square (JS.sub bx2 bx1))
                                      (JS.square (JS.sub by2 by1)))) (JS.lit 2) in
            let rotation :=
              JS.mul (JS.atan2 (JS.sub ay2 ay1) (JS.sub ax2 ax1))
                     (JS.div (JS.lit 180) JS.PI) in
            Some (svg_ellipse cx cy rx ry rotation)
        | _ => None
        end
  | TEXT =>
      if (length graphicData <? 2)%nat || negb (JS.truthy textValue) then None
      else
        match graphicData with
        | x :: y :: _ => Some (svg_text x y (JS.nullish textValue ""))
        | _ => None
        end
  end.

End WithNumber.
End AnnotationOverlay.

(** ** A JavaScript [Map] with string keys

    Entries in insertion order, keys unique: [set] on a key already present
    replaces the value in place. *)

Module JSMap.
Section Map.
Context {V : Type}.

Definition t : Type := list (string * V).

Fixpoint get (m : t) (k : string) : option V :=
  match m with
  | [] => None
  | (k', v) :: r => if String.eqb k' k then Some v else get r k
  end.

Definition has (m : t) (k : string) : bool :=
  match get m k with
  | Some _ => true
  | None => false
  end.

Fixpoint set (m : t) (k : string) (v : V) : t :=
  match m with
  | [] => [(k, v)]
  | (k', v') :: r => if String.eqb k' k then (k', v) :: r else (k', v') :: set r k v
  end.

(** A mutation of the object stored under [k] (the map holds references). *)
Fixpoint modify (m : t) (k : string) (f : V -> V) : t :=
  match m with
  | [] => []
  | (k', v) :: r => if String.eqb k' k then (k', f v) :: r else (k', v) :: modify r k f
  end.

Definition values (m : t) : list V := map snd m.

End Map.
Arguments t : clear implicits.
End JSMap.

(** ** dicom-loader.ts: the study assembler *)

Module DicomLoader.
Section WithReader.
Context {number : Type} `{JS.Number number}.

(** [window.electronAPI.readFile]: the bytes of the file, or a rejection. *)
Variable readFile : string -> option (list Z).

(** [dicomParser.parseDicom]: the dataset of the bytes, or an exception. *)
Variable parseDicom : list Z -> option (DataSet number).

Definition maxFileSize : Z := 500 * 1024 * 1024.

Inductive ParseResult : Type :=
| image (data : DicomImage number)
| report (data : DicomReport)
| keyObject (data : KeyObjectSelection)
| presentationState (data : PresentationState number).

(** One round of the loop of [unpackOverlayBits], from pixel [i] for [n]
    more rounds. *)
Fixpoint unpackFrom (packed : list Z) (i : Z) (n : nat) (unpacked : list Z) : list Z :=
  match n with
  | O => unpacked
  | S k =>
      let byteIndex := i / 8 in
      let bitIndex := i mod 8 in
      let unpacked :=
        if byteIndex <? Z.of_nat (length packed)
        then <[Z.to_nat i := Z.land (Z.shiftr (packed !!! Z.to_nat byteIndex) bitIndex) 1]>
               unpacked
        else unpacked in
      unpackFrom packed (i + 1) k unpacked
  end.

Definition unpackOverlayBits (packed : list Z) (numPixels : Z) : list Z :=
  let unpacked := replicate (Z.to_nat numPixels) 0 in
  unpackFrom packed 0 (Z.to_nat numPixels) unpacked.

(** The sixteen overlay groups [0x6000, 0x6002, ..., 0x601e]. *)
Definition overlayGroups : list Z :=
  map (fun k => 0x6000 + 2 * Z.of_nat k) (seq 0 16).

Definition overlayTag (group : Z) (suffix : string) : Tag :=
  let prefix := JS.padStart 4 "0" (JS.toString16 group) in
  ("x" ++ prefix ++ suffix)%string.

(** The body of the loop of [parseOverlays] for one group: [None] when the
    view of the packed data throws, [Some None] on [continue], and the
    overlay to push otherwise. *)
Definition parseOverlayGroup (dataSet : DataSet number) (group : Z)
  : option (option (GraphicOverlay number)) :=
  match uint16 dataSet (overlayTag group "0010") with
  | None => Some None
  | Some rows =>
      if rows =? 0 then Some None
      else
        match uint16 dataSet (overlayTag group "0011") with
        | None => Some None
        | Some columns =>
            if columns =? 0 then Some None
            else
              let type := JS.nullish (string_ dataSet (overlayTag group "0040")) "G" in
              let originStr := string_ dataSet (overlayTag group "0050") in
              let origin :=
                if JS.truthy originStr then
                  let parts :=
                    map JS.Number_of_string (JS.split "\" (JS.nullish originStr "")) in
                  if (2 <=? length parts)%nat && negb (existsb JS.isNaN parts)
                  then
                    match parts with
                    | p0 :: p1 :: _ => (p0, p1)
                    | _ => (JS.of_Z 1, JS.of_Z 1)
                    end
                  else (JS.of_Z 1, JS.of_Z 1)
                else (JS.of_Z 1, JS.of_Z 1) in
              match elements dataSet (overlayTag group "3000") with
              | None => Some None
              | Some dataElement =>
                  match JS.Uint8Array_view (byteArray dataSet)
                          (0 + dataOffset dataElement) (length_ dataElement) with
                  | None => None
                  | Some packedData =>
                      let unpackedData := unpackOverlayBits packedData (rows * columns) in
                      Some (Some {| group := group;
                                    ov_rows := rows;
                                    ov_columns := columns;
                                    ov_type := type;
                                    origin := origin;
                                    bitsAllocated := 1;
                                    data := unpackedData;
                                    ov_description :=
                                      string_ dataSet (overlayTag group "0022");
                                    label := string_ dataSet (overlayTag group "1500") |})
                  end
              end
        end
  end.

Fixpoint eachOverlayGroup (dataSet : DataSet number) (groups : list Z)
  (overlays : list (GraphicOverlay number)) : option (list (GraphicOverlay number)) :=
  match groups with
  | [] => Some overlays
  | group :: rest =>
      match parseOverlayGroup dataSet group with
      | None => None
      | Some None => eachOverlayGroup dataSet rest overlays
      | Some (Some overlay) => eachOverlayGroup dataSet rest (overlays ++ [overlay])
      end
  end.

(** [None] when an exception escapes (caught by the caller's [try]). *)
Definition parseOverlays (dataSet : DataSet number) : option (list (GraphicOverlay number)) :=
  eachOverlayGroup dataSet overlayGroups [].

Definition parseDicomFile (filePath : string) : option ParseResult :=
  match readFile filePath with
  | None => None
  | Some buffer =>
      if Z.of_nat (length buffer) >? maxFileSize then None
      else
        match parseDicom buffer with
        | None => None
        | Some dataSet =>
            if DicomSR.isSRFile dataSet then
              option_map report (DicomSR.parseSR dataSet filePath)
            else if DicomKO.isKOFile dataSet then
              option_map keyObject (DicomKO.parseKO dataSet filePath)
            else if DicomPR.isPRFile dataSet then
              option_map presentationState (DicomPR.parsePR dataSet filePath)
            else
              match elements dataSet "x7fe00010" with
              | None => None
              | Some pixelDataElement =>
                  let sopInstanceUID := string_ dataSet "x00080018" in
                  let seriesInstanceUID := string_ dataSet "x0020000e" in
                  let instanceNumber := JS.nullish (intString dataSet "x00200013") (JS.Finite 0) in
                  let rows := JS.nullish (uint16 dataSet "x00280010") 0 in
                  let columns := JS.nullish (uint16 dataSet "x00280011") 0 in
                  if negb (JS.truthy sopInstanceUID) || negb (JS.truthy seriesInstanceUID)
                  then None
                  else
                    let windowCenter := floatString dataSet "x00281050" in
                    let windowWidth := floatString dataSet "x00281051" in
                    let sliceLocation := floatString dataSet "x00201041" in
                    let sliceThickness := floatString dataSet "x00180050" in
                    match parseOverlays dataSet with
                    | None => None
                    | Some overlays =>
                        Some (image
                          {| sopInstanceUID := createSOPUID (JS.nullish sopInstanceUID "");
                             seriesInstanceUID :=
                               createSeriesUID (JS.nullish seriesInstanceUID "");
                             instanceNumber := instanceNumber;
                             filePath := filePath;
                             rows := rows;
                             columns := columns;
                             windowCenter := windowCenter;
                             windowWidth := windowWidth;
                             sliceLocation := sliceLocation;
                             sliceThickness := sliceThickness;
                             overlays :=
                               if (0 <? length overlays)%nat then Some overlays else None |})
                    end
              end
        end
  end.

(** [Partial<DicomStudy>]: the study-level fields read from one file. *)
Record StudyMetadata : Type := mkStudyMetadata {
  sm_studyInstanceUID : StudyInstanceUID;
  sm_patientName : string;
  sm_patientId : string;
  sm_studyDate : string;
  sm_studyDescription : string;
  sm_modality : string;
  sm_institutionName : option string;
  sm_referringPhysician : option string
}.

Definition parseStudyMetadata (filePath : string) : option StudyMetadata :=
  match readFile filePath with
  | None => None
  | Some buffer =>
      match parseDicom buffer with
      | None => None
      | Some dataSet =>
          let studyInstanceUID := string_ dataSet "x0020000d" in
          if negb (JS.truthy studyInstanceUID) then None
          else
            Some {| sm_studyInstanceUID := createStudyUID (JS.nullish studyInstanceUID "");
                    sm_patientName :=
                      JS.trim (JS.replace_all "^" " "
                                 (JS.nullish (string_ dataSet "x00100010") "Unknown"));
                    sm_patientId := JS.nullish (string_ dataSet "x00100020") "";
                    sm_studyDate := formatDicomDate (string_ dataSet "x00080020");
                    sm_studyDescription := JS.nullish (string_ dataSet "x00081030") "";
                    sm_modality := JS.nullish (string_ dataSet "x00080060") "";
                    sm_institutionName := string_ dataSet "x00080080";
                    sm_referringPhysician := string_ dataSet "x00080090" |}
      end
  end.

(** [Partial<DicomSeries>] as the loader completes it: the series-level
    fields read from one file, with the [images: []] of the spread. *)
Definition parseSeriesMetadata (filePath : string) : option (DicomSeries number) :=
  match readFile filePath with
  | None => None
  | Some buffer =>
      match parseDicom buffer with
      | None => None
      | Some dataSet =>
          let seriesInstanceUID := string_ dataSet "x0020000e" in
          let studyInstanceUID := string_ dataSet "x0020000d" in
          if negb (JS.truthy seriesInstanceUID) || negb (JS.truthy studyInstanceUID)
          then None
          else
            Some {| se_seriesInstanceUID :=
                      createSeriesUID (JS.nullish seriesInstanceUID "");
                    se_studyInstanceUID := createStudyUID (JS.nullish studyInstanceUID "");
                    seriesNumber := JS.nullish (intString dataSet "x00200011") (JS.Finite 0);
                    seriesDescription := JS.nullish (string_ dataSet "x0008103e") "";
                    bodyPart := string_ dataSet "x00180015";
                    se_modality := JS.nullish (string_ dataSet "x00080060") "";
                    images := [] |}
      end
  end.

(** The accumulators of the ingestion loop; [seriesMap] is the
    [Map<SeriesInstanceUID, DicomSeries>]. *)
Record Accumulators : Type := mkAccumulators {
  acc_images : list (DicomImage number);
  acc_reports : list DicomReport;
  acc_keyObjectSelections : list KeyObjectSelection;
  acc_presentationStates : list (PresentationState number);
  acc_seriesMap : JSMap.t (DicomSeries number)
}.

Definition emptyAccumulators : Accumulators :=
  {| acc_images := [];
     acc_reports := [];
     acc_keyObjectSelections := [];
     acc_presentationStates := [];
     acc_seriesMap := [] |}.

(** [for (const filePath of filePaths.slice(0, 10)) { studyMetadata = await
    parseStudyMetadata(filePath); if (studyMetadata) break; }] *)
Fixpoint findStudyMetadata (filePaths : list string) : option StudyMetadata :=
  match filePaths with
  | [] => None
  | filePath :: rest =>
      match parseStudyMetadata filePath with
      | Some studyMetadata => Some studyMetadata
      | None => findStudyMetadata rest
      end
  end.

(** The body of the ingestion loop after the progress event. *)
Definition ingestFile (filePath : string) (acc : Accumulators) : Accumulators :=
  match parseDicomFile filePath with
  | None => acc
  | Some (image img) =>
      let images := acc_images acc ++ [img] in
      let seriesMap := acc_seriesMap acc in
      let seriesMap :=
        if negb (JSMap.has seriesMap (seriesInstanceUID img)) then
          match parseSeriesMetadata filePath with
          | Some seriesMeta => JSMap.set seriesMap (seriesInstanceUID img) seriesMeta
          | None => seriesMap
          end
        else seriesMap in
      {| acc_images := images;
         acc_reports := acc_reports acc;
         acc_keyObjectSelections := acc_keyObjectSelections acc;
         acc_presentationStates := acc_presentationStates acc;
         acc_seriesMap := seriesMap |}
  | Some (report r) =>
      {| acc_images := acc_images acc;
         acc_reports := acc_reports acc ++ [r];
         acc_keyObjectSelections := acc_keyObjectSelections acc;
         acc_presentationStates := acc_presentationStates acc;
         acc_seriesMap := acc_seriesMap acc |}
  | Some (keyObject ko) =>
      {| acc_images := acc_images acc;
         acc_reports := acc_reports acc;
         acc_keyObjectSelections := acc_keyObjectSelections acc ++ [ko];
         acc_presentationStates := acc_presentationStates acc;
         acc_seriesMap := acc_seriesMap acc |}
  | Some (presentationState ps) =>
      {| acc_images := acc_images acc;
         acc_reports := acc_reports acc;
         acc_keyObjectSelections := acc_keyObjectSelections acc;
         acc_presentationStates := acc_presentationStates acc ++ [ps];
         acc_seriesMap := acc_seriesMap acc |}
  end.

(** [for (let i = 0; i < filePaths.length; i++)]: the files from index [i]
    on, with the progress events emitted so far. *)
Fixpoint ingestFrom (total : Z) (i : Z) (filePaths : list string)
  (acc : Accumulators) (events : list LoadingProgress)
  : Accumulators * list LoadingProgress :=
  match filePaths with
  | [] => (acc, events)
  | filePath :: rest =>
      let events :=
        events ++ [ {| phase := parsing;
                       current := i + 1;
                       total := total;
                       currentFile := JS.pop (JS.split "/" filePath);
                       message := None |} ] in
      ingestFrom total (i + 1) rest (ingestFile filePath acc) events
  end.

(** [for (const image of images) { series = seriesMap.get(uid); if (series)
    series.images.push(image) }] *)
Fixpoint organizeImages (imgs : list (DicomImage number))
  (seriesMap : JSMap.t (DicomSeries number)) : JSMap.t (DicomSeries number) :=
  match imgs with
  | [] => seriesMap
  | img :: rest =>
      let seriesMap :=
        match JSMap.get seriesMap (seriesInstanceUID img) with
        | Some _ =>
            JSMap.modify seriesMap (seriesInstanceUID img)
              (fun s => {| se_seriesInstanceUID := se_seriesInstanceUID s;
                           se_studyInstanceUID := se_studyInstanceUID s;
                           seriesNumber := seriesNumber s;
                           seriesDescription := seriesDescription s;
                           bodyPart := bodyPart s;
                           se_modality := se_modality s;
                           images := images s ++ [img] |})
        | None => seriesMap
        end in
      organizeImages rest seriesMap
  end.

Definition byInstanceNumber (a b : DicomImage number) : JS.Sign :=
  JS.minus_sign (instanceNumber a) (instanceNumber b).

Definition bySeriesNumber (a b : DicomSeries number) : JS.Sign :=
  JS.minus_sign (seriesNumber a) (seriesNumber b).

(** [for (const series of seriesMap.values()) series.images.sort(...)] *)
Definition sortImages (seriesMap : JSMap.t (DicomSeries number))
  : JSMap.t (DicomSeries number) :=
  map (fun '(k, s) =>
         (k, {| se_seriesInstanceUID := se_seriesInstanceUID s;
                se_studyInstanceUID := se_studyInstanceUID s;
                seriesNumber := seriesNumber s;
                seriesDescription := seriesDescription s;
                bodyPart := bodyPart s;
                se_modality := se_modality s;
                images := JS.sort byInstanceNumber (images s) |}))
      seriesMap.

(** The part of [loadDicomFromFolder] after the ingestion loop: organise
    the images into their series, the two sort passes, and the study (or
    [null] when no series results). *)
Definition assembleStudy (studyMetadata : StudyMetadata) (acc : Accumulators)
  : option (DicomStudy number) :=
  let seriesMap := organizeImages (acc_images acc) (acc_seriesMap acc) in
  let seriesMap := sortImages seriesMap in
  let sortedSeries := JS.sort bySeriesNumber (JSMap.values seriesMap) in
  if (length sortedSeries =? 0)%nat then None
  else
    Some {| studyInstanceUID := sm_studyInstanceUID studyMetadata;
            patientName := sm_patientName studyMetadata;
            patientId := sm_patientId studyMetadata;
            studyDate := sm_studyDate studyMetadata;
            studyDescription := sm_studyDescription studyMetadata;
            modality := sm_modality studyMetadata;
            institutionName := sm_institutionName studyMetadata;
            referringPhysician := sm_referringPhysician studyMetadata;
            series := sortedSeries;
            reports := acc_reports acc;
            keyObjectSelections := acc_keyObjectSelections acc;
            presentationStates := acc_presentationStates acc |}.

(** The load returns the progress events it emitted and the study, or
    [null]. *)
Definition loadDicomFromFolder (filePaths : list string)
  : list LoadingProgress * option (DicomStudy number) :=
  if (length filePaths =? 0)%nat then ([], None)
  else
    let total := Z.of_nat (length filePaths) in
    let events :=
      [ {| phase := parsing;
           current := 0;
           total := total;
           currentFile := None;
           message := Some "Reading study information..." |} ] in
    match findStudyMetadata (take 10 filePaths) with
    | None => (events, None)
    | Some studyMetadata =>
        let '(acc, events) := ingestFrom total 0 filePaths emptyAccumulators events in
        (events, assembleStudy studyMetadata acc)
    end.

(** The accumulators that the ingestion loop leaves, without the progress
    events. *)
Definition accumulated (filePaths : list string) (acc : Accumulators) : Accumulators :=
  fold_left (fun a filePath => ingestFile filePath a) filePaths acc.

(** The owned collections of a study. *)
Definition contents (s : DicomStudy number) :=
  (series s, reports s, keyObjectSelections s, presentationStates s).

End WithReader.
End DicomLoader.

(** ** Properties named by the specification *)

(** A finding, and every finding below it, has a [children] field that is
    absent or a non-empty list. *)
Fixpoint childrenAbsentOrNonEmpty (f : ReportFinding) : bool :=
  match children f with
  | None => true
  | Some [] => false
  | Some cs => forallb childrenAbsentOrNonEmpty cs
  end.

(** The re-packing of the overlay round trip, in the words of the
    specification: bit [i mod 8] of output byte [floor(i/8)] is set from
    unpacked byte [i]; the output has [numBytes] bytes, initially zero. *)
Fixpoint packFrom (unpacked : list Z) (i : Z) (n : nat) (packed : list Z) : list Z :=
  match n with
  | O => packed
  | S k =>
      let byteIndex := i / 8 in
      let bitIndex := i mod 8 in
      let bit := Z.land (unpacked !!! Z.to_nat i) 1 in
      let packed :=
        <[Z.to_nat byteIndex :=
            Z.lor (packed !!! Z.to_nat byteIndex) (Z.shiftl bit bitIndex)]> packed in
      packFrom unpacked (i + 1) k packed
  end.

Definition packOverlayBits (unpacked : list Z) (numBytes : Z) : list Z :=
  packFrom unpacked 0 (length unpacked) (replicate (Z.to_nat numBytes) 0).

(** The byte [b] with the bits at positions [k] and above cleared. *)
Definition lowBits (k : Z) (b : Z) : Z := Z.land b (Z.ones k).

(** What re-packing the first [n] unpacked bits of a buffer gives back: the
    whole bytes below bit [n], the low bits of the byte that bit [n] cuts,
    and zero above. *)
Definition keptBits (packed : list Z) (n : Z) : list Z :=
  imap (fun j b => lowBits (Z.min 8 (Z.max 0 (n - 8 * Z.of_nat j))) b) packed.

Section ImageLeaves.
Context {number : Type}.

(** The referenced SOP instance of an IMAGE-typed content item. *)
Definition referencedSopId (itemDS : DataSet number) : option SOPInstanceUID :=
  if JS.strict_eq (string_ itemDS "x0040a040") "IMAGE" then
    match first_item_dataSet (elements itemDS "x00081199") with
    | Some refDataSet =>
        let refUID := string_ refDataSet "x00081155" in
        if JS.truthy refUID then refUID else None
    | None => None
    end
  else None.

(** Every IMAGE-typed item of the content sequence of a dataset, at any
    nesting depth, in encounter order (an item before the items nested in
    it): the collection the specification describes. *)
Fixpoint imageLeaves (ds : DataSet number) : list SOPInstanceUID :=
  match elements ds "x0040a730" with
  | Some e =>
      match items e with
      | Some contentItems =>
          (fix each (l : list (Item number)) : list SOPInstanceUID :=
             match l with
             | [] => []
             | item :: rest =>
                 match dataSet item with
                 | Some d =>
                     option_list (referencedSopId d) ++ imageLeaves d ++ each rest
                 | None => each rest
                 end
             end) contentItems
      | None => []
      end
  | None => []
  end.

(** The same collection cut at a nesting depth: the items at most [depth]
    levels below the dataset. *)
Fixpoint imageLeavesWithin (depth : nat) (ds : DataSet number) : list SOPInstanceUID :=
  match depth with
  | O => []
  | S k =>
      match items_of (elements ds "x0040a730") with
      | Some contentItems =>
          flat_map
            (fun item =>
               match dataSet item with
               | Some d => option_list (referencedSopId d) ++ imageLeavesWithin k d
               | None => []
               end)
            contentItems
      | None => []
      end
  end.

End ImageLeaves.

(** ** Number models *)

(** Exact arithmetic over the real numbers: one instance of the class,
    without the rounding, the infinities and the NaN of the doubles in
    which the renderer computes. What is proved about the renderer is
    proved for every instance; this one runs it on concrete annotations. *)
Module RealArith.

Definition Ratan2 (y x : R) : R :=
  match total_order_T x 0 with
  | inleft (left _) =>                         (* x < 0 *)
      if Rlt_dec y 0 then (atan (y / x) - Rtrigo1.PI)%R
      else (atan (y / x) + Rtrigo1.PI)%R
  | inleft (right _) =>                        (* x = 0 *)
      match total_order_T y 0 with
      | inleft (left _) => (- (Rtrigo1.PI / 2))%R
      | inleft (right _) => 0%R
      | inright _ => (Rtrigo1.PI / 2)%R
      end
  | inright _ => atan (y / x)                  (* x > 0 *)
  end.

#[global] Instance R_Arith : JS.Arith R := {|
  JS.add := Rplus;
  JS.sub := Rminus;
  JS.mul := Rmult;
  JS.div := Rdiv;
  JS.square := fun x => (x ^ 2)%R;
  JS.sqrt := R_sqrt.sqrt;
  JS.atan2 := Ratan2;
  JS.PI := Rtrigo1.PI;
  JS.lit := IZR
|}.

End RealArith.

(** Numbers for the concrete datasets below: the integers with NaN. The
    conversions agree with the language on what those datasets hold: plain
    decimal integers, a minus sign allowed, of magnitude below 10^21.
    Beyond that the language takes more texts for numbers (a plus sign, a
    fraction, an exponent, a hexadecimal prefix) and prints large values
    with an exponent, which this instance does not follow. The theorems
    are stated for every instance; this one only runs the decoders on the
    concrete datasets. *)
Module IntegerNumbers.

Inductive number : Type := NaN | Int (z : Z).

Definition digit_value (c : ascii) : option Z :=
  let n := Z.of_nat (nat_of_ascii c) in
  if (48 <=? n) && (n <=? 57) then Some (n - 48) else None.

Fixpoint digits_value (s : string) (acc : Z) : option Z :=
  match s with
  | EmptyString => Some acc
  | String c r =>
      match digit_value c with
      | Some d => digits_value r (10 * acc + d)
      | None => None
      end
  end.

Definition of_string (s : string) : number :=
  match JS.trim s with
  | EmptyString => Int 0
  | String c r =>
      if Ascii.eqb c "-" then
        match r with
        | EmptyString => NaN
        | _ => match digits_value r 0 with Some z => Int (- z) | None => NaN end
        end
      else
        match digits_value (String c r) 0 with Some z => Int z | None => NaN end
  end.

Fixpoint digits_of (fuel : nat) (n : Z) (acc : string) : string :=
  match fuel with
  | O => acc
  | S k =>
      let acc' := String (ascii_of_nat (Z.to_nat (48 + n mod 10))) acc in
      if n / 10 =? 0 then acc' else digits_of k (n / 10) acc'
  end.

Definition to_string (x : number) : string :=
  match x with
  | NaN => "NaN"
  | Int z =>
      if z <? 0 then ("-" ++ digits_of (S (Z.to_nat (Z.log2 (- z)))) (- z) "")%string
      else digits_of (S (Z.to_nat (Z.log2 z))) z ""
  end.

#[global] Instance IntegerNumber : JS.Number number := {|
  JS.Number_of_string := of_string;
  JS.isNaN := fun x => match x with NaN => true | Int _ => false end;
  JS.toString := to_string;
  JS.of_Z := Int
|}.

End IntegerNumbers.

(** The bit that [unpackOverlayBits] writes at pixel [i]: what its loop
    body computes, as a function of the index. *)
Definition bitAt (packed : list Z) (i : Z) : Z :=
  if i / 8 <? Z.of_nat (length packed)
  then Z.land (Z.shiftr (packed !!! Z.to_nat (i / 8)) (i mod 8)) 1
  else 0.

(** ** Concrete datasets and a concrete file set

    Small inputs on which the decoders run: the examples of the
    specification and the inputs at which the theorems below are
    instantiated. *)

Module Fixture.

Definition num : Type := IntegerNumbers.number.

(** A dataset given by the tables of what its accessors answer. The floats
    of an element are the last thing in the buffer: a read beyond them
    throws. *)
Definition dataset (bytes : list Z) (strings : list (Tag * string))
  (ints : list (Tag * Z)) (shorts : list (Tag * Z))
  (floats : list (Tag * list num)) (elems : list (Tag * Element num)) : DataSet num :=
  {| byteArray := bytes;
     string_ := JSMap.get strings;
     intString := fun tag => option_map JS.Finite (JSMap.get ints tag);
     uint16 := JSMap.get shorts;
     floatString := fun _ => None;
     float := fun tag i =>
                match JSMap.get floats tag with
                | Some l =>
                    match l !! i with
                    | Some v => Some (Some v)
                    | None => None
                    end
                | None => Some None
                end;
     elements := JSMap.get elems |}.

(** A sequence element whose items carry the given datasets. *)
Definition sequence (l : list (DataSet num)) : Element num :=
  {| length_ := 0; dataOffset := 0; items := Some (map (fun d => mkItem (Some d)) l) |}.

(** A bulk element: [len] bytes at [offset]. *)
Definition bulk (offset len : Z) : Element num :=
  {| length_ := len; dataOffset := offset; items := None |}.

(** A code item with a Code Meaning, and the Concept Name Code Sequence
    naming a content item. *)
Definition code (meaning : string) : DataSet num :=
  dataset [] [("x00080104", meaning)] [] [] [] [].

Definition named (meaning : string) : Tag * Element num :=
  ("x0040a043", sequence [code meaning]).

(** Content items of a report. *)
Definition textItem (name text : string) : DataSet num :=
  dataset [] [("x0040a040", "TEXT"); ("x0040a160", text)] [] [] [] [named name].

Definition containerItem (name : string) (content : list (DataSet num)) : DataSet num :=
  dataset [] [("x0040a040", "CONTAINER")] [] [] []
    [named name; ("x0040a730", sequence content)].

Definition imageItem (sop : string) : DataSet num :=
  dataset [] [("x0040a040", "IMAGE")] [] [] []
    [("x00081199", sequence [dataset [] [("x00081155", sop)] [] [] [] []])].

(** An item without a value type: it does not decode. *)
Definition untypedItem : DataSet num :=
  dataset [] [("x0040a160", "stray text")] [] [] [] [].

(** The report of the specification: one CONTAINER "Impression" holding
    one TEXT finding, followed by a container whose only child does not
    decode. *)
Definition reportDataSet : DataSet num :=
  dataset []
    [("x00080016", "1.2.840.10008.5.1.4.1.1.88.11");
     ("x00080018", "1.2.5.1"); ("x0020000e", "1.2.5"); ("x0020000d", "1.2")]
    [] [] []
    [("x0040a730",
      sequence [containerItem "Impression" [textItem "Impression" "No acute findings"];
                containerItem "Addendum" [untypedItem]])].

(** A key-object selection with its image references one level inside a
    container, and one with a reference three levels down. *)
Definition keyObjectDataSet : DataSet num :=
  dataset []
    [("x00080016", "1.2.840.10008.5.1.4.1.1.88.59"); ("x00080018", "1.2.4.1")]
    [] [] []
    [named "Of Interest";
     ("x0040a730",
      sequence [textItem "Key Object Description" "lesion";
                containerItem "Images" [imageItem "1.2.2.1"; imageItem "9.9.9"]])].

Definition deepKeyObjectDataSet : DataSet num :=
  dataset []
    [("x00080016", "1.2.840.10008.5.1.4.1.1.88.59"); ("x00080018", "1.2.4.2")]
    [] [] []
    [("x0040a730",
      sequence [containerItem "Outer"
                  [containerItem "Inner" [imageItem "1.2.2.1"]]])].

(** An image file: pixel data, identifiers and numbers. *)
Definition imageDataSet (study series sop : string) (seriesNo instanceNo : Z) : DataSet num :=
  dataset []
    ([("x00080018", sop); ("x0020000e", series); ("x00100010", "DOE^JANE");
      ("x00080020", "20240131"); ("x00080060", "MR")]
     ++ (if String.eqb study "" then [] else [("x0020000d", study)]))
    [("x00200011", seriesNo); ("x00200013", instanceNo)]
    [("x00280010", 2); ("x00280011", 4)]
    []
    [("x7fe00010", bulk 0 0)].

(** The overlay example of the specification: group 0x6000, two rows of
    four columns, one packed byte [0b00001011]. *)
Definition overlayDataSet : DataSet num :=
  dataset [11]
    [("x00080018", "1.2.3.1"); ("x0020000e", "1.2.3"); ("x0020000d", "1.2")]
    []
    [("x60000010", 2); ("x60000011", 4)]
    []
    [("x7fe00010", bulk 0 0); ("x60003000", bulk 0 1)].

(** The file set: path, and the bytes the shell reads (a one-byte stand-in
    that selects the dataset the reader returns). *)
Definition files : list (string * list Z) :=
  [ ("/scan/corrupt.dcm", [0]);
    ("/scan/s2-i2.dcm", [1]);
    ("/scan/s2-i1.dcm", [2]);
    ("/scan/s1-i1.dcm", [3]);
    ("/scan/ko.dcm", [4]);
    ("/scan/sr.dcm", [5]);
    ("/scan/orphan.dcm", [6]) ].

Definition readFile (path : string) : option (list Z) := JSMap.get files path.

Definition parseDicom (bytes : list Z) : option (DataSet num) :=
  match bytes with
  | [1] => Some (imageDataSet "1.2" "1.2.2" "1.2.2.2" 2 2)
  | [2] => Some (imageDataSet "1.2" "1.2.2" "1.2.2.1" 2 1)
  | [3] => Some (imageDataSet "1.2" "1.2.1" "1.2.1.1" 1 1)
  | [4] => Some keyObjectDataSet
  | [5] => Some reportDataSet
  | [6] => Some (imageDataSet "" "1.2.9" "1.2.9.1" 9 1)
  | _ => None
  end.

Definition filePaths : list string := map fst files.

(** Eleven unreadable paths followed by a good image: the study header
    lies beyond the tenth file. *)
Definition lateHeaderPaths : list string :=
  replicate 10 "/scan/missing.dcm" ++ ["/scan/s1-i1.dcm"].

End Fixture.

(** ** Reasoning principles for datasets *)

Section Nested.
Context {number : Type}.

(** A property holds of every dataset nested in the items of an optional
    element. *)
Definition nested_in (P : DataSet number -> Prop) (seq : option (Element number)) : Prop :=
  match seq with
  | Some e =>
      match items e with
      | Some l =>
          Forall (fun it => match dataSet it with Some d => P d | None => True end) l
      | None => True
      end
  | None => True
  end.

End Nested.

(** ** Invariants of the study assembler *)

Section AssemblerInvariants.
Context {number : Type} `{JS.Number number}.
Variable readFile : string -> option (list Z).
Variable parseDicom : list Z -> option (DataSet number).

(** Every series entry after ingestion was created from an image file of
    that series whose series metadata could be read, carries the key as
    its identifier, and has no image yet. *)
Definition created_from (filePaths : list string) (entry : string * DicomSeries number) : Prop :=
  se_seriesInstanceUID (snd entry) = fst entry
  /\ images (snd entry) = []
  /\ exists f img,
       In f filePaths /\ DicomLoader.parseDicomFile readFile parseDicom f = Some (DicomLoader.image img)
       /\ seriesInstanceUID img = fst entry /\ DicomLoader.parseSeriesMetadata readFile parseDicom f = Some (snd entry).

(** A series entry is coherent when its identifier is its key and all its
    images carry that identifier. *)
Definition coherent (entry : string * DicomSeries number) : Prop :=
  se_seriesInstanceUID (snd entry) = fst entry
  /\ Forall (fun img => seriesInstanceUID img = fst entry) (images (snd entry)).

(** The per-file failures: the read is rejected, the file exceeds the size
    limit, the reader throws, or a required identifier is missing (the SOP
    instance UID for every kind of object, the series instance UID for an
    image or a report). *)
Definition fileFails (f : string) : Prop :=
  match readFile f with
  | None => True
  | Some buffer =>
      Z.of_nat (length buffer) > DicomLoader.maxFileSize
      \/ match parseDicom buffer with
         | None => True
         | Some ds =>
             JS.truthy (string_ ds "x00080018") = false
             \/ (DicomKO.isKOFile ds = false /\ DicomPR.isPRFile ds = false
                 /\ JS.truthy (string_ ds "x0020000e") = false)
         end
  end.

End AssemblerInvariants.

(** ** Views of the ingestion loop *)

Section AssemblerViews.
Context {number : Type} `{JS.Number number}.
Variable readFile : string -> option (list Z).
Variable parseDicom : list Z -> option (DataSet number).

(** The event the load emits before looking for the study header. *)
Definition firstEvent (total : Z) : LoadingProgress :=
  {| phase := parsing;
     current := 0;
     total := total;
     currentFile := None;
     message := Some "Reading study information..." |}.

(** The event of the round for the file at index [i]. *)
Definition fileEvent (total : Z) (i : nat) (filePath : string) : LoadingProgress :=
  {| phase := parsing;
     current := Z.of_nat i + 1;
     total := total;
     currentFile := JS.pop (JS.split "/" filePath);
     message := None |}.

Definition asImage (r : DicomLoader.ParseResult (number := number))
  : option (DicomImage number) :=
  match r with DicomLoader.image d => Some d | _ => None end.

Definition asReport (r : DicomLoader.ParseResult (number := number)) : option DicomReport :=
  match r with DicomLoader.report d => Some d | _ => None end.

Definition asKeyObject (r : DicomLoader.ParseResult (number := number))
  : option KeyObjectSelection :=
  match r with DicomLoader.keyObject d => Some d | _ => None end.

Definition asPresentationState (r : DicomLoader.ParseResult (number := number))
  : option (PresentationState number) :=
  match r with DicomLoader.presentationState d => Some d | _ => None end.

(** The objects of one kind that the files decode to, in file order. *)
Definition decoded {A : Type} (pick : DicomLoader.ParseResult (number := number) -> option A)
  (filePaths : list string) : list A :=
  omap (fun f => match DicomLoader.parseDicomFile readFile parseDicom f with
                 | Some r => pick r
                 | None => None
                 end) filePaths.

(** The series identifiers for which some image file has readable series
    metadata at the moment the series is first seen: the keys of the
    series map. *)
Definition seriesKeys (filePaths : list string) : list string :=
  map fst (DicomLoader.acc_seriesMap
             (DicomLoader.accumulated readFile parseDicom filePaths
                DicomLoader.emptyAccumulators)).

End AssemblerViews.

(** ** Views of the assembled study *)

Section StudyViews.
Context {number : Type}.

(** [{...s, images: l}] *)
Definition withImages (s : DicomSeries number) (l : list (DicomImage number))
  : DicomSeries number :=
  {| se_seriesInstanceUID := se_seriesInstanceUID s;
     se_studyInstanceUID := se_studyInstanceUID s;
     seriesNumber := seriesNumber s;
     seriesDescription := seriesDescription s;
     bodyPart := bodyPart s;
     se_modality := se_modality s;
     images := l |}.

(** The images among [imgs] that carry the series identifier [uid], in
    order. *)
Definition imagesOfSeries (uid : string) (imgs : list (DicomImage number))
  : list (DicomImage number) :=
  List.filter (fun img => String.eqb (seriesInstanceUID img) uid) imgs.

End StudyViews.

(** ** Well-formedness of decoded objects *)

Section DecodedObjects.
Context {number : Type}.

(** An overlay plane as the decoder builds it: one of the sixteen groups,
    non-zero dimensions, one bit allocated, and one byte of value 0 or 1
    per pixel. *)
Definition overlayWellFormed (o : GraphicOverlay number) : Prop :=
  In (group o) DicomLoader.overlayGroups
  /\ ov_rows o <> 0 /\ ov_columns o <> 0
  /\ bitsAllocated o = 1
  /\ length (data o) = Z.to_nat (ov_rows o * ov_columns o)
  /\ Forall (fun b => b = 0 \/ b = 1) (data o).

(** An annotation as the decoder builds it: some coordinates; a text
    annotation has a non-empty text and at least two coordinates, a graphic
    annotation has no text. *)
Definition annotationWellFormed (a : GraphicAnnotation number) : Prop :=
  graphicData a <> []
  /\ match graphicType a with
     | TEXT => JS.truthy (textValue a) = true /\ (2 <= length (graphicData a))%nat
     | _ => textValue a = None
     end.

End DecodedObjects.

(** A finding, and every finding below it, has a concept name and a value
    type that are not empty, an image reference only on an IMAGE finding, a
    unit only on a NUM finding, and a non-empty label on a CONTAINER. *)
Fixpoint findingConsistent (f : ReportFinding) : bool :=
  negb (String.eqb (conceptName f) "")
  && negb (String.eqb (valueType f) "")
  && match referencedImageUID f with
     | Some _ => String.eqb (valueType f) "IMAGE"
     | None => true
     end
  && match unit_ f with
     | Some _ => String.eqb (valueType f) "NUM"
     | None => true
     end
  && (negb (String.eqb (valueType f) "CONTAINER") || negb (String.eqb (value f) ""))
  && match children f with
     | Some cs => forallb findingConsistent cs
     | None => true
     end.

(** ** AnnotationOverlay.tsx: the bitmap layer *)

Module OverlayCanvas.
Section WithNumber.
Context {number : Type} `{JS.Arith number}.

(** [ctx.createImageData(w, h)]: transparent black, four bytes per pixel. *)
Definition createImageData (w h : Z) : list Z :=
  replicate (Z.to_nat (4 * w * h)) 0.

(** What [ctx.putImageData(imageData, dx, dy)] receives. *)
Record PutImageData : Type := mkPutImageData {
  imageData : list Z;
  dx : number;
  dy : number
}.

(** ROI overlays in green, graphics overlays in yellow. *)
Definition overlayColor (type : string) : Z * Z * Z :=
  if String.eqb type "R" then (0, 255, 0) else (255, 255, 0).

(** [for (i = 0; i < overlay.data.length; i++) if (overlay.data[i]) { ... }],
    from pixel [i] for [n] more rounds; a write past the end of the image
    data is ignored, as a typed array does. *)
Fixpoint paintFrom (overlayData : list Z) (color : Z * Z * Z) (i : nat) (n : nat)
  (pixels : list Z) : list Z :=
  match n with
  | O => pixels
  | S k =>
      let pixels :=
        if negb (overlayData !!! i =? 0) then
          let idx := (i * 4)%nat in
          let pixels := <[idx := fst (fst color)]> pixels in
          let pixels := <[(idx + 1)%nat := snd (fst color)]> pixels in
          let pixels := <[(idx + 2)%nat := snd color]> pixels in
          <[(idx + 3)%nat := 180]> pixels
        else pixels in
      paintFrom overlayData color (S i) k pixels
  end.

Definition renderOverlay (overlay : GraphicOverlay number) : PutImageData :=
  let startRow := JS.sub (fst (origin overlay)) (JS.lit 1) in
  let startCol := JS.sub (snd (origin overlay)) (JS.lit 1) in
  let pixels := createImageData (ov_columns overlay) (ov_rows overlay) in
  let color := overlayColor (ov_type overlay) in
  let pixels := paintFrom (data overlay) color 0 (length (data overlay)) pixels in
  {| imageData := pixels; dx := startCol; dy := startRow |}.

(** The four bytes of a pixel of the bitmap layer. *)
Definition pixelOf (color : Z * Z * Z) (b : Z) : list Z :=
  if negb (b =? 0) then [fst (fst color); snd (fst color); snd color; 180]
  else [0; 0; 0; 0].

End WithNumber.
End OverlayCanvas.

(** ** Views of the annotation renderer *)

(** The number of coordinates below which a shape is not drawn. *)
Definition requiredNumbers (t : GraphicType) : nat :=
  match t with
  | POINT => 2
  | POLYLINE => 4
  | CIRCLE => 4
  | ELLIPSE => 8
  | TEXT => 2
  end.

(** The coordinates that a list of polyline points spells out. *)
Definition flattenPoints {number : Type} (points : list (number * option number))
  : list number :=
  flat_map (fun p => fst p :: option_list (snd p)) points.

(** ** store.ts: the viewer state and its selectors

    The slice index is an integer; the settings, which the store reads from
    and writes to the local storage of the browser, are carried unchanged
    ([updateSettings] is not modelled). *)

Module Store.
Section WithNumber.
Context {number : Type}.

Inductive AppView : Type := dashboard | viewer.

Record AppSettings : Type := mkAppSettings {
  expertMode : bool;
  showTooltips : bool;
  hasSeenOnboarding : bool
}.

Record ViewerState : Type := mkViewerState {
  view : AppView;
  study : option (DicomStudy number);
  currentSeriesId : option SeriesInstanceUID;
  currentSliceIndex : Z;
  isLoading : bool;
  loadingProgress : option LoadingProgress;
  error : option string;
  settings : AppSettings
}.

Definition initialState (settings0 : AppSettings) : ViewerState :=
  {| view := dashboard;
     study := None;
     currentSeriesId := None;
     currentSliceIndex := 0;
     isLoading := false;
     loadingProgress := None;
     error := None;
     settings := settings0 |}.

(** [study?.series.find(s => s.seriesInstanceUID === currentSeriesId)] *)
Definition findCurrentSeries (st : ViewerState) : option (DicomSeries number) :=
  match study st, currentSeriesId st with
  | Some s, Some id =>
      List.find (fun x => String.eqb (se_seriesInstanceUID x) id) (series s)
  | _, _ => None
  end.

Definition setView (v : AppView) (st : ViewerState) : ViewerState :=
  {| view := v;
     study := study st;
     currentSeriesId := currentSeriesId st;
     currentSliceIndex := currentSliceIndex st;
     isLoading := isLoading st;
     loadingProgress := loadingProgress st;
     error := error st;
     settings := settings st |}.

Definition setStudy (s : DicomStudy number) (st : ViewerState) : ViewerState :=
  {| view := viewer;
     study := Some s;
     currentSeriesId :=
       match series s with
       | first :: _ => Some (se_seriesInstanceUID first)
       | [] => None
       end;
     currentSliceIndex := 0;
     isLoading := isLoading st;
     loadingProgress := loadingProgress st;
     error := None;
     settings := settings st |}.

Definition clearStudy (st : ViewerState) : ViewerState :=
  {| view := dashboard;
     study := None;
     currentSeriesId := None;
     currentSliceIndex := 0;
     isLoading := isLoading st;
     loadingProgress := loadingProgress st;
     error := error st;
     settings := settings st |}.

Definition selectSeries (seriesId : SeriesInstanceUID) (st : ViewerState) : ViewerState :=
  {| view := view st;
     study := study st;
     currentSeriesId := Some seriesId;
     currentSliceIndex := 0;
     isLoading := isLoading st;
     loadingProgress := loadingProgress st;
     error := error st;
     settings := settings st |}.

Definition withSliceIndex (index : Z) (st : ViewerState) : ViewerState :=
  {| view := view st;
     study := study st;
     currentSeriesId := currentSeriesId st;
     currentSliceIndex := index;
     isLoading := isLoading st;
     loadingProgress := loadingProgress st;
     error := error st;
     settings := settings st |}.

Definition setSliceIndex (index : Z) (st : ViewerState) : ViewerState :=
  match findCurrentSeries st with
  | Some s =>
      let clampedIndex := Z.max 0 (Z.min index (Z.of_nat (length (images s)) - 1)) in
      withSliceIndex clampedIndex st
  | None => st
  end.

Definition nextSlice (st : ViewerState) : ViewerState :=
  setSliceIndex (currentSliceIndex st + 1) st.

Definition prevSlice (st : ViewerState) : ViewerState :=
  setSliceIndex (currentSliceIndex st - 1) st.

Definition goToFirstSlice (st : ViewerState) : ViewerState :=
  withSliceIndex 0 st.

Definition goToLastSlice (st : ViewerState) : ViewerState :=
  match findCurrentSeries st with
  | Some s =>
      if 0 <? Z.of_nat (length (images s))
      then withSliceIndex (Z.of_nat (length (images s)) - 1) st
      else st
  | None => st
  end.

Definition setLoading (loading : bool) (progress : option LoadingProgress)
  (st : ViewerState) : ViewerState :=
  {| view := view st;
     study := study st;
     currentSeriesId := currentSeriesId st;
     currentSliceIndex := currentSliceIndex st;
     isLoading := loading;
     loadingProgress := progress;
     error := error st;
     settings := settings st |}.

Definition updateLoadingProgress (progress : LoadingProgress) (st : ViewerState)
  : ViewerState :=
  {| view := view st;
     study := study st;
     currentSeriesId := currentSeriesId st;
     currentSliceIndex := currentSliceIndex st;
     isLoading := isLoading st;
     loadingProgress := Some progress;
     error := error st;
     settings := settings st |}.

Definition setError (e : option string) (st : ViewerState) : ViewerState :=
  {| view := view st;
     study := study st;
     currentSeriesId := currentSeriesId st;
     currentSliceIndex := currentSliceIndex st;
     isLoading := false;
     loadingProgress := None;
     error := e;
     settings := settings st |}.

Definition clearError (st : ViewerState) : ViewerState :=
  {| view := view st;
     study := study st;
     currentSeriesId := currentSeriesId st;
     currentSliceIndex := currentSliceIndex st;
     isLoading := isLoading st;
     loadingProgress := loadingProgress st;
     error := None;
     settings := settings st |}.

Definition reset (st : ViewerState) : ViewerState :=
  {| view := dashboard;
     study := None;
     currentSeriesId := None;
     currentSliceIndex := 0;
     isLoading := false;
     loadingProgress := None;
     error := None;
     settings := settings st |}.

(** The actions of the store, and the state after one. *)
Inductive Action : Type :=
| SetView (v : AppView)
| SetStudy (s : DicomStudy number)
| ClearStudy
| SelectSeries (seriesId : SeriesInstanceUID)
| SetSliceIndex (index : Z)
| NextSlice
| PrevSlice
| GoToFirstSlice
| GoToLastSlice
| SetLoading (loading : bool) (progress : option LoadingProgress)
| UpdateLoadingProgress (progress : LoadingProgress)
| SetError (e : option string)
| ClearError
| Reset.

Definition dispatch (st : ViewerState) (a : Action) : ViewerState :=
  match a with
  | SetView v => setView v st
  | SetStudy s => setStudy s st
  | ClearStudy => clearStudy st
  | SelectSeries id => selectSeries id st
  | SetSliceIndex i => setSliceIndex i st
  | NextSlice => nextSlice st
  | PrevSlice => prevSlice st
  | GoToFirstSlice => goToFirstSlice st
  | GoToLastSlice => goToLastSlice st
  | SetLoading b p => setLoading b p st
  | UpdateLoadingProgress p => updateLoadingProgress p st
  | SetError e => setError e st
  | ClearError => clearError st
  | Reset => reset st
  end.

Definition run (settings0 : AppSettings) (actions : list Action) : ViewerState :=
  fold_left dispatch actions (initialState settings0).

(** Selectors. *)
Definition useCurrentSeries (st : ViewerState) : option (DicomSeries number) :=
  findCurrentSeries st.

Definition useSliceCount (st : ViewerState) : Z :=
  match useCurrentSeries st with
  | Some s => Z.of_nat (length (images s))
  | None => 0
  end.

(** [series?.images[currentSliceIndex] ?? null] *)
Definition useCurrentImage (st : ViewerState) : option (DicomImage number) :=
  match useCurrentSeries st with
  | Some s =>
      if 0 <=? currentSliceIndex st
      then images s !! Z.to_nat (currentSliceIndex st)
      else None
  | None => None
  end.

Definition useKeyObjectSelections (st : ViewerState) : list KeyObjectSelection :=
  match study st with
  | Some s => keyObjectSelections s
  | None => []
  end.

(** [Set.prototype.add] on a set kept as the list of its elements in
    insertion order. *)
Definition Set_add (s : list string) (x : string) : list string :=
  if existsb (String.eqb x) s then s else s ++ [x].

Definition Set_has (s : list string) (x : string) : bool :=
  existsb (String.eqb x) s.

Definition keyImageUIDsOf (keyObjects : list KeyObjectSelection) : list SOPInstanceUID :=
  fold_left (fun uids ko => fold_left Set_add (keyImages ko) uids) keyObjects [].

Definition useKeyImageUIDs (st : ViewerState) : list SOPInstanceUID :=
  keyImageUIDsOf (useKeyObjectSelections st).

Definition useIsCurrentImageKey (st : ViewerState) : bool :=
  match useCurrentImage st with
  | None => false
  | Some img => Set_has (useKeyImageUIDs st) (sopInstanceUID img)
  end.

Definition usePresentationStates (st : ViewerState) : list (PresentationState number) :=
  match study st with
  | Some s => presentationStates s
  | None => []
  end.

Definition presentationStateMapOf (states : list (PresentationState number))
  : JSMap.t (PresentationState number) :=
  fold_left (fun m ps => fold_left (fun m uid => JSMap.set m uid ps)
                                   (referencedImageUIDs ps) m)
            states [].

Definition usePresentationStateMap (st : ViewerState)
  : JSMap.t (PresentationState number) :=
  presentationStateMapOf (usePresentationStates st).

Definition useCurrentImagePresentationState (st : ViewerState)
  : option (PresentationState number) :=
  match useCurrentImage st with
  | None => None
  | Some img => JSMap.get (usePresentationStateMap st) (sopInstanceUID img)
  end.

(** The slice index is 0 or an index into the images of the current
    series. *)
Definition sliceValid (st : ViewerState) : Prop :=
  currentSliceIndex st = 0
  \/ exists s, useCurrentSeries st = Some s
               /\ 0 <= currentSliceIndex st < Z.of_nat (length (images s)).

End WithNumber.
End Store.

(** A character occurs in a string. *)
Fixpoint occurs (c : ascii) (s : string) : bool :=
  match s with
  | EmptyString => false
  | String x r => Ascii.eqb x c || occurs c r
  end.

(** ** A presentation state on which the decoders run *)

Module FixturePR.

Definition num : Type := IntegerNumbers.number.

(** A polyline of two points: four floats. *)
Definition polylineObject : DataSet num :=
  Fixture.dataset [] [("x00700023", "POLYLINE")] [] [("x00700021", 2)]
    [("x00700022", [IntegerNumbers.Int 1; IntegerNumbers.Int 2;
                    IntegerNumbers.Int 30; IntegerNumbers.Int 40])]
    [("x00700022", Fixture.bulk 0 16)].

(** A text with an anchor point, and one with no position at all. *)
Definition anchoredText : DataSet num :=
  Fixture.dataset [] [("x00700006", "lesion"); ("x00700014", "5\7")] [] [] [] [].

Definition unplacedText : DataSet num :=
  Fixture.dataset [] [("x00700006", "note")] [] [] [] [].

Definition presentationDataSet : DataSet num :=
  Fixture.dataset []
    [("x00080016", "1.2.840.10008.5.1.4.1.1.11.1"); ("x00080018", "1.2.6.1")]
    [] [] []
    [("x00081115",
      Fixture.sequence
        [Fixture.dataset [] [] [] [] []
           [("x00081140",
             Fixture.sequence
               [Fixture.dataset [] [("x00081155", "1.2.2.1")] [] [] [] [];
                Fixture.dataset [] [("x00081155", "1.2.2.2")] [] [] [] []])]]);
     ("x00700001",
      Fixture.sequence
        [Fixture.dataset [] [] [] [] []
           [("x00700009", Fixture.sequence [polylineObject]);
            ("x00700008", Fixture.sequence [anchoredText; unplacedText])]])].

(** An overlay plane over the reals, as the bitmap layer receives it. *)
Definition roiOverlay : GraphicOverlay R :=
  {| group := 0x6000;
     ov_rows := 2;
     ov_columns := 2;
     ov_type := "R";
     origin := (1%R, 1%R);
     bitsAllocated := 1;
     data := [1; 0; 0; 1];
     ov_description := None;
     label := None |}.

End FixturePR.

(** ** electron/main.ts: the directory scan

    A directory tree as [readdir(path, { withFileTypes: true })] lists it:
    a regular file, a directory with its entries ([None] when reading it
    throws), or an entry that is neither. The path functions of the
    platform are left abstract. *)

Module Scanner.

Inductive Dirent : Type :=
| File (name : string)
| Directory (name : string) (entries : option (list Dirent))
| Other (name : string).

Definition name_of (entry : Dirent) : string :=
  match entry with
  | File n => n
  | Directory n _ => n
  | Other n => n
  end.

Definition DICOM_EXTENSIONS : list string := [".dcm"; ".dicom"; ".ima"].

Definition maxFilesPerStudy : Z := 10000.

Section Scan.
Variable join : string -> string -> string.
Variable extname : string -> string.
Variable toLowerCase : string -> string.

(** [DICOM_EXTENSIONS.includes(ext) || ext === ''] *)
Definition accepted (name : string) : bool :=
  let ext := toLowerCase (extname name) in
  JS.includes DICOM_EXTENSIONS ext || String.eqb ext "".

(** One round of the loop of [scan]: the entry, then the test of the
    limit; the inner loop is [scan(fullPath)]. The result is the list
    [files] after the round and whether the loop breaks; [None] when a
    directory cannot be read. *)
Fixpoint scanEntry (currentPath : string) (entry : Dirent) (files : list string)
  : option (list string) :=
  let fullPath := join currentPath (name_of entry) in
  match entry with
  | Directory _ None => None
  | Directory _ (Some entries) =>
      (fix scan (entries : list Dirent) (files : list string) : option (list string) :=
         match entries with
         | [] => Some files
         | entry :: rest =>
             match scanEntry fullPath entry files with
             | None => None
             | Some files =>
                 if Z.of_nat (length files) >=? maxFilesPerStudy then Some files
                 else scan rest files
             end
         end) entries files
  | File name => if accepted name then Some (files ++ [fullPath]) else Some files
  | Other _ => Some files
  end.

Fixpoint scan (currentPath : string) (entries : list Dirent) (files : list string)
  : option (list string) :=
  match entries with
  | [] => Some files
  | entry :: rest =>
      match scanEntry currentPath entry files with
      | None => None
      | Some files =>
          if Z.of_nat (length files) >=? maxFilesPerStudy then Some files
          else scan currentPath rest files
      end
  end.

(** [scanForDicomFiles(dirPath)], [root] being what reading [dirPath]
    gives. *)
Definition scanForDicomFiles (dirPath : string) (root : option (list Dirent))
  : option (list string) :=
  match root with
  | None => None
  | Some entries => scan dirPath entries []
  end.

(** The accepted files of a tree in depth-first order, an unreadable
    directory counting as empty. *)
Fixpoint listing (currentPath : string) (entry : Dirent) : list string :=
  let fullPath := join currentPath (name_of entry) in
  match entry with
  | Directory _ None => []
  | Directory _ (Some entries) =>
      (fix each (entries : list Dirent) : list string :=
         match entries with
         | [] => []
         | entry :: rest => listing fullPath entry ++ each rest
         end) entries
  | File name => if accepted name then [fullPath] else []
  | Other _ => []
  end.

Definition listings (currentPath : string) (entries : list Dirent) : list string :=
  flat_map (listing currentPath) entries.

(** Every directory of the tree can be read. *)
Fixpoint readable (entry : Dirent) : bool :=
  match entry with
  | Directory _ None => false
  | Directory _ (Some entries) =>
      (fix each (entries : list Dirent) : bool :=
         match entries with
         | [] => true
         | entry :: rest => readable entry && each rest
         end) entries
  | _ => true
  end.

End Scan.
End Scanner.

(** ** Inputs at the edges of the decoders *)

Module FixtureEdge.

Definition num : Type := IntegerNumbers.number.

(** An image of series 1.2.2 whose Instance Number is a text that
    [parseInt] takes for no number. *)
Definition unnumberedImage : DataSet num :=
  let ds := Fixture.imageDataSet "1.2" "1.2.2" "1.2.2.3" 2 0 in
  {| byteArray := byteArray ds;
     string_ := string_ ds;
     intString := fun tag =>
                    if String.eqb tag "x00200013" then Some JS.NaN
                    else intString ds tag;
     uint16 := uint16 ds;
     floatString := floatString ds;
     float := float ds;
     elements := elements ds |}.

(** A polyline that announces three points and carries two: the fifth
    read is past the end of the buffer. *)
Definition shortPolyline : DataSet num :=
  Fixture.dataset [] [("x00700023", "POLYLINE")] [] [("x00700021", 3)]
    [("x00700022", [IntegerNumbers.Int 1; IntegerNumbers.Int 2;
                    IntegerNumbers.Int 30; IntegerNumbers.Int 40])]
    [("x00700022", Fixture.bulk 0 16)].

(** A presentation state that is complete but for that polyline. *)
Definition shortPresentation : DataSet num :=
  Fixture.dataset []
    [("x00080016", "1.2.840.10008.5.1.4.1.1.11.1"); ("x00080018", "1.2.6.2")]
    [] [] []
    [("x00081115",
      Fixture.sequence
        [Fixture.dataset [] [] [] [] []
           [("x00081140",
             Fixture.sequence
               [Fixture.dataset [] [("x00081155", "1.2.2.1")] [] [] [] []])]]);
     ("x00700001",
      Fixture.sequence
        [Fixture.dataset [] [] [] [] []
           [("x00700009", Fixture.sequence [shortPolyline])]])].

(** The file set of [Fixture] and these two. *)
Definition files : list (string * list Z) :=
  Fixture.files ++ [("/scan/s2-nan.dcm", [7]); ("/scan/pr-short.dcm", [8])].

Definition readFile (path : string) : option (list Z) := JSMap.get files path.

Definition parseDicom (bytes : list Z) : option (DataSet num) :=
  match bytes with
  | [7] => Some unnumberedImage
  | [8] => Some shortPresentation
  | _ => Fixture.parseDicom bytes
  end.


(** Nine images that carry no study header, then a file that cannot be
    parsed, then a good image: the good image is the eleventh file, and the
    tenth without the file that fails. *)
Definition crowdedBefore : list string := replicate 9 "/scan/orphan.dcm".

Definition crowdedAfter : list string := ["/scan/s1-i1.dcm"].

End FixtureEdge.

(* ===================================================================== *)
(** * Verification *)
(* ===================================================================== *)

Import DicomLoader.

(** ** Overlay bitmap decoder *)

Lemma unpackFrom_fill (packed : list Z) (n : nat) :
  forall (i : Z) (pre : list Z),
    0 <= i -> length pre = Z.to_nat i ->
    unpackFrom packed i n (pre ++ replicate n 0)
    = pre ++ map (bitAt packed) (seqZ i (Z.of_nat n)).
Proof.
  induction n as [|k IH]; intros i pre Hi Hlen.
  - reflexivity.
  - cbn [unpackFrom replicate].
    assert (Hstep :
      (if i / 8 <? Z.of_nat (length packed)
       then <[Z.to_nat i := Z.land (Z.shiftr (packed !!! Z.to_nat (i / 8)) (i mod 8)) 1]>
              (pre ++ 0 :: replicate k 0)
       else pre ++ 0 :: replicate k 0)
      = (pre ++ [bitAt packed i]) ++ replicate k 0).
    { unfold bitAt. rewrite <- app_assoc. cbn [app].
      destruct (i / 8 <? Z.of_nat (length packed)); [|reflexivity].
      rewrite insert_app_r_alt. 2:{ lia. }
      rewrite Hlen, Nat.sub_diag. reflexivity. }
    rewrite Hstep.
    rewrite IH by (rewrite ?length_app; cbn; lia).
    rewrite <- app_assoc. cbn [app].
    replace (Z.of_nat (S k)) with (Z.succ (Z.of_nat k)) by lia.
    rewrite (seqZ_cons i) by lia.
    replace (Z.succ i) with (i + 1) by lia.
    replace (Z.pred (Z.succ (Z.of_nat k))) with (Z.of_nat k) by lia.
    reflexivity.
Qed.

Lemma unpackOverlayBits_map (packed : list Z) (numPixels : Z) :
  unpackOverlayBits packed numPixels
  = map (bitAt packed) (seqZ 0 (Z.of_nat (Z.to_nat numPixels))).
Proof.
  unfold unpackOverlayBits.
  apply (unpackFrom_fill packed (Z.to_nat numPixels) 0 []); [lia | reflexivity].
Qed.

Lemma shift_and_one (b k : Z) :
  0 <= k -> Z.land (Z.shiftr b k) 1 = Z.b2z (Z.testbit b k).
Proof.
  intros Hk.
  change 1 with (Z.ones 1). rewrite Z.land_ones by lia.
  change (2 ^ 1) with 2. rewrite <- Z.bit0_mod.
  rewrite Z.shiftr_spec by lia. reflexivity.
Qed.

Lemma unpackOverlayBits_length (packed : list Z) (numPixels : Z) :
  length (unpackOverlayBits packed numPixels) = Z.to_nat numPixels.
Proof.
  rewrite unpackOverlayBits_map, length_map, length_seqZ. lia.
Qed.

Lemma unpackOverlayBits_lookup (packed : list Z) (numPixels i : Z) :
  0 <= i < numPixels ->
  unpackOverlayBits packed numPixels !! Z.to_nat i = Some (bitAt packed i).
Proof.
  intros Hi. rewrite unpackOverlayBits_map, list_lookup_fmap.
  assert (seqZ 0 (Z.of_nat (Z.to_nat numPixels)) !! Z.to_nat i = Some i) as ->.
  { apply lookup_seqZ. lia. }
  reflexivity.
Qed.

Lemma bitAt_inside (packed : list Z) (i b : Z) :
  0 <= i -> packed !! Z.to_nat (i / 8) = Some b ->
  bitAt packed i = Z.b2z (Z.testbit b (i mod 8)).
Proof.
  intros Hi Hb. unfold bitAt.
  pose proof (lookup_lt_Some _ _ _ Hb) as Hlt.
  assert (0 <= i / 8) by (apply Z.div_pos; lia).
  destruct (Z.ltb_spec (i / 8) (Z.of_nat (length packed))); [|lia].
  rewrite (list_lookup_total_correct _ _ _ Hb).
  apply shift_and_one. apply Z.mod_pos_bound. lia.
Qed.

Lemma bitAt_outside (packed : list Z) (i : Z) :
  Z.of_nat (length packed) <= i / 8 -> bitAt packed i = 0.
Proof.
  intros H. unfold bitAt.
  destruct (Z.ltb_spec (i / 8) (Z.of_nat (length packed))); [lia|reflexivity].
Qed.

Lemma lowBits_succ (b k : Z) :
  0 <= k ->
  Z.lor (lowBits k b) (Z.shiftl (Z.land (Z.b2z (Z.testbit b k)) 1) k) = lowBits (k + 1) b.
Proof.
  intros Hk. unfold lowBits. apply Z.bits_inj'. intros n Hn.
  rewrite Z.lor_spec, !Z.land_spec, Z.shiftl_spec by lia.
  rewrite !Z.testbit_ones_nonneg by lia.
  destruct (Z.ltb_spec n k) as [Hlt|Hge].
  - rewrite (Z.testbit_neg_r _ (n - k)) by lia.
    destruct (Z.ltb_spec n (k + 1)); [|lia].
    rewrite !andb_true_r, orb_false_r. reflexivity.
  - rewrite andb_false_r. cbn [orb].
    destruct (Z.eq_dec n k) as [->|Hne].
    + rewrite Z.sub_diag.
      destruct (Z.ltb_spec k (k + 1)); [|lia].
      rewrite Z.land_spec. change (Z.testbit 1 0) with true.
      rewrite !andb_true_r. destruct (Z.testbit b k); reflexivity.
    + destruct (Z.ltb_spec n (k + 1)); [lia|].
      rewrite andb_false_r.
      rewrite Z.land_spec.
      replace (Z.testbit 1 (n - k)) with false.
      * apply andb_false_r.
      * symmetry. apply (Z.bits_above_log2 1 (n - k)); cbn; lia.
Qed.

Lemma keptBits_length (packed : list Z) (n : Z) :
  length (keptBits packed n) = length packed.
Proof. unfold keptBits. apply length_imap. Qed.

Lemma keptBits_lookup (packed : list Z) (n : Z) (j : nat) :
  keptBits packed n !! j
  = lowBits (Z.min 8 (Z.max 0 (n - 8 * Z.of_nat j))) <$> packed !! j.
Proof. unfold keptBits. rewrite list_lookup_imap. reflexivity. Qed.

Lemma keptBits_step (packed : list Z) (i : Z) :
  0 <= i -> i / 8 < Z.of_nat (length packed) ->
  <[Z.to_nat (i / 8) :=
      Z.lor (keptBits packed i !!! Z.to_nat (i / 8))
            (Z.shiftl (Z.land (bitAt packed i) 1) (i mod 8))]> (keptBits packed i)
  = keptBits packed (i + 1).
Proof.
  intros Hi Hin.
  pose proof (Z.div_mod i 8 ltac:(lia)) as Hdm.
  pose proof (Z.mod_pos_bound i 8 ltac:(lia)) as Hm.
  assert (0 <= i / 8) as Hq by (apply Z.div_pos; lia).
  apply list_eq. intros j.
  destruct (decide (j = Z.to_nat (i / 8))) as [->|Hne].
  - rewrite list_lookup_insert_eq by (rewrite keptBits_length; lia).
    destruct (lookup_lt_is_Some_2 packed (Z.to_nat (i / 8)) ltac:(lia)) as [b Hb].
    rewrite (list_lookup_total_correct (keptBits packed i) (Z.to_nat (i / 8))
               (lowBits (i mod 8) b)).
    2:{ rewrite keptBits_lookup, Hb. cbn. f_equal. f_equal. lia. }
    rewrite keptBits_lookup, Hb. cbn. f_equal.
    rewrite (bitAt_inside packed i b Hi Hb).
    rewrite lowBits_succ by lia. f_equal. lia.
  - rewrite list_lookup_insert_ne by congruence.
    rewrite !keptBits_lookup. destruct (packed !! j) as [b|]; [|reflexivity].
    cbn. f_equal. f_equal.
    assert (Z.of_nat j <> i / 8) by lia. lia.
Qed.

Lemma packFrom_kept (packed unpacked : list Z) (n : nat) :
  forall i : Z,
    0 <= i -> i + Z.of_nat n <= 8 * Z.of_nat (length packed) ->
    (forall j, i <= j < i + Z.of_nat n -> unpacked !!! Z.to_nat j = bitAt packed j) ->
    packFrom unpacked i n (keptBits packed i) = keptBits packed (i + Z.of_nat n).
Proof.
  induction n as [|k IH]; intros i Hi Hfit Hbits.
  - cbn. f_equal. lia.
  - cbn [packFrom].
    rewrite Hbits by lia.
    rewrite keptBits_step; [| lia |].
    + rewrite IH; [f_equal; lia | lia | lia |].
      intros j Hj. apply Hbits. lia.
    + apply Z.div_lt_upper_bound; lia.
Qed.

Lemma keptBits_zero (packed : list Z) :
  keptBits packed 0 = replicate (length packed) 0.
Proof.
  apply list_eq. intros j. rewrite keptBits_lookup.
  destruct (packed !! j) as [b|] eqn:Hb.
  - pose proof (lookup_lt_Some _ _ _ Hb).
    rewrite lookup_replicate_2 by lia. cbn.
    f_equal. unfold lowBits.
    replace (Z.min 8 (Z.max 0 (0 - 8 * Z.of_nat j))) with 0 by lia.
    apply Z.land_0_r.
  - pose proof (lookup_ge_None_1 _ _ Hb).
    symmetry. apply lookup_replicate_None. lia.
Qed.

Lemma lowBits_byte (b : Z) : 0 <= b < 256 -> lowBits 8 b = b.
Proof.
  intros Hb. unfold lowBits. rewrite Z.land_ones by lia.
  apply Z.mod_small. change (2 ^ 8) with 256. lia.
Qed.

Lemma overlay_repack_kept (packed : list Z) (numPixels : Z) :
  0 <= numPixels <= 8 * Z.of_nat (length packed) ->
  packOverlayBits (unpackOverlayBits packed numPixels) (Z.of_nat (length packed))
  = keptBits packed numPixels.
Proof.
  intros HN. unfold packOverlayBits.
  rewrite unpackOverlayBits_length, Nat2Z.id, <- keptBits_zero.
  rewrite (packFrom_kept packed _ (Z.to_nat numPixels) 0); [f_equal; lia | lia | lia |].
  intros j Hj.
  apply list_lookup_total_correct, unpackOverlayBits_lookup. lia.
Qed.

(** ** Induction on nested datasets *)

Section DataSetInduction.
Context {number : Type} (P : DataSet number -> Prop).
Hypothesis step : forall ds, (forall tag, nested_in P (elements ds tag)) -> P ds.

Lemma DataSet_nested_ind : forall ds, P ds.
Proof using step.
  fix IH 1. intros [bytes str ints shorts fstr fl els].
  apply step. intros tag. cbn.
  destruct (els tag) as [[len off [l|]]|]; cbn; try exact I.
  revert l. fix IHl 1. intros [|[od] r]; constructor.
  - cbn. destruct od as [d|]; [apply IH | exact I].
  - apply IHl.
Qed.

End DataSetInduction.

(** ** Content-tree decoder *)

Section ContentTree.
Context {number : Type} `{JS.Number number}.

Lemma parseContentItem_children (ds : DataSet number) (f : ReportFinding) :
  DicomSR.parseContentItem_present ds = Some f ->
  children f =
    match items_of (elements ds "x0040a730") with
    | Some childItems =>
        let cs := DicomSR.collectFindings childItems in
        if (length cs =? 0)%nat then None else Some cs
    | None => None
    end.
Proof.
  destruct ds as [bytes str ints shorts fstr fl els].
  cbn [DicomSR.parseContentItem_present string_ elements items_of].
  destruct (negb _); [discriminate|].
  destruct (DicomSR.contentValue _ _ _) as [[v u] r].
  intros [= <-]. cbn [children]. unfold items_of.
  destruct (els "x0040a730") as [e|]; [|reflexivity].
  destruct (items e) as [l|]; [|reflexivity].
  cbn zeta.
  match goal with
  | |- (if (length ?X =? 0)%nat then _ else _) = _ =>
      assert (X = DicomSR.collectFindings l) as ->; [|reflexivity]
  end.
  induction l as [|it r' IHr]; [reflexivity|].
  cbn. destruct (dataSet it) as [d|]; cbn.
  - destruct (DicomSR.parseContentItem_present d); [f_equal|]; apply IHr.
  - apply IHr.
Qed.

Lemma collectFindings_Forall (Q : ReportFinding -> Prop) (l : list (Item number)) :
  nested_in (fun d => forall f, DicomSR.parseContentItem_present d = Some f -> Q f)
            (Some {| length_ := 0; dataOffset := 0; items := Some l |}) ->
  Forall Q (DicomSR.collectFindings l).
Proof.
  cbn. induction 1 as [|it r Hit _ IH]; cbn; [constructor|].
  destruct (dataSet it) as [d|]; cbn; [|exact IH].
  destruct (DicomSR.parseContentItem_present d) as [f|] eqn:Hf; [|exact IH].
  constructor; [apply Hit; reflexivity | exact IH].
Qed.

Lemma collectFindings_none (l : list (Item number)) :
  Forall (fun it => DicomSR.parseContentItem (dataSet it) = None) l ->
  DicomSR.collectFindings l = [].
Proof.
  induction 1 as [|it r Hit _ IH]; cbn; [reflexivity|].
  rewrite Hit. exact IH.
Qed.

Lemma parseContentItem_wellformed (ds : DataSet number) :
  forall f, DicomSR.parseContentItem_present ds = Some f ->
            childrenAbsentOrNonEmpty f = true.
Proof.
  induction ds as [ds IH] using DataSet_nested_ind.
  intros f Hf. pose proof (parseContentItem_children ds f Hf) as Hc.
  specialize (IH "x0040a730").
  destruct f as [cn v vt u ch r]. cbn [children] in Hc. cbn [childrenAbsentOrNonEmpty children].
  unfold items_of in Hc. unfold nested_in in IH.
  destruct (elements ds "x0040a730") as [e|]; [|subst ch; reflexivity].
  destruct (items e) as [l|]; [|subst ch; reflexivity].
  cbn zeta in Hc.
  assert (Hall : Forall (fun c => childrenAbsentOrNonEmpty c = true)
                        (DicomSR.collectFindings l)).
  { apply collectFindings_Forall. exact IH. }
  destruct (DicomSR.collectFindings l) as [|c cs]; cbn in Hc; subst ch; [reflexivity|].
  apply forallb_forall. intros x Hx.
  rewrite Forall_forall in Hall. apply Hall. apply list_elem_of_In. exact Hx.
Qed.

(** C5. For every decoded content item, the [children] field of the
    resulting finding (and of every finding below it) is absent or a
    non-empty list, never an empty list; an item whose nested content
    sequence yields no surviving child, such as a CONTAINER whose children
    all fail to decode, has [children] absent. *)
Theorem finding_children_absent_or_nonempty (ds : DataSet number) (f : ReportFinding) :
  DicomSR.parseContentItem (Some ds) = Some f ->
  childrenAbsentOrNonEmpty f = true
  /\ children f <> Some []
  /\ (forall childItems,
        items_of (elements ds "x0040a730") = Some childItems ->
        Forall (fun it => DicomSR.parseContentItem (dataSet it) = None) childItems ->
        children f = None).
Proof.
  cbn [DicomSR.parseContentItem]. intros Hf.
  pose proof (parseContentItem_wellformed ds f Hf) as Hwf.
  split; [exact Hwf|]. split.
  - intros Hnil. destruct f as [cn v vt u ch r]. cbn in Hnil. subst ch.
    cbn in Hwf. discriminate.
  - intros childItems Hitems Hnone.
    rewrite (parseContentItem_children ds f Hf), Hitems.
    rewrite (collectFindings_none childItems Hnone). reflexivity.
Qed.

(** The findings of a decoded report satisfy the same invariant. *)
Lemma parseSR_findings_wellformed (ds : DataSet number) (path : string) (r : DicomReport) :
  DicomSR.parseSR ds path = Some r ->
  Forall (fun f => childrenAbsentOrNonEmpty f = true) (findings r).
Proof.
  unfold DicomSR.parseSR. destruct (_ || _); [discriminate|].
  intros [= <-]. cbn [findings]. unfold DicomSR.parseContentSequence, items_of.
  destruct (elements ds "x0040a730") as [e|] eqn:He; [|constructor].
  destruct (items e) as [l|] eqn:Hl; [|constructor].
  apply collectFindings_Forall. cbn.
  apply Forall_forall. intros it _. destruct (dataSet it) as [d|]; [|exact I].
  apply parseContentItem_wellformed.
Qed.

End ContentTree.

Lemma finding_children_absent_or_nonempty_witness :
  exists f,
    DicomSR.parseContentItem
      (Some (Fixture.containerItem "Addendum" [Fixture.untypedItem])) = Some f
    /\ valueType f = "CONTAINER"
    /\ children f = None
    /\ childrenAbsentOrNonEmpty f = true.
Proof.
  eexists. split; [vm_compute; reflexivity|].
  split; [reflexivity|].
  pose proof (finding_children_absent_or_nonempty
                (Fixture.containerItem "Addendum" [Fixture.untypedItem]) _ eq_refl)
    as (Hwf & _ & Hcollapse).
  split; [|exact Hwf].
  apply (Hcollapse [mkItem (Some Fixture.untypedItem)]); [reflexivity|].
  constructor; [reflexivity | constructor].
Defined.

(** ** Overlay bitmap decoder: the stated properties *)

(** C3. For every packed buffer and pixel count [n = rows * columns], the
    unpack function returns exactly [n] bytes; output byte [i] is bit
    [i mod 8] of input byte [floor(i/8)]; an index whose byte lies at or
    beyond the end of the buffer unpacks to 0 (the loop reads the buffer
    only under the guard [byteIndex < packed.length]); and the example of
    the specification, group 0x6000 with two rows, four columns and the
    packed byte [0b00001011], unpacks to [1,1,0,1,0,0,0,0]. *)
Theorem unpackOverlayBits_bits (packed : list Z) (rows columns : Z) :
  let n := rows * columns in
  let unpacked := unpackOverlayBits packed n in
  length unpacked = Z.to_nat n
  /\ (forall i b, 0 <= i < n -> packed !! Z.to_nat (i / 8) = Some b ->
        unpacked !! Z.to_nat i = Some (Z.b2z (Z.testbit b (i mod 8))))
  /\ (forall i, 0 <= i < n -> Z.of_nat (length packed) <= i / 8 ->
        unpacked !! Z.to_nat i = Some 0)
  /\ unpackOverlayBits [11] (2 * 4) = [1; 1; 0; 1; 0; 0; 0; 0]
  /\ parseOverlays Fixture.overlayDataSet
     = Some [ {| group := 0x6000;
                 ov_rows := 2;
                 ov_columns := 4;
                 ov_type := "G";
                 origin := (IntegerNumbers.Int 1, IntegerNumbers.Int 1);
                 bitsAllocated := 1;
                 data := [1; 1; 0; 1; 0; 0; 0; 0];
                 ov_description := None;
                 label := None |} ].
Proof.
  cbv zeta. split; [apply unpackOverlayBits_length|].
  split; [|split; [|split; [reflexivity | vm_compute; reflexivity]]].
  - intros i b Hi Hb. rewrite unpackOverlayBits_lookup by exact Hi.
    f_equal. apply bitAt_inside; [lia | exact Hb].
  - intros i Hi Hout. rewrite unpackOverlayBits_lookup by exact Hi.
    f_equal. apply bitAt_outside. exact Hout.
Qed.

Lemma unpackOverlayBits_bits_witness :
  unpackOverlayBits [11] (2 * 4) !! Z.to_nat 3 = Some (Z.b2z (Z.testbit 11 (3 mod 8)))
  /\ unpackOverlayBits [11] (2 * 4) !! Z.to_nat 5 = Some 0
  /\ unpackOverlayBits [] (2 * 4) !! Z.to_nat 5 = Some 0.
Proof.
  split; [|split].
  - apply (proj1 (proj2 (unpackOverlayBits_bits [11] 2 4)) 3 11); [lia | reflexivity].
  - apply (proj1 (proj2 (unpackOverlayBits_bits [11] 2 4)) 5 11); [lia | reflexivity].
  - apply (proj1 (proj2 (proj2 (unpackOverlayBits_bits [] 2 4))) 5); [lia | vm_compute; discriminate].
Defined.

Lemma keptBits_whole (packed : list Z) (n : Z) (j : nat) (b : Z) :
  packed !! j = Some b -> 0 <= b < 256 -> 8 * (Z.of_nat j + 1) <= n ->
  keptBits packed n !! j = Some b.
Proof.
  intros Hb Hbyte Hn. rewrite keptBits_lookup, Hb. cbn. f_equal.
  replace (Z.min 8 (Z.max 0 (n - 8 * Z.of_nat j))) with 8 by lia.
  apply lowBits_byte. exact Hbyte.
Qed.

(** C9, as the code has it. For a buffer of [L] bytes and a pixel count
    [N <= 8L], unpacking [N] bits and re-packing them gives the buffer with
    every bit at position [N] or above cleared: the first [floor(N/8)]
    bytes are reproduced exactly, and the whole [L]-byte buffer when
    [N = 8L]. *)
Theorem overlay_roundtrip (packed : list Z) (numPixels : Z) :
  Forall (fun b => 0 <= b < 256) packed ->
  0 <= numPixels <= 8 * Z.of_nat (length packed) ->
  let repacked :=
    packOverlayBits (unpackOverlayBits packed numPixels) (Z.of_nat (length packed)) in
  repacked = keptBits packed numPixels
  /\ take (Z.to_nat (numPixels / 8)) repacked = take (Z.to_nat (numPixels / 8)) packed
  /\ (numPixels = 8 * Z.of_nat (length packed) -> repacked = packed).
Proof.
  intros Hbytes HN. cbv zeta. rewrite overlay_repack_kept by exact HN.
  rewrite Forall_forall in Hbytes.
  split; [reflexivity|]. split.
  - apply list_eq. intros j. rewrite !lookup_take.
    case_decide as Hj; [|reflexivity].
    destruct (packed !! j) as [b|] eqn:Hb.
    + apply keptBits_whole; [exact Hb | apply Hbytes; eapply list_elem_of_lookup_2; exact Hb |].
      assert (Z.of_nat j + 1 <= numPixels / 8) as Hle by lia.
      pose proof (Z.mul_div_le numPixels 8 ltac:(lia)). lia.
    + rewrite keptBits_lookup, Hb. reflexivity.
  - intros ->. apply list_eq. intros j.
    destruct (packed !! j) as [b|] eqn:Hb.
    + pose proof (lookup_lt_Some _ _ _ Hb).
      apply keptBits_whole; [exact Hb | apply Hbytes; eapply list_elem_of_lookup_2; exact Hb | lia].
    + rewrite keptBits_lookup, Hb. reflexivity.
Qed.

Lemma overlay_roundtrip_witness :
  packOverlayBits (unpackOverlayBits [255; 3; 7] 12) (Z.of_nat (length [255; 3; 7]))
  = keptBits [255; 3; 7] 12
  /\ take (Z.to_nat (12 / 8))
       (packOverlayBits (unpackOverlayBits [255; 3; 7] 12) (Z.of_nat (length [255; 3; 7])))
     = take (Z.to_nat (12 / 8)) [255; 3; 7].
Proof.
  assert (Hbytes : Forall (fun b => 0 <= b < 256) [255; 3; 7]).
  { repeat constructor; lia. }
  assert (HN : 0 <= 12 <= 8 * Z.of_nat (length [255; 3; 7])) by (cbn; lia).
  destruct (overlay_roundtrip [255; 3; 7] 12 Hbytes HN) as (H1 & H2 & _).
  split; [exact H1 | exact H2].
Defined.

(** C9, as stated, fails: with one packed byte [0xFF] and four pixels
    ([4 <= 8 * 1]) the round trip gives [0x0F], not the original byte. *)
Lemma overlay_roundtrip_counterexample :
  Forall (fun b => 0 <= b < 256) [255]
  /\ 0 <= 4 <= 8 * Z.of_nat (length [255])
  /\ packOverlayBits (unpackOverlayBits [255] 4) (Z.of_nat (length [255])) = [15]
  /\ packOverlayBits (unpackOverlayBits [255] 4) (Z.of_nat (length [255]))
     <> take (length [255]) [255].
Proof.
  split; [repeat constructor; lia|].
  split; [cbn; lia|].
  split; [reflexivity|].
  vm_compute. discriminate.
Defined.

(** ** [Array.prototype.sort] with a numeric-key comparator *)

Lemma minus_sign_Positive (a b : JS.Integer) :
  a <> JS.NaN -> b <> JS.NaN ->
  JS.minus_sign a b = JS.Positive <-> JS.leb a b = false.
Proof.
  intros Ha Hb.
  destruct a as [|[|]|x], b as [|[|]|y]; try contradiction; cbn;
    try (split; intros; (reflexivity || discriminate)).
  unfold JS.sign_of.
  destruct (Z.ltb_spec (x - y) 0), (Z.eqb_spec (x - y) 0), (Z.leb_spec x y);
    split; intros; try reflexivity; try discriminate; lia.
Qed.

Lemma Integer_leb_total (a b : JS.Integer) :
  a <> JS.NaN -> b <> JS.NaN -> JS.leb a b = false -> JS.leb b a = true.
Proof.
  intros Ha Hb.
  destruct a as [|[|]|x], b as [|[|]|y]; try contradiction; cbn;
    try (intros; (reflexivity || discriminate)).
  destruct (Z.leb_spec x y), (Z.leb_spec y x); intros; try reflexivity; try discriminate; lia.
Qed.

Lemma Integer_leb_trans (a b c : JS.Integer) :
  JS.leb a b = true -> JS.leb b c = true -> JS.leb a c = true.
Proof.
  destruct a as [|[|]|x], b as [|[|]|y], c as [|[|]|z]; cbn;
    try (intros; (reflexivity || discriminate)).
  destruct (Z.leb_spec x y), (Z.leb_spec y z), (Z.leb_spec x z);
    intros; try reflexivity; try discriminate; lia.
Qed.

Section SortByKey.
Context {A : Type} (key : A -> JS.Integer).

Local Abbreviation cmp := (fun a b : A => JS.minus_sign (key a) (key b)).
Local Abbreviation ordered := (fun a b : A => JS.leb (key a) (key b) = true).
Local Abbreviation numbered := (fun a : A => key a <> JS.NaN).

Lemma sort_insert_Permutation (x : A) (l : list A) :
  Permutation (JS.sort_insert cmp x l) (x :: l).
Proof.
  induction l as [|y r IH]; cbn; [reflexivity|].
  destruct (JS.minus_sign (key x) (key y)); try reflexivity.
  rewrite IH. apply perm_swap.
Qed.

Lemma sort_Permutation (l : list A) : Permutation (JS.sort cmp l) l.
Proof.
  induction l as [|x r IH]; cbn; [reflexivity|].
  rewrite sort_insert_Permutation. constructor. exact IH.
Qed.

Lemma sort_insert_sorted (x : A) (l : list A) :
  numbered x -> Forall numbered l ->
  StronglySorted ordered l -> StronglySorted ordered (JS.sort_insert cmp x l).
Proof.
  intros Hx Hl Hs. induction Hs as [|y r Hr IH Hy]; cbn.
  - constructor; constructor.
  - apply Forall_cons in Hl. destruct Hl as [Hny Hnr].
    destruct (JS.leb (key x) (key y)) eqn:Hle.
    + assert (Hkeep : JS.minus_sign (key x) (key y) <> JS.Positive).
      { intros Hpos. apply minus_sign_Positive in Hpos; [congruence | exact Hx | exact Hny]. }
      assert (Hgoal : StronglySorted ordered (x :: y :: r)).
      { constructor; [constructor; assumption|].
        constructor; [exact Hle|].
        eapply List.Forall_impl; [|exact Hy]. cbn. intros z Hz.
        eapply Integer_leb_trans; [exact Hle | exact Hz]. }
      destruct (JS.minus_sign (key x) (key y)); try exact Hgoal. contradiction.
    + assert (Hpos : JS.minus_sign (key x) (key y) = JS.Positive).
      { apply minus_sign_Positive; assumption. }
      rewrite Hpos. constructor; [apply IH; exact Hnr|].
      eapply Permutation_Forall; [symmetry; apply sort_insert_Permutation|].
      constructor; [apply Integer_leb_total; assumption | exact Hy].
Qed.

Lemma sort_sorted (l : list A) :
  Forall numbered l -> StronglySorted ordered (JS.sort cmp l).
Proof.
  induction l as [|x r IH]; cbn; intros Hl; [constructor|].
  apply Forall_cons in Hl. destruct Hl as [Hx Hr].
  apply sort_insert_sorted; [exact Hx| |apply IH; exact Hr].
  eapply Permutation_Forall; [symmetry; apply sort_Permutation | exact Hr].
Qed.

End SortByKey.

(** ** Key-object selections *)

Section KeyObjects.
Context {number : Type}.

Lemma pushImageReference_app (ds : DataSet number) (acc : list SOPInstanceUID) :
  DicomKO.pushImageReference ds acc = acc ++ option_list (referencedSopId ds).
Proof.
  unfold DicomKO.pushImageReference, referencedSopId.
  destruct (JS.strict_eq _ _); [|symmetry; apply app_nil_r].
  destruct (first_item_dataSet _) as [r|]; [|symmetry; apply app_nil_r].
  cbv zeta. destruct (string_ r "x00081155") as [uid|]; cbn.
  - destruct (negb _); [reflexivity | symmetry; apply app_nil_r].
  - symmetry; apply app_nil_r.
Qed.

Lemma eachNestedItem_app (l : list (Item number)) :
  forall acc,
    DicomKO.eachNestedItem l acc
    = acc ++ flat_map (fun it => match dataSet it with
                                 | Some d => option_list (referencedSopId d)
                                             ++ imageLeavesWithin 0 d
                                 | None => []
                                 end) l.
Proof.
  induction l as [|it r IH]; intros acc; cbn; [symmetry; apply app_nil_r|].
  destruct (dataSet it) as [d|]; cbn.
  - rewrite IH, pushImageReference_app, app_nil_r, app_assoc. reflexivity.
  - apply IH.
Qed.

Lemma eachItem_app (l : list (Item number)) :
  forall acc,
    DicomKO.eachItem l acc
    = acc ++ flat_map (fun it => match dataSet it with
                                 | Some d => option_list (referencedSopId d)
                                             ++ imageLeavesWithin 1 d
                                 | None => []
                                 end) l.
Proof.
  induction l as [|it r IH]; intros acc; cbn [DicomKO.eachItem flat_map];
    [symmetry; apply app_nil_r|].
  destruct (dataSet it) as [d|]; cbn [app].
  - rewrite IH, pushImageReference_app. cbn [imageLeavesWithin].
    destruct (items_of (elements d "x0040a730")) as [nested|].
    + rewrite eachNestedItem_app, <- !app_assoc. reflexivity.
    + rewrite app_nil_r, <- !app_assoc. reflexivity.
  - apply IH.
Qed.

Lemma imageLeaves_unfold (ds : DataSet number) :
  imageLeaves ds
  = match items_of (elements ds "x0040a730") with
    | Some contentItems =>
        flat_map (fun it => match dataSet it with
                            | Some d => option_list (referencedSopId d) ++ imageLeaves d
                            | None => []
                            end) contentItems
    | None => []
    end.
Proof.
  destruct ds as [bytes str ints shorts fstr fl els].
  cbn [imageLeaves elements]. unfold items_of.
  destruct (els "x0040a730") as [e|]; [|reflexivity].
  destruct (items e) as [l|]; [|reflexivity].
  induction l as [|it r IH]; [reflexivity|].
  cbn [flat_map]. destruct (dataSet it) as [d|]; cbn [app].
  - rewrite <- IH, <- app_assoc. reflexivity.
  - exact IH.
Qed.

(** What is collected within a depth is collected at any depth. *)
Lemma imageLeavesWithin_sound (depth : nat) :
  forall (ds : DataSet number) (uid : SOPInstanceUID),
    In uid (imageLeavesWithin depth ds) -> In uid (imageLeaves ds).
Proof.
  induction depth as [|k IH]; intros ds uid; cbn [imageLeavesWithin]; [intros []|].
  rewrite imageLeaves_unfold.
  destruct (items_of (elements ds "x0040a730")) as [l|]; [|intros []].
  rewrite !in_flat_map. intros (it & Hit & Hin). exists it. split; [exact Hit|].
  destruct (dataSet it) as [d|]; [|exact Hin].
  rewrite in_app_iff in *. destruct Hin as [Hin|Hin]; [left; exact Hin|].
  right. apply IH. exact Hin.
Qed.

(** C4, as the code has it. The reference resolver of a key-object
    selection collects the IMAGE-typed items of the content sequence at the
    top level and one level below (inside the content sequence of a
    top-level item), in encounter order; each such item contributes its
    referenced SOP instance to [keyImages], and what is collected is a
    collection of IMAGE leaves of the dataset. *)
Theorem key_object_references_two_levels (ds : DataSet number) :
  DicomKO.parseReferencedImages ds = imageLeavesWithin 2 ds
  /\ (forall uid, In uid (DicomKO.parseReferencedImages ds) -> In uid (imageLeaves ds))
  /\ (forall path ko, DicomKO.parseKO ds path = Some ko ->
        keyImages ko = imageLeavesWithin 2 ds).
Proof.
  assert (Heq : DicomKO.parseReferencedImages ds = imageLeavesWithin 2 ds).
  { unfold DicomKO.parseReferencedImages. cbn [imageLeavesWithin].
    destruct (items_of (elements ds "x0040a730")) as [l|]; [|reflexivity].
    rewrite eachItem_app. reflexivity. }
  split; [exact Heq|]. split.
  - intros uid. rewrite Heq. apply imageLeavesWithin_sound.
  - intros path ko. unfold DicomKO.parseKO.
    destruct (negb _); [discriminate|].
    destruct (length _ =? 0)%nat; [discriminate|].
    intros [= <-]. exact Heq.
Qed.

Lemma parseKO_keyImages_nonempty (ds : DataSet number) (path : string)
  (ko : KeyObjectSelection) :
  DicomKO.parseKO ds path = Some ko -> keyImages ko <> [].
Proof.
  unfold DicomKO.parseKO. destruct (negb _); [discriminate|].
  destruct (DicomKO.parseReferencedImages ds) as [|uid r] eqn:Hrefs; cbn;
    [discriminate|].
  intros [= <-]. cbn. discriminate.
Qed.

Lemma parseKO_no_references (ds : DataSet number) (path : string) :
  DicomKO.parseReferencedImages ds = [] -> DicomKO.parseKO ds path = None.
Proof.
  intros Hrefs. unfold DicomKO.parseKO. rewrite Hrefs.
  destruct (negb _); reflexivity.
Qed.

End KeyObjects.

Lemma key_object_references_two_levels_witness :
  exists ko,
    DicomKO.parseKO Fixture.keyObjectDataSet "/scan/ko.dcm" = Some ko
    /\ keyImages ko = imageLeavesWithin 2 Fixture.keyObjectDataSet
    /\ keyImages ko = ["1.2.2.1"; "9.9.9"]
    /\ In "9.9.9" (imageLeaves Fixture.keyObjectDataSet).
Proof.
  eexists. split; [vm_compute; reflexivity|].
  destruct (key_object_references_two_levels Fixture.keyObjectDataSet)
    as (_ & Hsound & Hko).
  split; [apply (Hko "/scan/ko.dcm"); reflexivity|].
  split; [reflexivity|].
  apply Hsound. vm_compute. right. left. reflexivity.
Defined.

(** C4, as stated, fails: an IMAGE-typed item three levels down is a leaf
    of the content tree, yet it is not collected, and a key-object
    selection with only that reference is discarded. *)
Lemma key_object_deep_reference_counterexample :
  In "1.2.2.1" (imageLeaves Fixture.deepKeyObjectDataSet)
  /\ ~ In "1.2.2.1" (DicomKO.parseReferencedImages Fixture.deepKeyObjectDataSet)
  /\ DicomKO.parseReferencedImages Fixture.deepKeyObjectDataSet = []
  /\ DicomKO.parseKO Fixture.deepKeyObjectDataSet "/scan/deep-ko.dcm" = None.
Proof.
  split; [vm_compute; left; reflexivity|].
  split; [vm_compute; intros []|].
  split; reflexivity.
Defined.

(** ** Study assembler *)

Section Assembler.
Context {number : Type} `{JS.Number number}.
Variable readFile : string -> option (list Z).
Variable parseDicom : list Z -> option (DataSet number).

Local Abbreviation parseFile := (parseDicomFile readFile parseDicom).
Local Abbreviation studyMeta := (parseStudyMetadata readFile parseDicom).
Local Abbreviation seriesMeta := (parseSeriesMetadata readFile parseDicom).
Local Abbreviation ingest1 := (ingestFile readFile parseDicom).
Local Abbreviation ingested := (accumulated readFile parseDicom).
Local Abbreviation load := (loadDicomFromFolder readFile parseDicom).
Local Abbreviation findHeader := (findStudyMetadata readFile parseDicom).

(** *** The ingestion loop *)

Lemma ingestFrom_accumulated (total : Z) (filePaths : list string) :
  forall i acc events,
    fst (ingestFrom readFile parseDicom total i filePaths acc events)
    = ingested filePaths acc.
Proof.
  induction filePaths as [|f r IH]; intros i acc events; [reflexivity|].
  cbn [ingestFrom]. rewrite IH. reflexivity.
Qed.

Lemma accumulated_app (l1 l2 : list string) (acc : Accumulators) :
  ingested (l1 ++ l2) acc = ingested l2 (ingested l1 acc).
Proof. unfold accumulated. apply fold_left_app. Qed.

Lemma ingestFile_skip (f : string) (acc : Accumulators) :
  parseFile f = None -> ingest1 f acc = acc.
Proof. intros Hf. unfold ingestFile. rewrite Hf. reflexivity. Qed.

(** An invariant of the accumulators that every round preserves holds
    after the loop. *)
Lemma accumulated_invariant (Q : Accumulators -> Prop) (filePaths : list string) :
  forall acc,
    Q acc ->
    (forall f a, In f filePaths -> Q a -> Q (ingest1 f a)) ->
    Q (ingested filePaths acc).
Proof.
  induction filePaths as [|f r IH]; intros acc Hacc Hstep; [exact Hacc|].
  cbn. apply IH.
  - apply Hstep; [left; reflexivity | exact Hacc].
  - intros g a Hg. apply Hstep. right. exact Hg.
Qed.

(** *** What a decoded file is *)

Lemma parseDicomFile_keyObject (f : string) (ko : KeyObjectSelection) :
  parseFile f = Some (keyObject ko) ->
  exists ds : DataSet number, DicomKO.parseKO ds f = Some ko.
Proof.
  unfold parseDicomFile.
  destruct (readFile f) as [buffer|]; [|discriminate].
  destruct (_ >? _); [discriminate|].
  destruct (parseDicom buffer) as [ds|]; [|discriminate].
  destruct (DicomSR.isSRFile ds).
  { destruct (DicomSR.parseSR ds f); discriminate. }
  destruct (DicomKO.isKOFile ds).
  { destruct (DicomKO.parseKO ds f) as [k|] eqn:Hk; [|discriminate].
    intros [= <-]. exists ds. exact Hk. }
  destruct (DicomPR.isPRFile ds).
  { destruct (DicomPR.parsePR ds f); discriminate. }
  destruct (elements ds "x7fe00010"); [|discriminate].
  destruct (_ || _); [discriminate|].
  destruct (parseOverlays ds); discriminate.
Qed.

Lemma parseDicomFile_image (f : string) (img : DicomImage number) :
  parseFile f = Some (image img) ->
  exists buffer ds,
    readFile f = Some buffer /\ parseDicom buffer = Some ds
    /\ seriesInstanceUID img = JS.nullish (string_ ds "x0020000e") "".
Proof.
  unfold parseDicomFile.
  destruct (readFile f) as [buffer|]; [|discriminate].
  destruct (_ >? _); [discriminate|].
  destruct (parseDicom buffer) as [ds|] eqn:Hds; [|discriminate].
  destruct (DicomSR.isSRFile ds).
  { destruct (DicomSR.parseSR ds f); discriminate. }
  destruct (DicomKO.isKOFile ds).
  { destruct (DicomKO.parseKO ds f); discriminate. }
  destruct (DicomPR.isPRFile ds).
  { destruct (DicomPR.parsePR ds f); discriminate. }
  destruct (elements ds "x7fe00010"); [|discriminate].
  destruct (_ || _); [discriminate|].
  destruct (parseOverlays ds); [|discriminate].
  intros [= <-]. exists buffer, ds. repeat split; assumption.
Qed.

Lemma parseSeriesMetadata_Some (f : string) (s : DicomSeries number) :
  seriesMeta f = Some s ->
  exists buffer ds,
    readFile f = Some buffer /\ parseDicom buffer = Some ds
    /\ se_seriesInstanceUID s = JS.nullish (string_ ds "x0020000e") ""
    /\ images s = [].
Proof.
  unfold parseSeriesMetadata.
  destruct (readFile f) as [buffer|]; [|discriminate].
  destruct (parseDicom buffer) as [ds|] eqn:Hds; [|discriminate].
  destruct (_ || _); [discriminate|].
  intros [= <-]. exists buffer, ds. repeat split; assumption.
Qed.

(** The series-metadata reader returns [null] whenever the file lacks a
    series instance UID or a study instance UID. *)
Lemma parseSeriesMetadata_lacking (f : string) (buffer : list Z) (ds : DataSet number) :
  readFile f = Some buffer -> parseDicom buffer = Some ds ->
  JS.truthy (string_ ds "x0020000e") = false
  \/ JS.truthy (string_ ds "x0020000d") = false ->
  seriesMeta f = None.
Proof.
  intros Hr Hp Hlack. unfold parseSeriesMetadata. rewrite Hr, Hp.
  destruct Hlack as [-> | ->]; cbn; [reflexivity|].
  rewrite orb_true_r. reflexivity.
Qed.

(** An image and the series entry created from the same file carry the
    same series identifier. *)
Lemma image_series_same_file (f : string) (img : DicomImage number)
  (s : DicomSeries number) :
  parseFile f = Some (image img) -> seriesMeta f = Some s ->
  se_seriesInstanceUID s = seriesInstanceUID img /\ images s = [].
Proof.
  intros Hi Hs.
  destruct (parseDicomFile_image f img Hi) as (b & ds & Hr & Hp & Hu).
  destruct (parseSeriesMetadata_Some f s Hs) as (b' & ds' & Hr' & Hp' & Hu' & He).
  rewrite Hr in Hr'. injection Hr' as <-. rewrite Hp in Hp'. injection Hp' as <-.
  split; [congruence | exact He].
Qed.

(** *** The series map *)

Lemma JSMap_set_In {V : Type} (m : JSMap.t V) (k : string) (v : V) (k' : string) (v' : V) :
  In (k', v') (JSMap.set m k v) -> (k', v') = (k, v) \/ In (k', v') m.
Proof.
  induction m as [|[k0 v0] r IH]; cbn.
  - intros [Heq|[]]. left. symmetry. exact Heq.
  - destruct (String.eqb_spec k0 k) as [->|Hne]; cbn.
    + intros [Heq|Hin]; [left; symmetry; exact Heq | right; right; exact Hin].
    + intros [Heq|Hin]; [right; left; exact Heq|].
      destruct (IH Hin) as [Heq|Hin']; [left; exact Heq | right; right; exact Hin'].
Qed.

Lemma JSMap_modify_keys {V : Type} (m : JSMap.t V) (k : string) (f : V -> V) :
  map fst (JSMap.modify m k f) = map fst m.
Proof.
  induction m as [|[k0 v0] r IH]; cbn; [reflexivity|].
  destruct (String.eqb k0 k); cbn; [reflexivity|]. rewrite IH. reflexivity.
Qed.

Lemma JSMap_modify_Forall {V : Type} (Q : string * V -> Prop) (m : JSMap.t V)
  (k : string) (f : V -> V) :
  Forall Q m -> (forall v, Q (k, v) -> Q (k, f v)) -> Forall Q (JSMap.modify m k f).
Proof.
  intros Hm Hf. induction Hm as [|[k0 v0] r H0 Hr IH]; cbn; [constructor|].
  destruct (String.eqb_spec k0 k) as [->|Hne]; constructor; auto.
Qed.

Lemma accumulated_seriesMap (filePaths : list string) :
  Forall (created_from readFile parseDicom filePaths)
         (acc_seriesMap (ingested filePaths emptyAccumulators)).
Proof.
  apply (accumulated_invariant
           (fun acc => Forall (created_from readFile parseDicom filePaths) (acc_seriesMap acc)));
    [constructor|].
  intros f a Hf Ha. unfold ingestFile.
  destruct (parseFile f) as [[img|r|ko|ps]|] eqn:Hparse; cbn; try exact Ha.
  destruct (JSMap.has _ _); cbn; [exact Ha|].
  destruct (seriesMeta f) as [s|] eqn:Hmeta; [|exact Ha].
  apply Forall_forall. intros [k' s'] Hin.
  apply list_elem_of_In, JSMap_set_In in Hin. destruct Hin as [[= -> ->]|Hin].
  - destruct (image_series_same_file f img s Hparse Hmeta) as [Hu He].
    repeat split; cbn; [exact Hu | exact He |].
    exists f, img. repeat split; assumption.
  - rewrite Forall_forall in Ha. apply Ha. apply list_elem_of_In. exact Hin.
Qed.

Lemma accumulated_keyObjects (filePaths : list string) :
  Forall (fun ko => keyImages ko <> [])
         (acc_keyObjectSelections (ingested filePaths emptyAccumulators)).
Proof.
  apply (accumulated_invariant
           (fun acc => Forall (fun ko => keyImages ko <> [])
                              (acc_keyObjectSelections acc)));
    [constructor|].
  intros f a Hf Ha. unfold ingestFile.
  destruct (parseFile f) as [[img|r|ko|ps]|] eqn:Hparse; cbn; try exact Ha.
  apply Forall_app. split; [exact Ha|]. constructor; [|constructor].
  destruct (parseDicomFile_keyObject f ko Hparse) as [ds Hko].
  exact (parseKO_keyImages_nonempty ds f ko Hko).
Qed.

(** *** Organising and sorting *)

Lemma JSMap_get_Some_key {V : Type} (m : JSMap.t V) (k : string) (v : V) :
  JSMap.get m k = Some v -> In k (map fst m).
Proof.
  induction m as [|[k0 v0] r IH]; cbn; [discriminate|].
  destruct (String.eqb_spec k0 k) as [->|Hne]; [left; reflexivity|].
  intros Hget. right. apply IH. exact Hget.
Qed.

Lemma organizeImages_coherent (imgs : list (DicomImage number)) :
  forall m,
    Forall coherent m ->
    Forall coherent (organizeImages imgs m)
    /\ map fst (organizeImages imgs m) = map fst m.
Proof.
  induction imgs as [|img r IH]; intros m Hm; cbn [organizeImages]; [split; auto|].
  destruct (JSMap.get m (seriesInstanceUID img)) as [s|]; [|apply IH; exact Hm].
  destruct (IH (JSMap.modify m (seriesInstanceUID img)
                  (fun s => {| se_seriesInstanceUID := se_seriesInstanceUID s;
                               se_studyInstanceUID := se_studyInstanceUID s;
                               seriesNumber := seriesNumber s;
                               seriesDescription := seriesDescription s;
                               bodyPart := bodyPart s;
                               se_modality := se_modality s;
                               images := images s ++ [img] |}))) as [Hc Hk].
  - apply JSMap_modify_Forall; [exact Hm|].
    intros v [Hid Himgs]. split; cbn in *; [exact Hid|].
    apply Forall_app. split; [exact Himgs | constructor; [reflexivity | constructor]].
  - split; [exact Hc|]. rewrite Hk. apply JSMap_modify_keys.
Qed.

Lemma sortImages_coherent (m : JSMap.t (DicomSeries number)) :
  Forall coherent m ->
  Forall coherent (sortImages m) /\ map fst (sortImages m) = map fst m.
Proof.
  intros Hm. unfold sortImages. split.
  - induction Hm as [|[k s] r [Hid Himgs] Hr IH]; cbn; constructor; [|exact IH].
    split; cbn in *; [exact Hid|].
    eapply Permutation_Forall; [symmetry; apply sort_Permutation | exact Himgs].
  - clear Hm. induction m as [|[k s] r IH]; cbn; [reflexivity|]. rewrite IH. reflexivity.
Qed.


End Assembler.

(** ** The assembled study *)

Section AssembledStudy.
Context {number : Type} `{JS.Number number}.
Variable readFile : string -> option (list Z).
Variable parseDicom : list Z -> option (DataSet number).

Local Abbreviation parseFile := (parseDicomFile readFile parseDicom).
Local Abbreviation studyMeta := (parseStudyMetadata readFile parseDicom).
Local Abbreviation seriesMeta := (parseSeriesMetadata readFile parseDicom).
Local Abbreviation ingested := (accumulated readFile parseDicom).
Local Abbreviation load := (loadDicomFromFolder readFile parseDicom).
Local Abbreviation findHeader := (findStudyMetadata readFile parseDicom).

Lemma load_snd (filePaths : list string) :
  snd (load filePaths)
  = match filePaths with
    | [] => None
    | _ =>
        match findHeader (take 10 filePaths) with
        | Some m => assembleStudy m (ingested filePaths emptyAccumulators)
        | None => None
        end
    end.
Proof.
  destruct filePaths as [|f r]; [reflexivity|].
  unfold loadDicomFromFolder. cbn [length Nat.eqb].
  destruct (findHeader _) as [m|]; [|reflexivity].
  match goal with
  | |- context [ingestFrom ?rf ?pd ?t ?i ?l ?a ?e] =>
      pose proof (ingestFrom_accumulated rf pd t l i a e) as Hacc;
      destruct (ingestFrom rf pd t i l a e) as [acc ev]
  end.
  cbn in Hacc. subst acc. reflexivity.
Qed.

Lemma load_Some (filePaths : list string) (events : list LoadingProgress)
  (study : DicomStudy number) :
  load filePaths = (events, Some study) ->
  exists m,
    findHeader (take 10 filePaths) = Some m
    /\ assembleStudy m (ingested filePaths emptyAccumulators) = Some study.
Proof.
  intros Hload. pose proof (load_snd filePaths) as Hsnd. rewrite Hload in Hsnd.
  cbn [snd] in Hsnd. destruct filePaths as [|f r]; [discriminate|].
  destruct (findHeader _) as [m|]; [|discriminate].
  exists m. split; [reflexivity | symmetry; exact Hsnd].
Qed.

Lemma assembleStudy_Some (m : StudyMetadata) (acc : Accumulators)
  (study : DicomStudy number) :
  assembleStudy m acc = Some study ->
  series study
  = JS.sort bySeriesNumber
      (JSMap.values (sortImages (organizeImages (acc_images acc) (acc_seriesMap acc))))
  /\ reports study = acc_reports acc
  /\ keyObjectSelections study = acc_keyObjectSelections acc
  /\ presentationStates study = acc_presentationStates acc
  /\ studyInstanceUID study = sm_studyInstanceUID m
  /\ patientName study = sm_patientName m
  /\ patientId study = sm_patientId m
  /\ studyDate study = sm_studyDate m
  /\ studyDescription study = sm_studyDescription m
  /\ modality study = sm_modality m
  /\ institutionName study = sm_institutionName m
  /\ referringPhysician study = sm_referringPhysician m.
Proof.
  unfold assembleStudy. destruct (length _ =? 0)%nat; [discriminate|].
  intros [= <-]. cbn. repeat split; reflexivity.
Qed.

Lemma assembleStudy_contents (m m' : StudyMetadata) (acc : Accumulators) :
  option_map (contents (number := number)) (assembleStudy m acc) = option_map (contents (number := number)) (assembleStudy m' acc).
Proof.
  unfold assembleStudy. destruct (length _ =? 0)%nat; reflexivity.
Qed.

(** The series of the study are the entries of the organised map, up to
    order; each is coherent. *)
Lemma study_series_coherent (filePaths : list string) (events : list LoadingProgress)
  (study : DicomStudy number) :
  load filePaths = (events, Some study) ->
  forall s, In s (series study) ->
    Forall (fun img => seriesInstanceUID img = se_seriesInstanceUID s) (images s)
    /\ In (se_seriesInstanceUID s)
          (map fst (acc_seriesMap (ingested filePaths emptyAccumulators))).
Proof.
  intros Hload s Hs.
  destruct (load_Some _ _ _ Hload) as (m & _ & Hasm).
  destruct (assembleStudy_Some _ _ _ Hasm) as (Hseries & _).
  rewrite Hseries in Hs.
  apply (Permutation_in _ (sort_Permutation seriesNumber _)) in Hs.
  set (acc := ingested filePaths emptyAccumulators) in *.
  assert (Hc0 : Forall coherent (acc_seriesMap acc)).
  { eapply List.Forall_impl; [|apply accumulated_seriesMap].
    intros [k e] (Hid & Hnil & _). split; cbn in *; [exact Hid|].
    rewrite Hnil. constructor. }
  destruct (organizeImages_coherent (acc_images acc) _ Hc0) as [Hc1 Hk1].
  destruct (sortImages_coherent _ Hc1) as [Hc2 Hk2].
  unfold JSMap.values in Hs. apply in_map_iff in Hs. destruct Hs as ([k e] & <- & Hin).
  rewrite Forall_forall in Hc2. destruct (Hc2 (k, e)) as [Hid Himgs];
    [apply list_elem_of_In; exact Hin|].
  cbn in *. split.
  - rewrite Hid. exact Himgs.
  - rewrite Hid, <- Hk1, <- Hk2. apply in_map_iff. exists (k, e). split; auto.
Qed.


Lemma fileFails_skipped (f : string) :
  fileFails readFile parseDicom f -> parseFile f = None.
Proof.
  unfold fileFails, parseDicomFile.
  destruct (readFile f) as [buffer|]; [|reflexivity].
  intros [Hbig|Hrest].
  { destruct (Z.gtb_spec (Z.of_nat (length buffer)) maxFileSize); [reflexivity|lia]. }
  destruct (_ >? _); [reflexivity|].
  destruct (parseDicom buffer) as [ds|]; [|reflexivity].
  destruct Hrest as [Hsop|(Hko & Hpr & Hseries)].
  - destruct (DicomSR.isSRFile ds).
    { unfold DicomSR.parseSR. rewrite Hsop. reflexivity. }
    destruct (DicomKO.isKOFile ds).
    { unfold DicomKO.parseKO. rewrite Hsop. reflexivity. }
    destruct (DicomPR.isPRFile ds).
    { unfold DicomPR.parsePR. rewrite Hsop. reflexivity. }
    destruct (elements ds "x7fe00010"); [|reflexivity].
    rewrite Hsop. reflexivity.
  - rewrite Hko, Hpr. destruct (DicomSR.isSRFile ds).
    { unfold DicomSR.parseSR. rewrite Hseries, orb_true_r. reflexivity. }
    destruct (elements ds "x7fe00010"); [|reflexivity].
    rewrite Hseries, orb_true_r. reflexivity.
Qed.

Lemma findStudyMetadata_take_more (l : list string) (m : StudyMetadata) :
  forall k, findHeader (take k l) = Some m -> findHeader (take (S k) l) = Some m.
Proof.
  induction l as [|g r IH]; intros [|k]; cbn; try discriminate.
  destruct (studyMeta g); [auto|]. apply IH.
Qed.

Lemma findStudyMetadata_without (before after : list string) (f : string)
  (m : StudyMetadata) :
  studyMeta f = None ->
  forall k,
    findHeader (take k (before ++ f :: after)) = Some m ->
    findHeader (take k (before ++ after)) = Some m.
Proof.
  intros Hf. induction before as [|g r IH]; intros [|k]; cbn; try discriminate.
  - rewrite Hf. apply findStudyMetadata_take_more.
  - destruct (studyMeta g); [auto|]. apply IH.
Qed.

(** C2. A file that fails (read or parse exception, an exception in a
    decoder, size limit, missing required identifier; in general any file
    for which [parseDicomFile] returns [null]) is skipped by the ingestion
    loop and nothing else: the loop, a total function, leaves the same
    accumulators of images, reports, key-object selections, presentation
    states and series as on the list without that file. The study header
    is searched among the first ten files, the failing file counting as
    one of them: a study header being found either way, the load returns a
    study with the same collections or is empty in both cases; and when the
    failing file yields no header itself, a study returned with it in the
    list is returned unchanged without it. *)
Theorem failed_file_only_skipped (before after : list string) (f : string) :
  fileFails readFile parseDicom f \/ parseFile f = None ->
  parseFile f = None
  /\ (forall total total' i i' events events',
        fst (ingestFrom readFile parseDicom total i (before ++ f :: after)
               emptyAccumulators events)
        = fst (ingestFrom readFile parseDicom total' i' (before ++ after)
                 emptyAccumulators events'))
  /\ (forall m m',
        findHeader (take 10 (before ++ f :: after)) = Some m ->
        findHeader (take 10 (before ++ after)) = Some m' ->
        option_map (contents (number := number)) (snd (load (before ++ f :: after)))
        = option_map (contents (number := number)) (snd (load (before ++ after))))
  /\ (studyMeta f = None ->
      forall events study,
        load (before ++ f :: after) = (events, Some study) ->
        snd (load (before ++ after)) = Some study).
Proof.
  intros Hcase.
  assert (Hfail : parseFile f = None).
  { destruct Hcase as [Hcase|Hcase]; [apply fileFails_skipped|]; exact Hcase. }
  split; [exact Hfail|].
  assert (Hacc : ingested (before ++ f :: after) emptyAccumulators
                 = ingested (before ++ after) emptyAccumulators).
  { rewrite !accumulated_app. cbn. rewrite ingestFile_skip by exact Hfail. reflexivity. }
  split; [|split].
  - intros. rewrite !ingestFrom_accumulated. exact Hacc.
  - intros m m' Hm Hm'. rewrite !load_snd, Hm, Hm', Hacc.
    destruct (before ++ f :: after) eqn:E1; [destruct before; discriminate|].
    destruct (before ++ after) eqn:E2; [cbn in Hm'; discriminate|].
    apply assembleStudy_contents.
  - intros Hmeta events study Hload.
    destruct (load_Some _ _ _ Hload) as (m & Hm & Hasm).
    apply (findStudyMetadata_without before after f m Hmeta) in Hm.
    rewrite load_snd, Hm, <- Hacc.
    destruct (before ++ after) eqn:E; [cbn in Hm; discriminate | exact Hasm].
Qed.

Lemma findStudyMetadata_Some (l : list string) (m : StudyMetadata) :
  findHeader l = Some m ->
  exists pre f post,
    l = pre ++ f :: post
    /\ Forall (fun g => studyMeta g = None) pre
    /\ studyMeta f = Some m.
Proof.
  induction l as [|g r IH]; cbn; [discriminate|].
  destruct (studyMeta g) as [m0|] eqn:Hg.
  - intros [= <-]. exists [], g, r. repeat split; [constructor | exact Hg].
  - intros Hr. destruct (IH Hr) as (pre & f & post & -> & Hpre & Hf).
    exists (g :: pre), f, post. repeat split; [constructor; assumption | exact Hf].
Qed.

Lemma findStudyMetadata_None (l : list string) :
  (forall g, In g l -> studyMeta g = None) -> findHeader l = None.
Proof.
  induction l as [|g r IH]; intros Hall; cbn; [reflexivity|].
  rewrite (Hall g) by (left; reflexivity). apply IH.
  intros g' Hg'. apply Hall. right. exact Hg'.
Qed.

(** C6. Only the first ten files are examined for a study identifier: when
    none of them yields one the load returns no study, whatever the later
    files carry; and the study-level fields of a returned study are those
    read from the first of the ten files that yields an identifier, no
    other file contributing to them. *)
Theorem study_header_first_of_ten (filePaths : list string) :
  ((forall g, In g (take 10 filePaths) -> studyMeta g = None) ->
   snd (load filePaths) = None)
  /\ (forall events study,
        load filePaths = (events, Some study) ->
        exists pre f post m,
          take 10 filePaths = pre ++ f :: post
          /\ Forall (fun g => studyMeta g = None) pre
          /\ studyMeta f = Some m
          /\ studyInstanceUID study = sm_studyInstanceUID m
          /\ patientName study = sm_patientName m
          /\ patientId study = sm_patientId m
          /\ studyDate study = sm_studyDate m
          /\ studyDescription study = sm_studyDescription m
          /\ modality study = sm_modality m
          /\ institutionName study = sm_institutionName m
          /\ referringPhysician study = sm_referringPhysician m).
Proof.
  split.
  - intros Hnone. rewrite load_snd, (findStudyMetadata_None _ Hnone).
    destruct filePaths; reflexivity.
  - intros events study Hload.
    destruct (load_Some _ _ _ Hload) as (m & Hm & Hasm).
    destruct (findStudyMetadata_Some _ _ Hm) as (pre & f & post & Hsplit & Hpre & Hf).
    destruct (assembleStudy_Some _ _ _ Hasm) as (_ & _ & _ & _ & Hfields).
    exists pre, f, post, m. split; [exact Hsplit|]. split; [exact Hpre|].
    split; [exact Hf | exact Hfields].
Qed.

(** C7. A key-object selection whose decoded list of image references is
    empty is discarded ([parseKO] returns [null]), so every key-object
    selection of an assembled study has a non-empty [keyImages]. *)
Theorem key_object_selections_nonempty (filePaths : list string)
  (events : list LoadingProgress) (study : DicomStudy number) :
  load filePaths = (events, Some study) ->
  Forall (fun ko => keyImages ko <> []) (keyObjectSelections study)
  /\ (forall (ds : DataSet number) path,
        DicomKO.parseReferencedImages ds = [] -> DicomKO.parseKO ds path = None).
Proof.
  intros Hload. split.
  - destruct (load_Some _ _ _ Hload) as (m & _ & Hasm).
    destruct (assembleStudy_Some _ _ _ Hasm) as (_ & _ & -> & _).
    apply accumulated_keyObjects.
  - intros ds path. apply parseKO_no_references.
Qed.

(** C10. When no image file of a series yields series-level metadata, the
    assembled study contains neither that series nor any of its images;
    every image of the study lies in a series whose identifier is the
    image's own; and the series-metadata reader returns [null] whenever the
    file lacks a series or a study instance UID. *)
Theorem series_without_metadata_dropped (filePaths : list string)
  (events : list LoadingProgress) (study : DicomStudy number) :
  load filePaths = (events, Some study) ->
  (forall uid,
      (forall f img, In f filePaths -> parseFile f = Some (image img) ->
                     seriesInstanceUID img = uid -> seriesMeta f = None) ->
      Forall (fun s => se_seriesInstanceUID s <> uid
                       /\ Forall (fun img => seriesInstanceUID img <> uid) (images s))
             (series study))
  /\ Forall (fun s => Forall (fun img => seriesInstanceUID img = se_seriesInstanceUID s)
                             (images s))
            (series study)
  /\ (forall f buffer ds,
        readFile f = Some buffer -> parseDicom buffer = Some ds ->
        JS.truthy (string_ ds "x0020000e") = false
        \/ JS.truthy (string_ ds "x0020000d") = false ->
        seriesMeta f = None).
Proof.
  intros Hload. split; [|split].
  - intros uid Hnometa. apply Forall_forall. intros s Hs. apply list_elem_of_In in Hs.
    destruct (study_series_coherent _ _ _ Hload s Hs) as [Himgs Hkey].
    assert (Hne : se_seriesInstanceUID s <> uid).
    { intros Heq. apply in_map_iff in Hkey. destruct Hkey as ([k e] & Hk & Hin).
      cbn in Hk. subst k.
      pose proof (accumulated_seriesMap readFile parseDicom filePaths) as Hall.
      rewrite Forall_forall in Hall.
      destruct (Hall _ (proj2 (list_elem_of_In _ _) Hin))
        as (_ & _ & f & img & Hf & Hparse & Hu & Hmeta).
      cbn in Hu, Hmeta. rewrite (Hnometa f img Hf Hparse) in Hmeta; [discriminate|].
      congruence. }
    split; [exact Hne|].
    eapply List.Forall_impl; [|exact Himgs]. cbn. intros img Hu. congruence.
  - apply Forall_forall. intros s Hs. apply list_elem_of_In in Hs.
    exact (proj1 (study_series_coherent _ _ _ Hload s Hs)).
  - intros f buffer ds. apply parseSeriesMetadata_lacking.
Qed.

End AssembledStudy.

(** ** The theorems at the concrete file set *)

Section AtFixture.

Local Abbreviation load := (loadDicomFromFolder Fixture.readFile Fixture.parseDicom).
Local Abbreviation parseFile := (parseDicomFile Fixture.readFile Fixture.parseDicom).
Local Abbreviation studyMeta := (parseStudyMetadata Fixture.readFile Fixture.parseDicom).
Local Abbreviation seriesMeta := (parseSeriesMetadata Fixture.readFile Fixture.parseDicom).



Lemma failed_file_only_skipped_witness :
  fileFails Fixture.readFile Fixture.parseDicom "/scan/corrupt.dcm"
  /\ parseFile "/scan/corrupt.dcm" = None
  /\ option_map contents
       (snd (load (["/scan/s2-i2.dcm"] ++ "/scan/corrupt.dcm"
                     :: ["/scan/s2-i1.dcm"; "/scan/ko.dcm"])))
     = option_map contents
         (snd (load (["/scan/s2-i2.dcm"] ++ ["/scan/s2-i1.dcm"; "/scan/ko.dcm"])))
  /\ exists events study,
       load (["/scan/s2-i2.dcm"] ++ "/scan/corrupt.dcm"
               :: ["/scan/s2-i1.dcm"; "/scan/ko.dcm"])
       = (events, Some study)
       /\ snd (load (["/scan/s2-i2.dcm"] ++ ["/scan/s2-i1.dcm"; "/scan/ko.dcm"]))
          = Some study.
Proof.
  assert (Hfails : fileFails Fixture.readFile Fixture.parseDicom "/scan/corrupt.dcm").
  { vm_compute. right. exact I. }
  split; [exact Hfails|].
  destruct (failed_file_only_skipped Fixture.readFile Fixture.parseDicom
              ["/scan/s2-i2.dcm"] ["/scan/s2-i1.dcm"; "/scan/ko.dcm"]
              "/scan/corrupt.dcm" (or_introl Hfails)) as (Hnone & _ & Hload & Hsame).
  split; [exact Hnone|].
  split; [eapply Hload; vm_compute; reflexivity|].
  eexists _, _. split; [vm_compute; reflexivity|].
  eapply Hsame; vm_compute; reflexivity.
Defined.

Lemma failed_file_only_skipped_counterexample :
  fileFails Fixture.readFile Fixture.parseDicom "/scan/corrupt.dcm"
  /\ parseFile "/scan/corrupt.dcm" = None
  /\ snd (load (FixtureEdge.crowdedBefore ++ "/scan/corrupt.dcm"
                  :: FixtureEdge.crowdedAfter))
     = None
  /\ exists study,
       snd (load (FixtureEdge.crowdedBefore ++ FixtureEdge.crowdedAfter)) = Some study
       /\ map (fun s => map sopInstanceUID (images s)) (series study) = [["1.2.1.1"]].
Proof.
  split; [vm_compute; right; exact I|].
  split; [vm_compute; reflexivity|].
  split; [vm_compute; reflexivity|].
  eexists. split; [vm_compute; reflexivity | reflexivity].
Defined.

Lemma study_header_first_of_ten_witness :
  (studyMeta "/scan/s1-i1.dcm" <> None
   /\ snd (load Fixture.lateHeaderPaths) = None)
  /\ exists events study,
       load Fixture.filePaths = (events, Some study)
       /\ patientName study = "DOE JANE"
       /\ exists pre f post m,
            take 10 Fixture.filePaths = pre ++ f :: post
            /\ Forall (fun g => studyMeta g = None) pre
            /\ studyMeta f = Some m
            /\ studyInstanceUID study = sm_studyInstanceUID m
            /\ patientName study = sm_patientName m
            /\ patientId study = sm_patientId m
            /\ studyDate study = sm_studyDate m
            /\ studyDescription study = sm_studyDescription m
            /\ modality study = sm_modality m
            /\ institutionName study = sm_institutionName m
            /\ referringPhysician study = sm_referringPhysician m.
Proof.
  split.
  - split; [vm_compute; discriminate|].
    apply (proj1 (study_header_first_of_ten Fixture.readFile Fixture.parseDicom
                    Fixture.lateHeaderPaths)).
    intros g Hg. vm_compute in Hg.
    repeat (destruct Hg as [<-|Hg]; [reflexivity|]). destruct Hg.
  - eexists _, _. split; [vm_compute; reflexivity|]. split; [reflexivity|].
    apply (proj2 (study_header_first_of_ten Fixture.readFile Fixture.parseDicom
                    Fixture.filePaths) (fst (load Fixture.filePaths))).
    vm_compute. reflexivity.
Defined.

Lemma key_object_selections_nonempty_witness :
  exists events study,
    load Fixture.filePaths = (events, Some study)
    /\ map keyImages (keyObjectSelections study) = [["1.2.2.1"; "9.9.9"]]
    /\ Forall (fun ko => keyImages ko <> []) (keyObjectSelections study).
Proof.
  eexists _, _. split; [vm_compute; reflexivity|]. split; [reflexivity|].
  match goal with
  | |- Forall _ (keyObjectSelections ?s) =>
      apply (proj1 (key_object_selections_nonempty Fixture.readFile Fixture.parseDicom
                      Fixture.filePaths (fst (load Fixture.filePaths)) s
                      ltac:(vm_compute; reflexivity)))
  end.
Defined.

Lemma series_without_metadata_dropped_witness :
  exists events study img,
    load Fixture.filePaths = (events, Some study)
    /\ parseFile "/scan/orphan.dcm" = Some (image img)
    /\ seriesInstanceUID img = "1.2.9"
    /\ seriesMeta "/scan/orphan.dcm" = None
    /\ Forall (fun s => se_seriesInstanceUID s <> "1.2.9"
                        /\ Forall (fun i => seriesInstanceUID i <> "1.2.9") (images s))
              (series study).
Proof.
  eexists _, _, _. split; [vm_compute; reflexivity|].
  split; [vm_compute; reflexivity|]. split; [reflexivity|]. split; [reflexivity|].
  match goal with
  | |- Forall _ (series ?s) =>
      apply (proj1 (series_without_metadata_dropped Fixture.readFile Fixture.parseDicom
                      Fixture.filePaths (fst (load Fixture.filePaths)) s
                      ltac:(vm_compute; reflexivity)) "1.2.9")
  end.
  intros f i Hf Hparse Huid. vm_compute in Hf.
  repeat (destruct Hf as [<-|Hf];
          [ vm_compute in Hparse; try discriminate Hparse;
            injection Hparse as <-; vm_compute in Huid; try discriminate Huid;
            reflexivity |]).
  destruct Hf.
Defined.

End AtFixture.

(* ===================================================================== *)
(** * Further properties of the engine *)
(* ===================================================================== *)

(** ** Progress events and accumulation order *)

Section Ingestion.
Context {number : Type} `{JS.Number number}.
Variable readFile : string -> option (list Z).
Variable parseDicom : list Z -> option (DataSet number).

Local Abbreviation parseFile := (parseDicomFile readFile parseDicom).
Local Abbreviation seriesMeta := (parseSeriesMetadata readFile parseDicom).
Local Abbreviation ingested := (accumulated readFile parseDicom).
Local Abbreviation load := (loadDicomFromFolder readFile parseDicom).
Local Abbreviation findHeader := (findStudyMetadata readFile parseDicom).

Lemma ingestFrom_events (total : Z) (filePaths : list string) :
  forall (i : nat) acc events,
    snd (ingestFrom readFile parseDicom total (Z.of_nat i) filePaths acc events)
    = events ++ imap (fun k f => fileEvent total (i + k) f) filePaths.
Proof.
  induction filePaths as [|f r IH]; intros i acc events; cbn [ingestFrom imap].
  - symmetry. apply app_nil_r.
  - replace (Z.of_nat i + 1) with (Z.of_nat (S i)) by lia.
    rewrite IH, <- app_assoc. cbn [app]. f_equal. f_equal.
    + unfold fileEvent. rewrite Nat.add_0_r. f_equal. lia.
    + apply imap_ext. intros k x _. cbn. f_equal. lia.
Qed.

(** X1. The load emits no event on an empty list; otherwise one opening
    event, and, when a study header is found, exactly one event per file in
    file order, the [k]-th carrying [current = k], the total number of
    files and the last segment of the path, whether or not the file
    decodes. *)
Theorem progress_one_event_per_file (filePaths : list string) :
  fst (load filePaths)
  = match filePaths with
    | [] => []
    | _ =>
        let total := Z.of_nat (length filePaths) in
        firstEvent total
        :: match findHeader (take 10 filePaths) with
           | Some _ => imap (fileEvent total) filePaths
           | None => []
           end
    end.
Proof.
  destruct filePaths as [|f r]; [reflexivity|].
  unfold loadDicomFromFolder. cbn [length Nat.eqb]. cbv zeta.
  destruct (findHeader _) as [m|]; [|reflexivity].
  match goal with
  | |- context [ingestFrom ?rf ?pd ?t 0 ?l ?a ?e] =>
      pose proof (ingestFrom_events t l 0 a e) as Hev;
      change (Z.of_nat 0) with 0 in Hev;
      destruct (ingestFrom rf pd t 0 l a e) as [acc ev]
  end.
  cbn [fst snd] in *. rewrite Hev. reflexivity.
Qed.

Lemma accumulated_snoc (filePaths : list string) (f : string) (acc : Accumulators) :
  ingested (filePaths ++ [f]) acc = ingestFile readFile parseDicom f (ingested filePaths acc).
Proof. unfold accumulated. rewrite fold_left_app. reflexivity. Qed.

Lemma decoded_snoc {A : Type} (pick : ParseResult -> option A) (filePaths : list string)
  (f : string) :
  decoded readFile parseDicom pick (filePaths ++ [f])
  = decoded readFile parseDicom pick filePaths
    ++ match parseFile f with
       | Some r => option_list (pick r)
       | None => []
       end.
Proof.
  unfold decoded. rewrite omap_app. cbn.
  destruct (parseFile f) as [r|]; [destruct (pick r)|]; reflexivity.
Qed.

(** The four lists of the accumulators are the decoded objects of each
    kind, in file order. *)
Lemma accumulated_decoded (filePaths : list string) :
  let acc := ingested filePaths emptyAccumulators in
  acc_images acc = decoded readFile parseDicom asImage filePaths
  /\ acc_reports acc = decoded readFile parseDicom asReport filePaths
  /\ acc_keyObjectSelections acc = decoded readFile parseDicom asKeyObject filePaths
  /\ acc_presentationStates acc = decoded readFile parseDicom asPresentationState filePaths.
Proof.
  cbv zeta. induction filePaths as [|f r IH] using rev_ind; [repeat split|].
  destruct IH as (Hi & Hr & Hk & Hp).
  rewrite accumulated_snoc, !decoded_snoc. unfold ingestFile.
  destruct (parseFile f) as [[img|rep|ko|ps]|]; cbn;
    rewrite ?app_nil_r; repeat split; congruence.
Qed.

End Ingestion.

(** ** The series map and the organised study *)

Section SeriesMap.
Context {V : Type}.

Lemma JSMap_has_keys (m : JSMap.t V) (k : string) :
  JSMap.has m k = true <-> In k (map fst m).
Proof.
  unfold JSMap.has. induction m as [|[k0 v0] r IH]; cbn.
  - split; [discriminate | intros []].
  - destruct (String.eqb_spec k0 k) as [->|Hne].
    + split; [left; reflexivity | reflexivity].
    + rewrite IH. split; [right; assumption | intros [Heq|Hin]; [contradiction | exact Hin]].
Qed.

Lemma JSMap_set_fresh (m : JSMap.t V) (k : string) (v : V) :
  JSMap.has m k = false -> JSMap.set m k v = m ++ [(k, v)].
Proof.
  unfold JSMap.has. induction m as [|[k0 v0] r IH]; cbn; [reflexivity|].
  destruct (String.eqb k0 k); [discriminate|].
  intros Hr. rewrite IH by exact Hr. reflexivity.
Qed.

Lemma JSMap_get_In (m : JSMap.t V) (k : string) (v : V) :
  NoDup (map fst m) -> In (k, v) m -> JSMap.get m k = Some v.
Proof.
  induction m as [|[k0 v0] r IH]; cbn; [intros _ []|].
  intros Hnd [Heq|Hin]; inversion Hnd as [|? ? Hnotin Hnd']; subst.
  - injection Heq as -> ->. rewrite String.eqb_refl. reflexivity.
  - destruct (String.eqb_spec k0 k) as [->|Hne]; [|apply IH; assumption].
    exfalso. apply Hnotin, list_elem_of_In, in_map_iff.
    exists (k, v). split; [reflexivity | exact Hin].
Qed.

(** With distinct keys, [modify] changes the entry under the key and no
    other. *)
Lemma JSMap_modify_entries (m : JSMap.t V) (k : string) (f : V -> V) :
  NoDup (map fst m) ->
  JSMap.modify m k f
  = map (fun e => (fst e, if String.eqb (fst e) k then f (snd e) else snd e)) m.
Proof.
  induction m as [|[k0 v0] r IH]; cbn; [reflexivity|].
  intros Hnd. inversion Hnd as [|? ? Hnotin Hnd']; subst.
  destruct (String.eqb_spec k0 k) as [->|Hne].
  - f_equal. clear IH Hnd Hnd'. induction r as [|[k1 v1] r IH]; cbn; [reflexivity|].
    destruct (String.eqb_spec k1 k) as [->|Hne1].
    + exfalso. apply Hnotin. left.
    + f_equal. apply IH. intros Hin. apply Hnotin. right. exact Hin.
  - f_equal. apply IH. exact Hnd'.
Qed.

End SeriesMap.

Section Organised.
Context {number : Type} `{JS.Number number}.
Variable readFile : string -> option (list Z).
Variable parseDicom : list Z -> option (DataSet number).

Local Abbreviation parseFile := (parseDicomFile readFile parseDicom).
Local Abbreviation seriesMeta := (parseSeriesMetadata readFile parseDicom).
Local Abbreviation ingested := (accumulated readFile parseDicom).
Local Abbreviation load := (loadDicomFromFolder readFile parseDicom).
Local Abbreviation findHeader := (findStudyMetadata readFile parseDicom).
Local Abbreviation keysOf := (seriesKeys readFile parseDicom).
Local Abbreviation decodedImages := (decoded readFile parseDicom asImage).

Lemma withImages_same (s : DicomSeries number) : withImages s (images s) = s.
Proof. destruct s. reflexivity. Qed.

(** The keys that one more file adds to the series map. *)
Lemma seriesKeys_snoc (filePaths : list string) (f : string) :
  keysOf (filePaths ++ [f])
  = keysOf filePaths
    ++ match parseFile f with
       | Some (image img) =>
           if JSMap.has (acc_seriesMap (ingested filePaths emptyAccumulators))
                (seriesInstanceUID img)
           then []
           else match seriesMeta f with
                | Some _ => [seriesInstanceUID img]
                | None => []
                end
       | _ => []
       end.
Proof.
  unfold seriesKeys. rewrite accumulated_snoc. unfold ingestFile.
  destruct (parseFile f) as [[img|rep|ko|ps]|]; cbn [acc_seriesMap];
    rewrite ?app_nil_r; try reflexivity.
  destruct (JSMap.has _ _) eqn:Hhas; cbn [negb]; [rewrite app_nil_r; reflexivity|].
  destruct (seriesMeta f) as [s|]; [|rewrite app_nil_r; reflexivity].
  rewrite JSMap_set_fresh by exact Hhas. rewrite map_app. reflexivity.
Qed.

Lemma seriesKeys_NoDup (filePaths : list string) : NoDup (keysOf filePaths).
Proof.
  induction filePaths as [|f r IH] using rev_ind; [constructor|].
  rewrite seriesKeys_snoc.
  destruct (parseFile f) as [[img|rep|ko|ps]|]; rewrite ?app_nil_r; try exact IH.
  destruct (JSMap.has _ _) eqn:Hhas; [rewrite app_nil_r; exact IH|].
  destruct (seriesMeta f) as [s|]; [|rewrite app_nil_r; exact IH].
  apply NoDup_app. split; [exact IH|]. split; [|apply NoDup_singleton].
  intros k Hk Hin. apply list_elem_of_In in Hk. apply list_elem_of_In in Hin.
  destruct Hin as [<-|[]].
  apply JSMap_has_keys in Hk. unfold seriesKeys in *. congruence.
Qed.

(** A series identifier is a key of the map exactly when some image file
    of that series has readable series metadata. *)
Lemma seriesKeys_spec (filePaths : list string) (k : string) :
  In k (keysOf filePaths)
  <-> exists f img s,
        In f filePaths /\ parseFile f = Some (image img)
        /\ seriesInstanceUID img = k /\ seriesMeta f = Some s.
Proof.
  induction filePaths as [|f r IH] using rev_ind.
  - split; [intros [] | intros (f & _ & _ & [] & _)].
  - rewrite seriesKeys_snoc, in_app_iff. split.
    + intros [Hold|Hnew].
      * apply IH in Hold. destruct Hold as (g & img & s & Hg & Hrest).
        exists g, img, s. split; [apply in_or_app; left; exact Hg | exact Hrest].
      * destruct (parseFile f) as [[img|rep|ko|ps]|] eqn:Hp; try destruct Hnew.
        destruct (JSMap.has _ _); [destruct Hnew|].
        destruct (seriesMeta f) as [s|] eqn:Hs; [|destruct Hnew].
        destruct Hnew as [<-|[]]. exists f, img, s.
        split; [apply in_or_app; right; left; reflexivity | repeat split; assumption].
    + intros (g & img & s & Hg & Hp & Hu & Hs).
      apply in_app_or in Hg. destruct Hg as [Hg|[<-|[]]].
      * left. apply IH. exists g, img, s. repeat split; assumption.
      * rewrite Hp, Hs.
        destruct (JSMap.has _ _) eqn:Hhas.
        -- left. apply JSMap_has_keys in Hhas. rewrite <- Hu. exact Hhas.
        -- right. left. exact Hu.
Qed.

End Organised.

Lemma sort_insert_length {A : Type} (cmp : A -> A -> JS.Sign) (x : A) (l : list A) :
  length (JS.sort_insert cmp x l) = S (length l).
Proof.
  induction l as [|y s IH]; cbn; [reflexivity|].
  destruct (cmp x y); cbn; try reflexivity. rewrite IH. reflexivity.
Qed.

Lemma sort_length {A : Type} (cmp : A -> A -> JS.Sign) (l : list A) :
  length (JS.sort cmp l) = length l.
Proof.
  induction l as [|x r IH]; [reflexivity|].
  change (JS.sort cmp (x :: r)) with (JS.sort_insert cmp x (JS.sort cmp r)).
  rewrite sort_insert_length, IH. reflexivity.
Qed.

Section OrganisedStudy.
Context {number : Type} `{JS.Number number}.
Variable readFile : string -> option (list Z).
Variable parseDicom : list Z -> option (DataSet number).

Local Abbreviation parseFile := (parseDicomFile readFile parseDicom).
Local Abbreviation seriesMeta := (parseSeriesMetadata readFile parseDicom).
Local Abbreviation ingested := (accumulated readFile parseDicom).
Local Abbreviation load := (loadDicomFromFolder readFile parseDicom).
Local Abbreviation findHeader := (findStudyMetadata readFile parseDicom).
Local Abbreviation keysOf := (seriesKeys readFile parseDicom).
Local Abbreviation decodedImages := (decoded readFile parseDicom asImage).

Lemma JSMap_modify_absent {V : Type} (m : JSMap.t V) (k : string) (f : V -> V) :
  JSMap.get m k = None -> JSMap.modify m k f = m.
Proof.
  induction m as [|[k0 v0] r IH]; cbn; [reflexivity|].
  destruct (String.eqb k0 k); [discriminate|].
  intros Hr. rewrite IH by exact Hr. reflexivity.
Qed.

(** With distinct keys, organising gives every entry the images that
    carry its key, appended in order. *)
Lemma organizeImages_entries (imgs : list (DicomImage number)) :
  forall m : JSMap.t (DicomSeries number),
    NoDup (map fst m) ->
    organizeImages imgs m
    = map (fun e => (fst e,
                     withImages (snd e) (images (snd e) ++ imagesOfSeries (fst e) imgs)))
          m.
Proof.
  induction imgs as [|img r IH]; intros m Hnd; cbn [organizeImages].
  - symmetry. erewrite map_ext; [apply map_id|].
    intros [k s]. cbn. unfold imagesOfSeries. cbn.
    rewrite app_nil_r, withImages_same. reflexivity.
  - set (F := fun s : DicomSeries number => withImages s (images s ++ [img])).
    assert (Hstep :
      match JSMap.get m (seriesInstanceUID img) with
      | Some _ => JSMap.modify m (seriesInstanceUID img) F
      | None => m
      end = JSMap.modify m (seriesInstanceUID img) F).
    { destruct (JSMap.get m (seriesInstanceUID img)) eqn:Hg; [reflexivity|].
      symmetry. apply JSMap_modify_absent. exact Hg. }
    change (organizeImages r
              match JSMap.get m (seriesInstanceUID img) with
              | Some _ => JSMap.modify m (seriesInstanceUID img) F
              | None => m
              end = map (fun e => (fst e,
                                   withImages (snd e)
                                     (images (snd e)
                                      ++ imagesOfSeries (fst e) (img :: r)))) m).
    rewrite Hstep, IH by (rewrite JSMap_modify_keys; exact Hnd).
    rewrite JSMap_modify_entries by exact Hnd.
    rewrite map_map. apply map_ext. intros [k s]. cbn [fst snd].
    unfold imagesOfSeries. cbn [List.filter].
    rewrite (String.eqb_sym (seriesInstanceUID img) k).
    destruct (String.eqb k (seriesInstanceUID img)); [|reflexivity].
    unfold F, withImages. cbn. rewrite <- app_assoc. reflexivity.
Qed.

Lemma sortImages_entries (m : JSMap.t (DicomSeries number)) :
  sortImages m
  = map (fun e => (fst e, withImages (snd e) (JS.sort byInstanceNumber (images (snd e))))) m.
Proof.
  unfold sortImages. apply map_ext. intros [k s]. reflexivity.
Qed.

(** The entries of the series map after ingestion: distinct keys, and each
    series carries its key and no image. *)
Lemma accumulated_entries (filePaths : list string) :
  let m := acc_seriesMap (ingested filePaths emptyAccumulators) in
  NoDup (map fst m)
  /\ Forall (fun e => se_seriesInstanceUID (snd e) = fst e /\ images (snd e) = []) m.
Proof.
  cbv zeta. split; [apply (seriesKeys_NoDup readFile parseDicom)|].
  eapply List.Forall_impl; [|apply accumulated_seriesMap].
  intros e (Hid & Hnil & _). split; assumption.
Qed.

(** The series of a study, before the sort by series number: one per
    entry of the series map, with the decoded images of that series sorted
    by instance number. *)
Lemma study_series_entries (filePaths : list string) (events : list LoadingProgress)
  (study : DicomStudy number) :
  load filePaths = (events, Some study) ->
  Permutation (series study)
    (map (fun e => withImages (snd e)
                     (JS.sort byInstanceNumber
                        (imagesOfSeries (fst e) (decodedImages filePaths))))
         (acc_seriesMap (ingested filePaths emptyAccumulators))).
Proof.
  intros Hload.
  destruct (load_Some _ _ _ _ _ Hload) as (m & _ & Hasm).
  destruct (assembleStudy_Some _ _ _ Hasm) as (Hseries & _).
  rewrite Hseries. rewrite (sort_Permutation seriesNumber).
  destruct (accumulated_entries filePaths) as [Hnd Hent].
  rewrite organizeImages_entries by exact Hnd.
  rewrite sortImages_entries. unfold JSMap.values. rewrite !map_map.
  destruct (accumulated_decoded readFile parseDicom filePaths) as (-> & _).
  erewrite map_ext_in; [reflexivity|].
  intros e He. rewrite Forall_forall in Hent.
  destruct (Hent e (proj2 (list_elem_of_In _ _) He)) as [_ Hnil].
  destruct e as [k s]. cbn [fst snd] in *. unfold withImages at 2 3. cbn [images].
  rewrite Hnil. reflexivity.
Qed.

Lemma In_decoded {A : Type} (pick : ParseResult -> option A) (filePaths : list string)
  (f : string) (r : ParseResult) (a : A) :
  In f filePaths -> parseFile f = Some r -> pick r = Some a ->
  In a (decoded readFile parseDicom pick filePaths).
Proof.
  intros Hf Hp Ha. unfold decoded. apply list_elem_of_In, list_elem_of_omap.
  exists f. split; [apply list_elem_of_In; exact Hf|]. rewrite Hp. exact Ha.
Qed.

(** X2. The images of every series of the study are exactly the decoded
    images that carry the identifier of the series, up to order: no image
    of a kept series is lost, duplicated or filed under another series.
    When none of their instance numbers is NaN they are in the stable
    sorted arrangement: non-decreasing in instance number, images of equal
    number in file order. *)
Theorem series_holds_its_decoded_images (filePaths : list string)
  (events : list LoadingProgress) (study : DicomStudy number) :
  load filePaths = (events, Some study) ->
  Forall (fun s =>
            let ofSeries :=
              imagesOfSeries (se_seriesInstanceUID s) (decodedImages filePaths) in
            Permutation (images s) ofSeries
            /\ (Forall (fun img => instanceNumber img <> JS.NaN) ofSeries ->
                images s = JS.sort byInstanceNumber ofSeries
                /\ StronglySorted
                     (fun a b => JS.leb (instanceNumber a) (instanceNumber b) = true)
                     (images s)))
         (series study).
Proof.
  intros Hload. rewrite (study_series_entries _ _ _ Hload).
  apply Forall_forall. intros s Hs.
  apply list_elem_of_In, in_map_iff in Hs. destruct Hs as (e & <- & He).
  destruct (accumulated_entries filePaths) as [_ Hent].
  rewrite Forall_forall in Hent.
  destruct (Hent e (proj2 (list_elem_of_In _ _) He)) as [Hid _].
  destruct e as [k s]. cbn [fst snd withImages images se_seriesInstanceUID] in *.
  rewrite Hid. cbv zeta. split.
  - apply (sort_Permutation instanceNumber).
  - intros Hnum. split; [reflexivity|]. apply (sort_sorted instanceNumber). exact Hnum.
Qed.

(** X3. The series of a study have pairwise distinct series identifiers. *)
Theorem series_identifiers_distinct (filePaths : list string)
  (events : list LoadingProgress) (study : DicomStudy number) :
  load filePaths = (events, Some study) ->
  NoDup (map se_seriesInstanceUID (series study)).
Proof.
  intros Hload. rewrite (study_series_entries _ _ _ Hload).
  destruct (accumulated_entries filePaths) as [Hnd Hent].
  rewrite map_map. erewrite map_ext_in; [exact Hnd|].
  intros e He. rewrite Forall_forall in Hent.
  destruct (Hent e (proj2 (list_elem_of_In _ _) He)) as [Hid _]. exact Hid.
Qed.

(** X4. No series of a study is empty: every series holds at least the
    image of the file it was created from. *)
Theorem series_never_empty (filePaths : list string)
  (events : list LoadingProgress) (study : DicomStudy number) :
  load filePaths = (events, Some study) ->
  Forall (fun s => images s <> []) (series study).
Proof.
  intros Hload. rewrite (study_series_entries _ _ _ Hload).
  apply Forall_forall. intros s Hs.
  apply list_elem_of_In, in_map_iff in Hs. destruct Hs as (e & <- & He).
  pose proof (accumulated_seriesMap readFile parseDicom filePaths) as Hall.
  rewrite Forall_forall in Hall.
  destruct (Hall e (proj2 (list_elem_of_In _ _) He))
    as (_ & _ & f & img & Hf & Hp & Hu & _).
  cbn [images withImages]. intros Hnil.
  assert (Hin : In img (imagesOfSeries (fst e) (decodedImages filePaths))).
  { unfold imagesOfSeries. apply filter_In. split.
    - apply (In_decoded asImage filePaths f (image img)); [exact Hf | exact Hp | reflexivity].
    - apply String.eqb_eq. exact Hu. }
  apply (Permutation_in _ (Permutation_sym (sort_Permutation instanceNumber _))) in Hin.
  unfold byInstanceNumber in Hnil. rewrite Hnil in Hin. destruct Hin.
Qed.

(** X5. The reports, key-object selections and presentation states of a
    study are the objects the files decode to, all of them and in file
    order; nothing is filtered against the images that were loaded, so a
    key-object selection keeps its references whether or not the referenced
    images are part of the load. *)
Theorem study_objects_in_file_order (filePaths : list string)
  (events : list LoadingProgress) (study : DicomStudy number) :
  load filePaths = (events, Some study) ->
  reports study = decoded readFile parseDicom asReport filePaths
  /\ keyObjectSelections study = decoded readFile parseDicom asKeyObject filePaths
  /\ presentationStates study
     = decoded readFile parseDicom asPresentationState filePaths.
Proof.
  intros Hload.
  destruct (load_Some _ _ _ _ _ Hload) as (m & _ & Hasm).
  destruct (assembleStudy_Some _ _ _ Hasm) as (_ & -> & -> & -> & _).
  destruct (accumulated_decoded readFile parseDicom filePaths) as (_ & Hr & Hk & Hp).
  repeat split; assumption.
Qed.

(** X6. The load returns no study exactly when the list is empty, or none
    of the first ten files yields a study header, or no image file has
    readable series metadata; in particular files that decode only to
    reports, key-object selections or presentation states give no study. *)
Theorem load_empty_exactly (filePaths : list string) :
  snd (load filePaths) = None
  <-> filePaths = []
      \/ findHeader (take 10 filePaths) = None
      \/ (forall f img, In f filePaths -> parseFile f = Some (image img) ->
                        seriesMeta f = None).
Proof.
  assert (Hkeys : keysOf filePaths = []
                  <-> (forall f img, In f filePaths -> parseFile f = Some (image img) ->
                                     seriesMeta f = None)).
  { split.
    - intros Hnil f img Hf Hp. destruct (seriesMeta f) as [s|] eqn:Hs; [|reflexivity].
      assert (Hin : In (seriesInstanceUID img) (keysOf filePaths)).
      { apply seriesKeys_spec. exists f, img, s. repeat split; assumption. }
      rewrite Hnil in Hin. destruct Hin.
    - intros Hnone. destruct (keysOf filePaths) as [|k r] eqn:Hk; [reflexivity|].
      assert (Hin : In k (keysOf filePaths)) by (rewrite Hk; left; reflexivity).
      apply seriesKeys_spec in Hin. destruct Hin as (f & img & s & Hf & Hp & _ & Hs).
      rewrite (Hnone f img Hf Hp) in Hs. discriminate. }
  rewrite <- Hkeys, load_snd. clear Hkeys.
  destruct filePaths as [|f0 r0]; [split; auto|].
  destruct (findHeader _) as [m|]; [|split; auto].
  unfold assembleStudy, seriesKeys.
  destruct (accumulated_entries (f0 :: r0)) as [Hnd _].
  rewrite organizeImages_entries by exact Hnd. rewrite sortImages_entries.
  unfold JSMap.values. rewrite sort_length, !length_map.
  destruct (acc_seriesMap (ingested (f0 :: r0) emptyAccumulators)) as [|e es]; cbn.
  - split; auto.
  - split; [discriminate|]. intros [Hc|[Hc|Hc]]; discriminate.
Qed.

End OrganisedStudy.

(** ** Decoded objects are well formed *)

Lemma truthy_nonempty (o : option string) :
  JS.truthy o = true -> o = Some (JS.nullish o "") /\ JS.nullish o "" <> "".
Proof.
  destruct o as [s|]; cbn; [|discriminate].
  destruct (String.eqb_spec s ""); [discriminate|]. intros _. split; [reflexivity | assumption].
Qed.

Lemma or_else_nonempty (a b : string) : b <> "" -> JS.or_else a b <> "".
Proof.
  intros Hb. unfold JS.or_else. destruct (String.eqb_spec a ""); assumption.
Qed.

Lemma includes_In (l : list string) (s : string) :
  JS.includes l s = true -> In s l.
Proof.
  induction l as [|x r IH]; cbn; [discriminate|].
  destruct (String.eqb_spec x s) as [->|Hne]; cbn; [left; reflexivity|].
  intros Hr. right. apply IH. exact Hr.
Qed.

Section OverlayPlanes.
Context {number : Type} `{JS.Number number}.

Lemma bitAt_binary (packed : list Z) (i : Z) :
  0 <= i -> bitAt packed i = 0 \/ bitAt packed i = 1.
Proof.
  intros Hi. unfold bitAt.
  destruct (i / 8 <? Z.of_nat (length packed)); [|left; reflexivity].
  rewrite shift_and_one by (apply Z.mod_pos_bound; lia).
  destruct (Z.testbit _ _); [right | left]; reflexivity.
Qed.

Lemma unpackOverlayBits_binary (packed : list Z) (numPixels : Z) :
  Forall (fun b => b = 0 \/ b = 1) (unpackOverlayBits packed numPixels).
Proof.
  rewrite unpackOverlayBits_map. apply Forall_forall. intros b Hb.
  apply list_elem_of_In, in_map_iff in Hb. destruct Hb as (i & <- & Hi).
  apply bitAt_binary. apply list_elem_of_In, list_elem_of_lookup in Hi.
  destruct Hi as [k Hk]. apply lookup_seqZ in Hk. lia.
Qed.

Lemma parseOverlayGroup_wellformed (ds : DataSet number) (g : Z)
  (o : GraphicOverlay number) :
  In g overlayGroups ->
  parseOverlayGroup ds g = Some (Some o) ->
  overlayWellFormed o /\ group o = g.
Proof.
  intros Hg. unfold parseOverlayGroup.
  destruct (uint16 ds (overlayTag g "0010")) as [rows|]; [|discriminate].
  destruct (Z.eqb_spec rows 0); [discriminate|].
  destruct (uint16 ds (overlayTag g "0011")) as [cols|]; [|discriminate].
  destruct (Z.eqb_spec cols 0); [discriminate|].
  cbv zeta. destruct (elements ds (overlayTag g "3000")) as [e|]; [|discriminate].
  destruct (JS.Uint8Array_view _ _ _) as [packed|]; [|discriminate].
  intros [= <-]. split; [|reflexivity].
  unfold overlayWellFormed. cbn.
  repeat split; try assumption.
  - apply unpackOverlayBits_length.
  - apply unpackOverlayBits_binary.
Qed.

Lemma eachOverlayGroup_wellformed (ds : DataSet number) (groups : list Z) :
  forall acc l,
    (forall g, In g groups -> In g overlayGroups) ->
    eachOverlayGroup ds groups acc = Some l ->
    exists new,
      l = acc ++ new
      /\ Forall overlayWellFormed new
      /\ sublist (map group new) groups.
Proof.
  induction groups as [|g r IH]; intros acc l Hsub; cbn [eachOverlayGroup].
  - intros [= <-]. exists []. rewrite app_nil_r. repeat split; constructor.
  - destruct (parseOverlayGroup ds g) as [[o|]|] eqn:Hg; [| |discriminate].
    + intros Hl. destruct (IH (acc ++ [o]) l) as (new & -> & Hwf & Hs);
        [intros g' Hg'; apply Hsub; right; exact Hg' | exact Hl |].
      destruct (parseOverlayGroup_wellformed ds g o) as [Ho Hgo];
        [apply Hsub; left; reflexivity | exact Hg |].
      exists (o :: new). rewrite <- app_assoc. split; [reflexivity|].
      split; [constructor; assumption|]. cbn. rewrite Hgo. apply sublist_skip. exact Hs.
    + intros Hl. destruct (IH acc l) as (new & -> & Hwf & Hs);
        [intros g' Hg'; apply Hsub; right; exact Hg' | exact Hl |].
      exists new. split; [reflexivity|]. split; [exact Hwf|].
      apply sublist_cons. exact Hs.
Qed.

Lemma parseOverlays_planes (ds : DataSet number) (l : list (GraphicOverlay number)) :
  parseOverlays ds = Some l -> Forall overlayWellFormed l.
Proof.
  intros Hl. unfold parseOverlays in Hl.
  destruct (eachOverlayGroup_wellformed ds overlayGroups [] l (fun g Hg => Hg) Hl)
    as (new & -> & Hwf & _).
  exact Hwf.
Qed.

(** X7. Every overlay plane that [parseOverlays] returns is well formed:
    its group is one of the sixteen overlay groups, rows and columns are
    non-zero, and its data has exactly rows x columns bytes, each 0 or 1.
    The planes come in increasing group order, at most one per group, so
    there are at most sixteen. *)
Theorem overlays_wellformed (ds : DataSet number) (l : list (GraphicOverlay number)) :
  parseOverlays ds = Some l ->
  Forall overlayWellFormed l
  /\ sublist (map group l) overlayGroups
  /\ (length l <= 16)%nat.
Proof.
  intros Hl. unfold parseOverlays in Hl.
  destruct (eachOverlayGroup_wellformed ds overlayGroups [] l (fun g Hg => Hg) Hl)
    as (new & -> & Hwf & Hs).
  cbn [app]. split; [exact Hwf|]. split; [exact Hs|].
  apply sublist_length in Hs. rewrite length_map in Hs. exact Hs.
Qed.

End OverlayPlanes.

Lemma overlays_wellformed_witness :
  exists l,
    parseOverlays Fixture.overlayDataSet = Some l
    /\ length l = 1%nat
    /\ Forall overlayWellFormed l.
Proof.
  eexists. split; [vm_compute; reflexivity|]. split; [reflexivity|].
  apply (overlays_wellformed Fixture.overlayDataSet). vm_compute. reflexivity.
Defined.

(** ** The three object classes are exclusive *)

Section Classes.
Context {number : Type}.

(** X8. The SOP class tables of structured reports, key-object selections
    and presentation states are disjoint: at most one of [isSRFile],
    [isKOFile] and [isPRFile] accepts a dataset, so the order in which
    [parseDicomFile] tries them does not change the kind of an object. *)
Theorem object_classes_exclusive (ds : DataSet number) :
  (DicomSR.isSRFile ds = true ->
   DicomKO.isKOFile ds = false /\ DicomPR.isPRFile ds = false)
  /\ (DicomKO.isKOFile ds = true ->
      DicomSR.isSRFile ds = false /\ DicomPR.isPRFile ds = false)
  /\ (DicomPR.isPRFile ds = true ->
      DicomSR.isSRFile ds = false /\ DicomKO.isKOFile ds = false).
Proof.
  unfold DicomSR.isSRFile, DicomKO.isKOFile, DicomPR.isPRFile.
  unfold JS.truthy, JS.nullish, JS.strict_eq.
  destruct (string_ ds "x00080016") as [s|];
    [|cbn [negb]; repeat split; discriminate].
  destruct (String.eqb_spec s "") as [->|Hne]; cbn [negb].
  { repeat split; try discriminate; reflexivity. }
  split; [|split].
  - intros Hsr. apply includes_In in Hsr. unfold DicomSR.SR_SOP_CLASSES in Hsr.
    cbn [In] in Hsr.
    repeat (destruct Hsr as [<-|Hsr]; [split; reflexivity|]). destruct Hsr.
  - intros Hko. apply String.eqb_eq in Hko. subst s. split; reflexivity.
  - intros Hpr. apply includes_In in Hpr. unfold DicomPR.PR_SOP_CLASSES in Hpr.
    cbn [In] in Hpr.
    repeat (destruct Hpr as [<-|Hpr]; [split; reflexivity|]). destruct Hpr.
Qed.

End Classes.

Lemma object_classes_exclusive_witness :
  DicomKO.isKOFile Fixture.keyObjectDataSet = true
  /\ DicomSR.isSRFile Fixture.keyObjectDataSet = false
  /\ DicomPR.isPRFile Fixture.keyObjectDataSet = false.
Proof.
  split; [reflexivity|].
  apply (proj1 (proj2 (object_classes_exclusive Fixture.keyObjectDataSet))).
  reflexivity.
Defined.

(** ** Provenance of the images and series of a study *)

Section Provenance.
Context {number : Type} `{JS.Number number}.
Variable readFile : string -> option (list Z).
Variable parseDicom : list Z -> option (DataSet number).

Local Abbreviation parseFile := (parseDicomFile readFile parseDicom).
Local Abbreviation seriesMeta := (parseSeriesMetadata readFile parseDicom).
Local Abbreviation ingested := (accumulated readFile parseDicom).
Local Abbreviation load := (loadDicomFromFolder readFile parseDicom).
Local Abbreviation decodedImages := (decoded readFile parseDicom asImage).

Lemma parseDicomFile_image_fields (f : string) (img : DicomImage number) :
  parseFile f = Some (image img) ->
  filePath img = f
  /\ sopInstanceUID img <> ""
  /\ seriesInstanceUID img <> ""
  /\ overlays img <> Some []
  /\ (forall l, overlays img = Some l -> Forall overlayWellFormed l).
Proof.
  unfold parseDicomFile.
  destruct (readFile f) as [buffer|]; [|discriminate].
  destruct (_ >? _); [discriminate|].
  destruct (parseDicom buffer) as [ds|]; [|discriminate].
  destruct (DicomSR.isSRFile ds).
  { destruct (DicomSR.parseSR ds f); discriminate. }
  destruct (DicomKO.isKOFile ds).
  { destruct (DicomKO.parseKO ds f); discriminate. }
  destruct (DicomPR.isPRFile ds).
  { destruct (DicomPR.parsePR ds f); discriminate. }
  destruct (elements ds "x7fe00010"); [|discriminate].
  destruct (JS.truthy (string_ ds "x00080018")) eqn:Hsop; [|discriminate].
  destruct (JS.truthy (string_ ds "x0020000e")) eqn:Hser; [|discriminate].
  cbn [negb orb].
  destruct (parseOverlays ds) as [ovs|] eqn:Hov; [|discriminate].
  intros [= <-]. cbn.
  split; [reflexivity|].
  split; [apply truthy_nonempty; exact Hsop|].
  split; [apply truthy_nonempty; exact Hser|].
  destruct ovs as [|o r]; cbn; split; try discriminate.
  intros l [= <-]. apply (parseOverlays_planes ds). exact Hov.
Qed.

Lemma decoded_In {A : Type} (pick : ParseResult -> option A) (filePaths : list string)
  (a : A) :
  In a (decoded readFile parseDicom pick filePaths) ->
  exists f r, In f filePaths /\ parseFile f = Some r /\ pick r = Some a.
Proof.
  unfold decoded. intros Ha. apply list_elem_of_In, list_elem_of_omap in Ha.
  destruct Ha as (f & Hf & Hp). exists f.
  destruct (parseFile f) as [r|]; [|discriminate].
  exists r. split; [apply list_elem_of_In; exact Hf|]. split; [reflexivity | exact Hp].
Qed.

Lemma study_image_decoded (filePaths : list string) (events : list LoadingProgress)
  (study : DicomStudy number) (s : DicomSeries number) (img : DicomImage number) :
  load filePaths = (events, Some study) ->
  In s (series study) -> In img (images s) ->
  exists f, In f filePaths /\ parseFile f = Some (image img).
Proof.
  intros Hload Hs Himg.
  apply (Permutation_in _ (study_series_entries _ _ _ _ _ Hload)) in Hs.
  apply in_map_iff in Hs. destruct Hs as (e & <- & _). cbn [images withImages] in Himg.
  apply (Permutation_in _ (sort_Permutation instanceNumber _)) in Himg.
  unfold imagesOfSeries in Himg. apply filter_In in Himg. destruct Himg as [Himg _].
  destruct (decoded_In asImage filePaths img Himg) as (f & r & Hf & Hp & Hr).
  exists f. split; [exact Hf|]. destruct r; try discriminate. injection Hr as ->. exact Hp.
Qed.

(** X9. Every image of a study is the image decoded from the file at its
    recorded path, which is one of the input paths; it has a non-empty SOP
    and series instance UID and its overlay list is absent or non-empty
    with well-formed planes. The metadata of every series was read from an
    image file of that series. *)
Theorem study_provenance (filePaths : list string) (events : list LoadingProgress)
  (study : DicomStudy number) :
  load filePaths = (events, Some study) ->
  Forall (fun s =>
            (exists f img0,
                In f filePaths /\ parseFile f = Some (image img0)
                /\ seriesInstanceUID img0 = se_seriesInstanceUID s
                /\ seriesMeta f = Some (withImages s []))
            /\ Forall (fun img =>
                         In (filePath img) filePaths
                         /\ parseFile (filePath img) = Some (image img)
                         /\ sopInstanceUID img <> ""
                         /\ seriesInstanceUID img <> ""
                         /\ overlays img <> Some []
                         /\ (forall l, overlays img = Some l ->
                                       Forall overlayWellFormed l))
                      (images s))
         (series study).
Proof.
  intros Hload. apply Forall_forall. intros s Hs. apply list_elem_of_In in Hs. split.
  - apply (Permutation_in _ (study_series_entries _ _ _ _ _ Hload)) in Hs.
    apply in_map_iff in Hs. destruct Hs as (e & <- & He).
    pose proof (accumulated_seriesMap readFile parseDicom filePaths) as Hall.
    rewrite Forall_forall in Hall.
    destruct (Hall e (proj2 (list_elem_of_In _ _) He))
      as (Hid & Hnil & f & img0 & Hf & Hp & Hu & Hmeta).
    exists f, img0. destruct e as [k se]. cbn [fst snd] in *.
    repeat split; try assumption.
    + cbn. congruence.
    + rewrite Hmeta. f_equal. rewrite <- Hnil at 1. unfold withImages at 2. cbn.
      destruct se; reflexivity.
  - apply Forall_forall. intros img Himg. apply list_elem_of_In in Himg.
    destruct (study_image_decoded _ _ _ _ _ Hload Hs Himg) as (f & Hf & Hp).
    destruct (parseDicomFile_image_fields f img Hp) as (Hpath & Hrest).
    rewrite Hpath. split; [exact Hf|]. split; [exact Hp | exact Hrest].
Qed.

End Provenance.

(** ** Findings are consistent with their value type *)

Section FindingFields.
Context {number : Type} `{JS.Number number}.

Lemma contentValue_consistent (ds : DataSet number) (vt cn v : string)
  (u r : option string) :
  vt <> "" ->
  DicomSR.contentValue ds vt cn = (v, u, r) ->
  (r <> None -> vt = "IMAGE")
  /\ (u <> None -> vt = "NUM")
  /\ (vt = "CONTAINER" -> v <> "").
Proof.
  intros Hvt. unfold DicomSR.contentValue.
  destruct (String.eqb_spec vt "TEXT") as [->|_].
  { intros [= <- <- <-]. repeat split; congruence. }
  destruct (String.eqb_spec vt "NUM") as [->|Hnum].
  { destruct (first_item_dataSet _); intros [= <- <- <-]; repeat split; congruence. }
  destruct (String.eqb_spec vt "CODE") as [->|_].
  { destruct (first_item_dataSet _); intros [= <- <- <-]; repeat split; congruence. }
  destruct (String.eqb_spec vt "IMAGE") as [->|Himg].
  { destruct (first_item_dataSet _); intros [= <- <- <-]; repeat split; congruence. }
  destruct (String.eqb_spec vt "CONTAINER") as [->|Hcont].
  { intros [= <- <- <-]. repeat split; try congruence.
    intros _. apply or_else_nonempty. discriminate. }
  intros [= <- <- <-]. repeat split; congruence.
Qed.

Lemma parseContentItem_fields (ds : DataSet number) (f : ReportFinding) :
  DicomSR.parseContentItem_present ds = Some f ->
  conceptName f <> ""
  /\ valueType f <> ""
  /\ string_ ds "x0040a040" = Some (valueType f)
  /\ (referencedImageUID f <> None -> valueType f = "IMAGE")
  /\ (unit_ f <> None -> valueType f = "NUM")
  /\ (valueType f = "CONTAINER" -> value f <> "").
Proof.
  destruct ds as [bytes str ints shorts fstr fl els].
  cbn [DicomSR.parseContentItem_present string_ elements].
  destruct (JS.truthy (str "x0040a040")) eqn:Hvt; cbn [negb]; [|discriminate].
  destruct (truthy_nonempty _ Hvt) as [Hsome Hne].
  destruct (DicomSR.contentValue _ _ _) as [[v u] r] eqn:Hcv.
  intros [= <-]. cbn.
  destruct (contentValue_consistent _ _ _ _ _ _ Hne Hcv) as (Hr & Hu & Hc).
  split; [apply or_else_nonempty; discriminate|].
  split; [exact Hne|]. split; [exact Hsome|]. repeat split; assumption.
Qed.

Lemma parseContentItem_consistent (ds : DataSet number) :
  forall f, DicomSR.parseContentItem_present ds = Some f -> findingConsistent f = true.
Proof.
  induction ds as [ds IH] using DataSet_nested_ind.
  intros f Hf.
  pose proof (parseContentItem_children ds f Hf) as Hc.
  destruct (parseContentItem_fields ds f Hf) as (Hcn & Hvt & _ & Hr & Hu & Hcont).
  specialize (IH "x0040a730").
  destruct f as [cn v vt u ch r]. cbn [conceptName valueType value unit_ children
    referencedImageUID] in *. cbn [findingConsistent conceptName valueType value unit_
    children referencedImageUID].
  assert (H1 : negb (String.eqb cn "") = true)
    by (destruct (String.eqb_spec cn ""); [contradiction | reflexivity]).
  assert (H2 : negb (String.eqb vt "") = true)
    by (destruct (String.eqb_spec vt ""); [contradiction | reflexivity]).
  assert (H3 : match r with Some _ => String.eqb vt "IMAGE" | None => true end = true).
  { destruct r; [|reflexivity]. apply String.eqb_eq, Hr. discriminate. }
  assert (H4 : match u with Some _ => String.eqb vt "NUM" | None => true end = true).
  { destruct u; [|reflexivity]. apply String.eqb_eq, Hu. discriminate. }
  assert (H5 : negb (String.eqb vt "CONTAINER") || negb (String.eqb v "") = true).
  { destruct (String.eqb_spec vt "CONTAINER") as [Hc'|]; [|reflexivity].
    destruct (String.eqb_spec v ""); [exfalso; apply (Hcont Hc'); assumption | reflexivity]. }
  rewrite H1, H2, H3, H4, H5. cbn [andb].
  unfold items_of in Hc. unfold nested_in in IH.
  destruct (elements ds "x0040a730") as [e|]; [|subst ch; reflexivity].
  destruct (items e) as [l|]; [|subst ch; reflexivity].
  cbn zeta in Hc.
  assert (Hall : Forall (fun c => findingConsistent c = true) (DicomSR.collectFindings l)).
  { apply collectFindings_Forall. exact IH. }
  destruct (length (DicomSR.collectFindings l) =? 0)%nat; subst ch; [reflexivity|].
  apply forallb_forall. intros x Hx.
  rewrite Forall_forall in Hall. apply Hall. apply list_elem_of_In. exact Hx.
Qed.

(** X10. A decoded report has non-empty SOP and series instance UIDs, and
    every finding of its tree, at any depth, has a non-empty concept name
    and value type, carries an image reference only if it is an IMAGE
    finding and a unit only if it is a NUM finding, and has a non-empty
    label if it is a CONTAINER. *)
Theorem report_findings_consistent (ds : DataSet number) (path : string) (r : DicomReport) :
  DicomSR.parseSR ds path = Some r ->
  sr_sopInstanceUID r <> ""
  /\ sr_seriesInstanceUID r <> ""
  /\ Forall (fun f => findingConsistent f = true) (findings r).
Proof.
  unfold DicomSR.parseSR.
  destruct (JS.truthy (string_ ds "x00080018")) eqn:Hsop; [|discriminate].
  destruct (JS.truthy (string_ ds "x0020000e")) eqn:Hser; [|discriminate].
  cbn [negb orb]. intros [= <-]. cbn.
  split; [apply truthy_nonempty; exact Hsop|].
  split; [apply truthy_nonempty; exact Hser|].
  unfold DicomSR.parseContentSequence, items_of.
  destruct (elements ds "x0040a730") as [e|]; [|constructor].
  destruct (items e) as [l|]; [|constructor].
  apply collectFindings_Forall. cbn.
  apply Forall_forall. intros it _. destruct (dataSet it) as [d|]; [|exact I].
  apply parseContentItem_consistent.
Qed.

End FindingFields.

Lemma report_findings_consistent_witness :
  exists r,
    DicomSR.parseSR Fixture.reportDataSet "/scan/sr.dcm" = Some r
    /\ length (findings r) = 2%nat
    /\ Forall (fun f => findingConsistent f = true) (findings r).
Proof.
  eexists. split; [vm_compute; reflexivity|]. split; [reflexivity|].
  apply (report_findings_consistent Fixture.reportDataSet "/scan/sr.dcm").
  vm_compute. reflexivity.
Defined.

(** ** Key-object selections and presentation states are well formed *)

Section References.
Context {number : Type} `{JS.Number number}.

Lemma pushImageReference_nonempty (ds : DataSet number) (acc : list SOPInstanceUID) :
  Forall (fun u => u <> "") acc ->
  Forall (fun u => u <> "") (DicomKO.pushImageReference ds acc).
Proof.
  intros Hacc. unfold DicomKO.pushImageReference.
  destruct (JS.strict_eq _ _); [|exact Hacc].
  destruct (first_item_dataSet _) as [r|]; [|exact Hacc].
  cbv zeta. destruct (JS.truthy (string_ r "x00081155")) eqn:Ht; [|exact Hacc].
  apply Forall_app. split; [exact Hacc|]. constructor; [|constructor].
  apply truthy_nonempty. exact Ht.
Qed.

Lemma eachNestedItem_nonempty (l : list (Item number)) :
  forall acc,
    Forall (fun u => u <> "") acc ->
    Forall (fun u => u <> "") (DicomKO.eachNestedItem l acc).
Proof.
  induction l as [|it r IH]; intros acc Hacc; cbn; [exact Hacc|].
  destruct (dataSet it) as [d|]; apply IH; [apply pushImageReference_nonempty|]; exact Hacc.
Qed.

Lemma eachItem_nonempty (l : list (Item number)) :
  forall acc,
    Forall (fun u => u <> "") acc ->
    Forall (fun u => u <> "") (DicomKO.eachItem l acc).
Proof.
  induction l as [|it r IH]; intros acc Hacc; cbn [DicomKO.eachItem]; [exact Hacc|].
  destruct (dataSet it) as [d|]; [|apply IH; exact Hacc].
  apply IH. destruct (items_of (elements d "x0040a730")) as [nested|].
  - apply eachNestedItem_nonempty, pushImageReference_nonempty. exact Hacc.
  - apply pushImageReference_nonempty. exact Hacc.
Qed.

Lemma firstTextValue_nonempty (l : list (Item number)) (s : string) :
  DicomKO.firstTextValue l = Some s -> s <> "".
Proof.
  induction l as [|it r IH]; cbn; [discriminate|].
  destruct (dataSet it) as [d|]; [|exact IH].
  destruct (JS.strict_eq _ _); [|exact IH].
  cbv zeta. destruct (JS.truthy (string_ d "x0040a160")) eqn:Ht; [|exact IH].
  intros Hs. destruct (truthy_nonempty _ Ht) as [Hsome Hne].
  rewrite Hsome in Hs. injection Hs as <-. exact Hne.
Qed.

(** X11. A decoded key-object selection has a non-empty SOP instance UID
    and a non-empty title (the default "Key Images" when the dataset names
    none); its description is absent or non-empty, and every reference of
    its non-empty [keyImages] list is a non-empty identifier. *)
Theorem key_object_wellformed (ds : DataSet number) (path : string)
  (ko : KeyObjectSelection) :
  DicomKO.parseKO ds path = Some ko ->
  ko_sopInstanceUID ko <> ""
  /\ title ko <> ""
  /\ description ko <> Some ""
  /\ keyImages ko <> []
  /\ Forall (fun u => u <> "") (keyImages ko).
Proof.
  unfold DicomKO.parseKO.
  destruct (JS.truthy (string_ ds "x00080018")) eqn:Hsop; [|discriminate].
  cbn [negb]. cbv zeta.
  destruct (DicomKO.parseReferencedImages ds) as [|u r] eqn:Hrefs; [discriminate|].
  cbn [length Nat.eqb]. intros [= <-]. cbn.
  split; [apply truthy_nonempty; exact Hsop|].
  split; [apply or_else_nonempty; discriminate|].
  split.
  { unfold DicomKO.getKODescription.
    destruct (items_of (elements ds "x0040a730")) as [l|]; [|discriminate].
    intros Hd. apply firstTextValue_nonempty in Hd. contradiction. }
  split; [discriminate|].
  rewrite <- Hrefs. unfold DicomKO.parseReferencedImages.
  destruct (items_of (elements ds "x0040a730")) as [l|]; [|constructor].
  apply eachItem_nonempty. constructor.
Qed.

Lemma eachImageItem_nonempty (l : list (Item number)) :
  forall acc,
    Forall (fun u => u <> "") acc ->
    Forall (fun u => u <> "") (DicomPR.eachImageItem l acc).
Proof.
  induction l as [|it r IH]; intros acc Hacc; cbn; [exact Hacc|].
  destruct (dataSet it) as [d|]; [|apply IH; exact Hacc].
  destruct (JS.truthy (string_ d "x00081155")) eqn:Ht; apply IH; [|exact Hacc].
  apply Forall_app. split; [exact Hacc|]. constructor; [|constructor].
  apply truthy_nonempty. exact Ht.
Qed.

Lemma eachSeriesItem_nonempty (l : list (Item number)) :
  forall acc,
    Forall (fun u => u <> "") acc ->
    Forall (fun u => u <> "") (DicomPR.eachSeriesItem l acc).
Proof.
  induction l as [|it r IH]; intros acc Hacc; cbn; [exact Hacc|].
  destruct (dataSet it) as [d|]; [|apply IH; exact Hacc].
  destruct (items_of (elements d "x00081140")) as [imgs|]; apply IH; [|exact Hacc].
  apply eachImageItem_nonempty. exact Hacc.
Qed.

Lemma readFloats_reads (ds : DataSet number) (n : nat) :
  forall i coords,
    DicomPR.readFloats ds i n coords
    = (fun reads => coords ++ omap (fun v => v) reads) <$> mapM (float ds "x00700022") (seq i n).
Proof.
  induction n as [|k IH]; intros i coords; cbn [DicomPR.readFloats seq mapM].
  - cbn. rewrite app_nil_r. reflexivity.
  - destruct (float ds "x00700022" i) as [[x|]|]; cbn; [| |reflexivity].
    + rewrite IH. destruct (mapM _ _); cbn; [|reflexivity].
      rewrite <- app_assoc. reflexivity.
    + rewrite IH. destruct (mapM _ _); reflexivity.
Qed.

Lemma parseGraphicData_reads (ds : DataSet number) :
  DicomPR.parseGraphicData ds
  = match elements ds "x00700022" with
    | Some _ =>
        omap (fun v => v)
          <$> mapM (float ds "x00700022")
                (seq 0 (Z.to_nat (JS.nullish (uint16 ds "x00700021") 0 * 2)))
    | None => Some []
    end.
Proof.
  unfold DicomPR.parseGraphicData.
  destruct (elements ds "x00700022"); [|reflexivity].
  destruct (Z.eqb_spec (JS.nullish (uint16 ds "x00700021") 0) 0) as [->|Hne];
    [reflexivity|].
  cbv zeta. rewrite readFloats_reads. reflexivity.
Qed.

Lemma parseGraphicObject_wellformed (ds : DataSet number) (a : GraphicAnnotation number) :
  DicomPR.parseGraphicObject ds = Some (Some a) ->
  annotationWellFormed a /\ graphicType a <> TEXT.
Proof.
  unfold DicomPR.parseGraphicObject.
  destruct (negb _); [discriminate|]. cbv zeta.
  destruct (DicomPR.parseGraphicData ds) as [[|x r]|] eqn:Hd; try discriminate.
  cbn [length Nat.eqb]. intros [= <-]. unfold annotationWellFormed. cbn.
  unfold DicomPR.mapGraphicType.
  repeat match goal with |- context [if ?b then _ else _] => destruct b end;
    repeat split; discriminate.
Qed.

Lemma parsePosition_length (o : option string) :
  DicomPR.parsePosition o = [] \/ (2 <= length (DicomPR.parsePosition o))%nat.
Proof.
  unfold DicomPR.parsePosition. destruct (JS.truthy o); [|left; reflexivity].
  cbv zeta.
  destruct (2 <=? length _)%nat eqn:Hlen; cbn [andb]; [|left; reflexivity].
  destruct (negb _); [|left; reflexivity].
  right. apply Nat.leb_le. exact Hlen.
Qed.

Lemma parseTextObject_Some (ds : DataSet number) (a : GraphicAnnotation number) :
  DicomPR.parseTextObject ds = Some a ->
  graphicType a = TEXT
  /\ textValue a = string_ ds "x00700006"
  /\ JS.truthy (textValue a) = true
  /\ (2 <= length (graphicData a))%nat.
Proof.
  unfold DicomPR.parseTextObject.
  destruct (JS.truthy (string_ ds "x00700006")) eqn:Ht; [|discriminate].
  cbn [negb]. cbv zeta. intros [= <-]. cbn.
  repeat split; [exact Ht|].
  destruct (parsePosition_length (string_ ds "x00700014")) as [-> | Hlen].
  - cbn [length Nat.eqb app].
    destruct (parsePosition_length (string_ ds "x00700010")) as [-> | Hlen].
    + cbn. lia.
    + destruct (length _ =? 0)%nat eqn:E; [apply Nat.eqb_eq in E; lia | exact Hlen].
  - destruct (length (DicomPR.parsePosition (string_ ds "x00700014")) =? 0)%nat eqn:E;
      [apply Nat.eqb_eq in E; lia|].
    rewrite E. exact Hlen.
Qed.

Lemma eachObjectItem_wellformed
  (parse : DataSet number -> option (option (GraphicAnnotation number)))
  (l : list (Item number)) :
  (forall d a, parse d = Some (Some a) -> annotationWellFormed a) ->
  forall acc result,
    Forall annotationWellFormed acc ->
    DicomPR.eachObjectItem parse l acc = Some result ->
    Forall annotationWellFormed result.
Proof.
  intros Hparse. induction l as [|it r IH]; intros acc result Hacc; cbn.
  - intros [= <-]. exact Hacc.
  - destruct (dataSet it) as [d|]; [|apply IH; exact Hacc].
    destruct (parse d) as [[a|]|] eqn:Ha; [| |discriminate].
    + apply IH. apply Forall_app. split; [exact Hacc|]. constructor; [|constructor].
      apply (Hparse d). exact Ha.
    + apply IH. exact Hacc.
Qed.

Lemma parseTextObject_wellformed (ds : DataSet number) (a : GraphicAnnotation number) :
  DicomPR.parseTextObject ds = Some a -> annotationWellFormed a.
Proof.
  intros Ha. destruct (parseTextObject_Some ds a Ha) as (Ht & _ & Htext & Hlen).
  unfold annotationWellFormed. rewrite Ht. split; [|split; assumption].
  intros Hnil. rewrite Hnil in Hlen. cbn in Hlen. lia.
Qed.

Lemma parseGraphicAnnotations_wellformed (ds : DataSet number)
  (annotations : list (GraphicAnnotation number)) :
  DicomPR.parseGraphicAnnotations ds = Some annotations ->
  Forall annotationWellFormed annotations.
Proof.
  unfold DicomPR.parseGraphicAnnotations.
  destruct (items_of (elements ds "x00700001")) as [l|]; [|intros [= <-]; constructor].
  assert (Hgen : forall acc result,
             Forall annotationWellFormed acc ->
             DicomPR.eachAnnotationItem l acc = Some result ->
             Forall annotationWellFormed result).
  { induction l as [|it r IH]; intros acc result Hacc;
      cbn [DicomPR.eachAnnotationItem].
    - intros [= <-]. exact Hacc.
    - destruct (dataSet it) as [d|]; [|apply IH; exact Hacc].
      destruct (match items_of (elements d "x00700009") with
                | Some objectItems =>
                    DicomPR.eachObjectItem DicomPR.parseGraphicObject objectItems acc
                | None => Some acc
                end) as [graphics|] eqn:Hg; [|discriminate].
      assert (Hgraphics : Forall annotationWellFormed graphics).
      { destruct (items_of (elements d "x00700009")) as [objectItems|].
        - eapply eachObjectItem_wellformed; [|exact Hacc | exact Hg].
          intros d' a Ha. apply (parseGraphicObject_wellformed d' a Ha).
        - injection Hg as <-. exact Hacc. }
      destruct (match items_of (elements d "x00700008") with
                | Some textItems =>
                    DicomPR.eachObjectItem
                      (fun textDS => Some (DicomPR.parseTextObject textDS))
                      textItems graphics
                | None => Some graphics
                end) as [texts|] eqn:Ht; [|discriminate].
      apply IH.
      destruct (items_of (elements d "x00700008")) as [textItems|].
      + eapply eachObjectItem_wellformed; [|exact Hgraphics | exact Ht].
        intros d' a [= Ha]. apply (parseTextObject_wellformed d' a Ha).
      + injection Ht as <-. exact Hgraphics. }
  apply Hgen. constructor.
Qed.

(** X12. A decoded presentation state has a non-empty SOP instance UID and
    a non-empty list of referenced images, each a non-empty identifier; its
    annotation list is absent or non-empty, and every annotation has
    coordinates, a text annotation a non-empty text and at least two
    coordinates, a graphic annotation no text. *)
Theorem presentation_state_wellformed (ds : DataSet number) (path : string)
  (ps : PresentationState number) :
  DicomPR.parsePR ds path = Some ps ->
  pr_sopInstanceUID ps <> ""
  /\ referencedImageUIDs ps <> []
  /\ Forall (fun u => u <> "") (referencedImageUIDs ps)
  /\ graphicAnnotations ps <> Some []
  /\ (forall l, graphicAnnotations ps = Some l -> Forall annotationWellFormed l).
Proof.
  unfold DicomPR.parsePR.
  destruct (JS.truthy (string_ ds "x00080018")) eqn:Hsop; [|discriminate].
  cbn [negb]. cbv zeta.
  destruct (DicomPR.parseReferencedImages ds) as [|u r] eqn:Hrefs; [discriminate|].
  cbn [length Nat.eqb]. destruct (DicomPR.parseVOILUT ds) as [wc ww].
  pose proof (parseGraphicAnnotations_wellformed ds) as Hwf.
  destruct (DicomPR.parseGraphicAnnotations ds) as [annotations|]; [|discriminate].
  intros [= <-]. cbn.
  split; [apply truthy_nonempty; exact Hsop|].
  split; [discriminate|].
  split.
  { rewrite <- Hrefs. unfold DicomPR.parseReferencedImages.
    destruct (items_of (elements ds "x00081115")) as [l|]; [|constructor].
    apply eachSeriesItem_nonempty. constructor. }
  destruct annotations as [|a l]; cbn; split; try discriminate.
  intros l' [= <-]. apply Hwf. reflexivity.
Qed.

(** X13. A text object with a non-empty text always decodes to a TEXT
    annotation carrying that text and at least two coordinates, and only a
    text object with an empty or missing text is dropped; the position is
    the anchor point when that parses, else the top-left corner of the
    bounding box when that parses, else two default numbers. *)
Theorem text_object_never_dropped_for_position (ds : DataSet number) :
  (DicomPR.parseTextObject ds = None <-> JS.truthy (string_ ds "x00700006") = false)
  /\ (forall a, DicomPR.parseTextObject ds = Some a ->
        graphicType a = TEXT
        /\ textValue a = string_ ds "x00700006"
        /\ (2 <= length (graphicData a))%nat
        /\ graphicData a
           = match DicomPR.parsePosition (string_ ds "x00700014") with
             | [] =>
                 match DicomPR.parsePosition (string_ ds "x00700010") with
                 | [] => [JS.of_Z 0; JS.of_Z 0]
                 | corner => corner
                 end
             | anchor => anchor
             end).
Proof.
  split.
  - unfold DicomPR.parseTextObject.
    destruct (JS.truthy (string_ ds "x00700006")); cbn [negb];
      split; try discriminate; reflexivity.
  - intros a Ha. destruct (parseTextObject_Some ds a Ha) as (Ht & Htv & _ & Hlen).
    split; [exact Ht|]. split; [exact Htv|]. split; [exact Hlen|].
    unfold DicomPR.parseTextObject in Ha.
    destruct (negb _); [discriminate|]. cbv zeta in Ha. injection Ha as <-. cbn.
    destruct (DicomPR.parsePosition (string_ ds "x00700014")) as [|x r]; [|reflexivity].
    cbn. destruct (DicomPR.parsePosition (string_ ds "x00700010")) as [|y s]; reflexivity.
Qed.

(** X14. The coordinates of a graphic object are read at the indices
    [0 .. 2 * numPoints - 1] of the data element, whatever the length of
    the element: when every read answers, the result is the floats read,
    in order (a read answering [undefined] being skipped), so at most
    [2 * numPoints] of them; when one of the reads throws, so does the
    function, and nothing guards against a point count that announces
    more than the element holds. Without the data element, or with a point
    count that is missing or 0, there is no read and no coordinate. *)
Theorem graphic_data_within_point_count (ds : DataSet number) :
  let numPoints := JS.nullish (uint16 ds "x00700021") 0 in
  let indices := seq 0 (Z.to_nat (numPoints * 2)) in
  DicomPR.parseGraphicData ds
  = match elements ds "x00700022" with
    | Some _ => omap (fun v => v) <$> mapM (float ds "x00700022") indices
    | None => Some []
    end
  /\ (DicomPR.parseGraphicData ds = None
      <-> elements ds "x00700022" <> None
          /\ exists i, (i < Z.to_nat (numPoints * 2))%nat
                       /\ float ds "x00700022" i = None)
  /\ (forall coords,
        DicomPR.parseGraphicData ds = Some coords ->
        (length coords <= Z.to_nat (numPoints * 2))%nat).
Proof.
  cbv zeta. split; [apply parseGraphicData_reads|].
  rewrite parseGraphicData_reads.
  set (n := Z.to_nat (JS.nullish (uint16 ds "x00700021") 0 * 2)).
  destruct (elements ds "x00700022") as [e|].
  - split.
    + rewrite fmap_None, mapM_None, Exists_exists. split.
      * intros (i & Hi & Hthrow). split; [discriminate|].
        exists i. split; [|exact Hthrow].
        apply list_elem_of_In, in_seq in Hi. lia.
      * intros (_ & i & Hi & Hthrow). exists i. split; [|exact Hthrow].
        apply list_elem_of_In, in_seq. lia.
    + intros coords Hc. apply fmap_Some in Hc. destruct Hc as (reads & Hreads & ->).
      apply mapM_Some, Forall2_length in Hreads. rewrite length_seq in Hreads.
      rewrite Hreads. clear. induction reads as [|[x|] r IH]; cbn; lia.
  - split.
    + split; [discriminate|]. intros (Hne & _). contradiction.
    + intros coords [= <-]. cbn. lia.
Qed.

End References.

(** ** The further properties at the concrete file set *)

Section FurtherAtFixture.

Local Abbreviation load := (loadDicomFromFolder Fixture.readFile Fixture.parseDicom).
Local Abbreviation parseFile := (parseDicomFile Fixture.readFile Fixture.parseDicom).

Lemma series_holds_its_decoded_images_witness :
  exists events study,
    load Fixture.filePaths = (events, Some study)
    /\ map (fun s => map sopInstanceUID (images s)) (series study)
       = [["1.2.1.1"]; ["1.2.2.1"; "1.2.2.2"]]
    /\ Forall (fun s => images s
                        = JS.sort byInstanceNumber
                            (imagesOfSeries (se_seriesInstanceUID s)
                               (decoded Fixture.readFile Fixture.parseDicom asImage
                                  Fixture.filePaths)))
              (series study).
Proof.
  eexists _, _. split; [vm_compute; reflexivity|]. split; [reflexivity|].
  match goal with
  | |- Forall _ (series ?s) =>
      pose proof (series_holds_its_decoded_images Fixture.readFile Fixture.parseDicom
                    Fixture.filePaths (fst (load Fixture.filePaths)) s
                    ltac:(vm_compute; reflexivity)) as Hall
  end.
  apply Forall_forall. intros s Hs. rewrite Forall_forall in Hall.
  destruct (Hall s Hs) as [_ Hsorted]. apply Hsorted.
  apply list_elem_of_In in Hs. vm_compute in Hs.
  repeat (destruct Hs as [<-|Hs];
          [vm_compute; repeat (apply List.Forall_cons; [discriminate|]);
           apply List.Forall_nil|]).
  destruct Hs.
Defined.

Lemma series_identifiers_distinct_witness :
  exists events study,
    load Fixture.filePaths = (events, Some study)
    /\ NoDup (map se_seriesInstanceUID (series study)).
Proof.
  eexists _, _. split; [vm_compute; reflexivity|].
  match goal with
  | |- NoDup (map _ (series ?s)) =>
      apply (series_identifiers_distinct Fixture.readFile Fixture.parseDicom
               Fixture.filePaths (fst (load Fixture.filePaths)) s
               ltac:(vm_compute; reflexivity))
  end.
Defined.

Lemma series_never_empty_witness :
  exists events study,
    load Fixture.filePaths = (events, Some study)
    /\ Forall (fun s => images s <> []) (series study).
Proof.
  eexists _, _. split; [vm_compute; reflexivity|].
  match goal with
  | |- Forall _ (series ?s) =>
      apply (series_never_empty Fixture.readFile Fixture.parseDicom
               Fixture.filePaths (fst (load Fixture.filePaths)) s
               ltac:(vm_compute; reflexivity))
  end.
Defined.

Lemma study_objects_in_file_order_witness :
  exists events study,
    load Fixture.filePaths = (events, Some study)
    /\ reports study
       = decoded Fixture.readFile Fixture.parseDicom asReport Fixture.filePaths
    /\ keyObjectSelections study
       = decoded Fixture.readFile Fixture.parseDicom asKeyObject Fixture.filePaths
    /\ presentationStates study
       = decoded Fixture.readFile Fixture.parseDicom asPresentationState
           Fixture.filePaths.
Proof.
  eexists _, _. split; [vm_compute; reflexivity|].
  match goal with
  | |- reports ?s = _ /\ _ =>
      apply (study_objects_in_file_order Fixture.readFile Fixture.parseDicom
               Fixture.filePaths (fst (load Fixture.filePaths)) s
               ltac:(vm_compute; reflexivity))
  end.
Defined.

Lemma load_empty_exactly_witness :
  snd (load ["/scan/sr.dcm"; "/scan/ko.dcm"]) = None.
Proof.
  apply (proj2 (load_empty_exactly Fixture.readFile Fixture.parseDicom
                  ["/scan/sr.dcm"; "/scan/ko.dcm"])).
  right. right. intros f img Hf Hp. vm_compute in Hf.
  repeat (destruct Hf as [<-|Hf]; [vm_compute in Hp; discriminate Hp|]).
  destruct Hf.
Defined.

Lemma study_provenance_witness :
  exists events study,
    load Fixture.filePaths = (events, Some study)
    /\ Forall (fun s =>
                 Forall (fun img =>
                           In (filePath img) Fixture.filePaths
                           /\ parseFile (filePath img) = Some (image img))
                        (images s))
              (series study).
Proof.
  eexists _, _. split; [vm_compute; reflexivity|].
  match goal with
  | |- Forall _ (series ?s) =>
      pose proof (study_provenance Fixture.readFile Fixture.parseDicom
                    Fixture.filePaths (fst (load Fixture.filePaths)) s
                    ltac:(vm_compute; reflexivity)) as Hall
  end.
  eapply List.Forall_impl; [|exact Hall].
  intros s [_ Himgs]. eapply List.Forall_impl; [|exact Himgs].
  intros img (Hin & Hp & _). split; assumption.
Defined.

Lemma key_object_wellformed_witness :
  exists ko,
    DicomKO.parseKO Fixture.keyObjectDataSet "/scan/ko.dcm" = Some ko
    /\ ko_sopInstanceUID ko <> ""
    /\ title ko <> ""
    /\ description ko <> Some ""
    /\ keyImages ko <> []
    /\ Forall (fun u => u <> "") (keyImages ko).
Proof.
  eexists. split; [vm_compute; reflexivity|].
  apply (key_object_wellformed Fixture.keyObjectDataSet "/scan/ko.dcm").
  vm_compute. reflexivity.
Defined.

Lemma presentation_state_wellformed_witness :
  exists ps,
    DicomPR.parsePR FixturePR.presentationDataSet "/scan/pr.dcm" = Some ps
    /\ referencedImageUIDs ps = ["1.2.2.1"; "1.2.2.2"]
    /\ option_map (map graphicType) (graphicAnnotations ps) = Some [POLYLINE; TEXT; TEXT]
    /\ pr_sopInstanceUID ps <> ""
    /\ referencedImageUIDs ps <> []
    /\ Forall (fun u => u <> "") (referencedImageUIDs ps)
    /\ graphicAnnotations ps <> Some []
    /\ (forall l, graphicAnnotations ps = Some l -> Forall annotationWellFormed l).
Proof.
  eexists. split; [vm_compute; reflexivity|]. split; [reflexivity|].
  split; [reflexivity|].
  apply (presentation_state_wellformed FixturePR.presentationDataSet "/scan/pr.dcm").
  vm_compute. reflexivity.
Defined.

Lemma graphic_data_within_point_count_witness :
  DicomPR.parseGraphicData FixturePR.polylineObject
  = Some [IntegerNumbers.Int 1; IntegerNumbers.Int 2;
          IntegerNumbers.Int 30; IntegerNumbers.Int 40]
  /\ DicomPR.parseGraphicData FixtureEdge.shortPolyline = None
  /\ parseDicomFile FixtureEdge.readFile FixtureEdge.parseDicom "/scan/pr-short.dcm"
     = None.
Proof.
  split; [reflexivity|]. split; [|reflexivity].
  apply (proj1 (proj2 (graphic_data_within_point_count FixtureEdge.shortPolyline))).
  split; [discriminate|]. exists 4%nat. split; [vm_compute; lia | reflexivity].
Defined.

Lemma text_object_never_dropped_for_position_witness :
  exists a b,
    DicomPR.parseTextObject FixturePR.anchoredText = Some a
    /\ graphicData a = [IntegerNumbers.Int 5; IntegerNumbers.Int 7]
    /\ DicomPR.parseTextObject FixturePR.unplacedText = Some b
    /\ graphicData b = [IntegerNumbers.Int 0; IntegerNumbers.Int 0]
    /\ graphicType a = TEXT
    /\ textValue a = Some "lesion"
    /\ (2 <= length (graphicData a))%nat.
Proof.
  eexists _, _. split; [vm_compute; reflexivity|]. split; [reflexivity|].
  split; [vm_compute; reflexivity|]. split; [reflexivity|].
  destruct (proj2 (text_object_never_dropped_for_position FixturePR.anchoredText) _
              ltac:(vm_compute; reflexivity)) as (Ht & Hv & Hl & _).
  split; [exact Ht|]. split; [exact Hv|]. exact Hl.
Defined.

End FurtherAtFixture.

(** ** The kind of a decoded file *)

Section FileKind.
Context {number : Type} `{JS.Number number}.
Variable readFile : string -> option (list Z).
Variable parseDicom : list Z -> option (DataSet number).

Local Abbreviation parseFile := (parseDicomFile readFile parseDicom).

(** X15. A file decodes only if it can be read, is no larger than 500 MiB
    and parses; what it decodes to follows its SOP class before anything
    else: a report, key-object selection or presentation state is what
    the decoder of its class returns, and an image comes only from a
    dataset of none of the three classes that has a pixel-data element. A
    file of one of the three classes never loads as an image, pixel data or
    not. *)
Theorem file_kind_follows_sop_class (filePath : string) (r : ParseResult) :
  parseFile filePath = Some r ->
  exists buffer dataSet,
    readFile filePath = Some buffer
    /\ Z.of_nat (length buffer) <= 500 * 1024 * 1024
    /\ parseDicom buffer = Some dataSet
    /\ match r with
       | report rep =>
           DicomSR.isSRFile dataSet = true
           /\ DicomSR.parseSR dataSet filePath = Some rep
       | keyObject ko =>
           DicomKO.isKOFile dataSet = true
           /\ DicomKO.parseKO dataSet filePath = Some ko
       | presentationState ps =>
           DicomPR.isPRFile dataSet = true
           /\ DicomPR.parsePR dataSet filePath = Some ps
       | image img =>
           DicomSR.isSRFile dataSet = false
           /\ DicomKO.isKOFile dataSet = false
           /\ DicomPR.isPRFile dataSet = false
           /\ elements dataSet "x7fe00010" <> None
           /\ string_ dataSet "x00080018" = Some (sopInstanceUID img)
           /\ string_ dataSet "x0020000e" = Some (seriesInstanceUID img)
       end.
Proof.
  unfold parseDicomFile.
  destruct (readFile filePath) as [buffer|] eqn:Hread; [|discriminate].
  destruct (Z.gtb_spec (Z.of_nat (length buffer)) maxFileSize) as [Hbig|Hsize];
    [discriminate|].
  destruct (parseDicom buffer) as [ds|] eqn:Hparse; [|discriminate].
  intros Hr. exists buffer, ds.
  split; [reflexivity|]. split; [exact Hsize|]. split; [exact Hparse|].
  destruct (DicomSR.isSRFile ds) eqn:Esr.
  { destruct (DicomSR.parseSR ds filePath) as [rep|]; [|discriminate].
    injection Hr as <-. split; reflexivity. }
  destruct (DicomKO.isKOFile ds) eqn:Eko.
  { destruct (DicomKO.parseKO ds filePath) as [ko|]; [|discriminate].
    injection Hr as <-. split; reflexivity. }
  destruct (DicomPR.isPRFile ds) eqn:Epr.
  { destruct (DicomPR.parsePR ds filePath) as [ps|]; [|discriminate].
    injection Hr as <-. split; reflexivity. }
  destruct (elements ds "x7fe00010") as [e|] eqn:Hpix; [|discriminate].
  destruct (JS.truthy (string_ ds "x00080018")) eqn:Hsop; [|discriminate].
  destruct (JS.truthy (string_ ds "x0020000e")) eqn:Hser; [|discriminate].
  cbn [negb orb] in Hr.
  destruct (parseOverlays ds) as [ovs|]; [|discriminate].
  injection Hr as <-. cbn [sopInstanceUID seriesInstanceUID].
  repeat split; try discriminate.
  - apply truthy_nonempty. exact Hsop.
  - apply truthy_nonempty. exact Hser.
Qed.

End FileKind.

Lemma file_kind_follows_sop_class_witness :
  exists ko,
    parseDicomFile Fixture.readFile Fixture.parseDicom "/scan/ko.dcm" = Some (keyObject ko)
    /\ DicomKO.isKOFile Fixture.keyObjectDataSet = true
    /\ DicomKO.parseKO Fixture.keyObjectDataSet "/scan/ko.dcm" = Some ko.
Proof.
  eexists. split; [vm_compute; reflexivity|].
  destruct (file_kind_follows_sop_class Fixture.readFile Fixture.parseDicom
              "/scan/ko.dcm" _ ltac:(vm_compute; reflexivity))
    as (buffer & ds & Hread & _ & Hparse & Hkind).
  vm_compute in Hread. injection Hread as <-.
  vm_compute in Hparse. injection Hparse as <-.
  exact Hkind.
Defined.

(** ** The study header *)

Lemma occurs_rev_string (c : ascii) (s : string) :
  forall acc, occurs c (JS.rev_string s acc) = occurs c s || occurs c acc.
Proof.
  induction s as [|x r IH]; intros acc; cbn [JS.rev_string occurs]; [reflexivity|].
  rewrite IH. cbn [occurs].
  destruct (Ascii.eqb x c), (occurs c r), (occurs c acc); reflexivity.
Qed.

Lemma occurs_trim_start (c : ascii) (s : string) :
  occurs c s = false -> occurs c (JS.trim_start s) = false.
Proof.
  induction s as [|x r IH]; cbn [JS.trim_start occurs]; [auto|].
  intros Hocc. apply orb_false_elim in Hocc. destruct Hocc as [Hx Hr].
  destruct (JS.is_white x); [apply IH; exact Hr|].
  cbn [occurs]. rewrite Hx, Hr. reflexivity.
Qed.

Lemma occurs_trim (c : ascii) (s : string) :
  occurs c s = false -> occurs c (JS.trim s) = false.
Proof.
  intros Hocc. unfold JS.trim.
  rewrite occurs_rev_string. cbn [occurs]. rewrite orb_false_r.
  apply occurs_trim_start. rewrite occurs_rev_string. cbn [occurs]. rewrite orb_false_r.
  apply occurs_trim_start. exact Hocc.
Qed.

Lemma occurs_replace_all (c d : ascii) (s : string) :
  c <> d -> occurs c (JS.replace_all c d s) = false.
Proof.
  intros Hcd. induction s as [|x r IH]; cbn [JS.replace_all occurs]; [reflexivity|].
  rewrite IH, orb_false_r.
  destruct (Ascii.eqb_spec x c) as [->|Hne].
  - apply Ascii.eqb_neq. congruence.
  - apply Ascii.eqb_neq. exact Hne.
Qed.

Lemma formatDicomDate_cases (dateStr : option string) :
  match dateStr with
  | Some s =>
      if (String.length s =? 8)%nat
      then exists y m d,
             s = (y ++ m ++ d)%string
             /\ String.length y = 4%nat /\ String.length m = 2%nat
             /\ String.length d = 2%nat
             /\ formatDicomDate dateStr = (y ++ "-" ++ m ++ "-" ++ d)%string
      else formatDicomDate dateStr = "Unknown Date"
  | None => formatDicomDate dateStr = "Unknown Date"
  end.
Proof.
  destruct dateStr as [s|]; [|reflexivity].
  destruct (Nat.eqb_spec (String.length s) 8) as [Hlen|Hlen].
  - destruct s as [|c1 [|c2 [|c3 [|c4 [|c5 [|c6 [|c7 [|c8 [|c9 r]]]]]]]]];
      cbn [String.length] in Hlen; try discriminate Hlen.
    exists (String c1 (String c2 (String c3 (String c4 EmptyString)))),
           (String c5 (String c6 EmptyString)), (String c7 (String c8 EmptyString)).
    repeat split; reflexivity.
  - unfold formatDicomDate.
    destruct (String.eqb s ""); [reflexivity|]. cbn [orb].
    destruct (Nat.eqb_spec (String.length s) 8); [contradiction | reflexivity].
Qed.

Section StudyHeader.
Context {number : Type} `{JS.Number number}.
Variable readFile : string -> option (list Z).
Variable parseDicom : list Z -> option (DataSet number).

(** X16. A study header is read only from a file that decodes and names a
    study: its study identifier is not empty. The patient name it carries
    has no [^] left (the separators of the name components become spaces,
    and the ends are trimmed), and is "Unknown" when the file has none. The
    study date is the eight characters of the file split as 4-2-2 and joined
    by dashes, with no check that they are digits, and "Unknown Date" for a
    date that is missing or of any other length. *)
Theorem study_header_fields (filePath : string) (m : StudyMetadata) :
  parseStudyMetadata readFile parseDicom filePath = Some m ->
  exists buffer dataSet,
    readFile filePath = Some buffer
    /\ parseDicom buffer = Some dataSet
    /\ string_ dataSet "x0020000d" = Some (sm_studyInstanceUID m)
    /\ sm_studyInstanceUID m <> ""
    /\ occurs "^" (sm_patientName m) = false
    /\ (string_ dataSet "x00100010" = None -> sm_patientName m = "Unknown")
    /\ match string_ dataSet "x00080020" with
       | Some s =>
           if (String.length s =? 8)%nat
           then exists y mo d,
                  s = (y ++ mo ++ d)%string
                  /\ String.length y = 4%nat /\ String.length mo = 2%nat
                  /\ String.length d = 2%nat
                  /\ sm_studyDate m = (y ++ "-" ++ mo ++ "-" ++ d)%string
           else sm_studyDate m = "Unknown Date"
       | None => sm_studyDate m = "Unknown Date"
       end.
Proof.
  unfold parseStudyMetadata.
  destruct (readFile filePath) as [buffer|] eqn:Hread; [|discriminate].
  destruct (parseDicom buffer) as [dataSet|] eqn:Hparse; [|discriminate].
  destruct (JS.truthy (string_ dataSet "x0020000d")) eqn:Huid; [|discriminate].
  cbn [negb]. intros [= <-]. exists buffer, dataSet.
  cbn [sm_studyInstanceUID sm_patientName sm_studyDate].
  destruct (truthy_nonempty _ Huid) as [Hsome Hne].
  split; [reflexivity|]. split; [exact Hparse|].
  split; [exact Hsome|]. split; [exact Hne|].
  split; [apply occurs_trim, occurs_replace_all; discriminate|].
  split; [intros ->; reflexivity|].
  apply formatDicomDate_cases.
Qed.

End StudyHeader.

Lemma study_header_fields_witness :
  exists m,
    parseStudyMetadata Fixture.readFile Fixture.parseDicom "/scan/s1-i1.dcm" = Some m
    /\ sm_patientName m = "DOE JANE"
    /\ sm_studyDate m = "2024-01-31"
    /\ sm_studyInstanceUID m <> ""
    /\ occurs "^" (sm_patientName m) = false.
Proof.
  eexists. split; [vm_compute; reflexivity|]. split; [reflexivity|].
  split; [reflexivity|].
  destruct (study_header_fields Fixture.readFile Fixture.parseDicom "/scan/s1-i1.dcm" _
              ltac:(vm_compute; reflexivity))
    as (_ & _ & _ & _ & _ & Hne & Hocc & _).
  split; [exact Hne | exact Hocc].
Defined.

(** ** The directory scan *)

Section DirectoryScan.
Variable join : string -> string -> string.
Variable extname : string -> string.
Variable toLowerCase : string -> string.

Local Abbreviation scanEntry := (Scanner.scanEntry join extname toLowerCase).
Local Abbreviation scan := (Scanner.scan join extname toLowerCase).
Local Abbreviation listing := (Scanner.listing join extname toLowerCase).
Local Abbreviation listings := (Scanner.listings join extname toLowerCase).
Local Abbreviation limit := (Z.to_nat Scanner.maxFilesPerStudy).

Lemma Dirent_nested_ind (P : Scanner.Dirent -> Prop) :
  (forall n, P (Scanner.File n)) ->
  (forall n, P (Scanner.Other n)) ->
  (forall n, P (Scanner.Directory n None)) ->
  (forall n entries, Forall P entries -> P (Scanner.Directory n (Some entries))) ->
  forall entry, P entry.
Proof.
  intros HF HO HN HD.
  fix IH 1. intros [n|n [entries|]|n]; [apply HF| |apply HN|apply HO].
  apply HD. induction entries as [|e r IHr]; constructor; [apply IH | exact IHr].
Qed.

Lemma scanEntry_directory (currentPath n : string) (entries : list Scanner.Dirent)
  (files : list string) :
  scanEntry currentPath (Scanner.Directory n (Some entries)) files
  = scan (join currentPath n) entries files.
Proof.
  cbn [Scanner.scanEntry Scanner.name_of].
  revert files. induction entries as [|e r IH]; intros files; [reflexivity|].
  cbn [Scanner.scan]. destruct (Scanner.scanEntry _ _ _ _ e files) as [files'|]; [|reflexivity].
  destruct (_ >=? _); [reflexivity | apply IH].
Qed.

Lemma listing_directory (currentPath n : string) (entries : list Scanner.Dirent) :
  listing currentPath (Scanner.Directory n (Some entries))
  = listings (join currentPath n) entries.
Proof.
  cbn [Scanner.listing Scanner.name_of]. unfold Scanner.listings.
  induction entries as [|e r IH]; [reflexivity|].
  cbn [flat_map]. rewrite IH. reflexivity.
Qed.

Lemma readable_directory (n : string) (entries : list Scanner.Dirent) :
  Scanner.readable (Scanner.Directory n (Some entries))
  = forallb Scanner.readable entries.
Proof.
  cbn [Scanner.readable]. induction entries as [|e r IH]; [reflexivity|].
  cbn [forallb]. rewrite IH. reflexivity.
Qed.

Lemma take_full {A : Type} (n : nat) (l k : list A) :
  (n <= length (take n l))%nat -> take n (l ++ k) = take n l.
Proof.
  intros Hlen. rewrite length_take in Hlen.
  rewrite take_app_le by lia. reflexivity.
Qed.

Lemma take_short {A : Type} (n : nat) (l : list A) :
  (length (take n l) < n)%nat -> take n l = l.
Proof.
  intros Hlen. rewrite length_take in Hlen. apply take_ge. lia.
Qed.

(** The loop of [scan], given what one round does. *)
Lemma scan_first_files (currentPath : string) (entries : list Scanner.Dirent) :
  Forall (fun entry =>
            forall path files result,
              (length files < limit)%nat ->
              scanEntry path entry files = Some result ->
              result = take limit (files ++ listing path entry))
         entries ->
  forall files result,
    (length files < limit)%nat ->
    scan currentPath entries files = Some result ->
    result = take limit (files ++ listings currentPath entries).
Proof.
  unfold Scanner.listings.
  induction 1 as [|e r He _ IH]; intros files result Hlen; cbn [Scanner.scan flat_map].
  - intros [= <-]. rewrite app_nil_r. symmetry. apply take_ge. lia.
  - destruct (scanEntry currentPath e files) as [files'|] eqn:Hentry; [|discriminate].
    apply He in Hentry; [|exact Hlen].
    rewrite app_assoc.
    destruct (Z.geb_spec (Z.of_nat (length files')) Scanner.maxFilesPerStudy) as [Hfull|Hroom].
    + intros [= <-]. rewrite Hentry. symmetry. apply take_full.
      rewrite <- Hentry. lia.
    + intros Hrest. assert (Hall : files' = files ++ listing currentPath e).
      { rewrite Hentry. apply take_short. rewrite <- Hentry. lia. }
      rewrite <- Hall. apply IH; [lia | exact Hrest].
Qed.

Lemma scanEntry_first_files (entry : Scanner.Dirent) :
  forall path files result,
    (length files < limit)%nat ->
    scanEntry path entry files = Some result ->
    result = take limit (files ++ listing path entry).
Proof.
  induction entry as [n|n|n|n entries IH] using Dirent_nested_ind;
    intros path files result Hlen.
  - cbn [Scanner.scanEntry Scanner.listing Scanner.name_of].
    destruct (Scanner.accepted _ _ n); intros [= <-]; rewrite ?app_nil_r;
      symmetry; apply take_ge; rewrite ?length_app; cbn [length]; lia.
  - cbn [Scanner.scanEntry Scanner.listing]. intros [= <-].
    rewrite app_nil_r. symmetry. apply take_ge. lia.
  - discriminate.
  - rewrite scanEntry_directory, listing_directory.
    apply scan_first_files; assumption.
Qed.

Lemma scan_readable (currentPath : string) (entries : list Scanner.Dirent) :
  Forall (fun entry => forall path files, scanEntry path entry files <> None) entries ->
  forall files, scan currentPath entries files <> None.
Proof.
  induction 1 as [|e r He _ IH]; intros files; cbn [Scanner.scan]; [discriminate|].
  destruct (scanEntry currentPath e files) as [files'|] eqn:Hentry.
  - destruct (_ >=? _); [discriminate | apply IH].
  - exfalso. exact (He _ _ Hentry).
Qed.

Lemma scanEntry_readable (entry : Scanner.Dirent) :
  Scanner.readable entry = true ->
  forall path files, scanEntry path entry files <> None.
Proof.
  induction entry as [n|n|n|n entries IH] using Dirent_nested_ind; intros Hr path files.
  - cbn [Scanner.scanEntry]. destruct (Scanner.accepted _ _ n); discriminate.
  - discriminate.
  - discriminate Hr.
  - rewrite scanEntry_directory. apply scan_readable.
    rewrite readable_directory in Hr.
    apply Forall_forall. intros e He. rewrite Forall_forall in IH.
    apply IH; [exact He|]. rewrite forallb_forall in Hr. apply Hr.
    apply list_elem_of_In. exact He.
Qed.

(** X17. A scan that completes returns the accepted files of the tree in
    depth-first order, cut after the first 10000: never more than 10000
    paths, no path that is not an accepted regular file of the tree, and
    all of them when the tree holds at most 10000. The scan completes
    whenever every directory of the tree can be read. *)
Theorem scan_first_files_depth_first (dirPath : string) (entries : list Scanner.Dirent) :
  (forall files,
      Scanner.scanForDicomFiles join extname toLowerCase dirPath (Some entries)
      = Some files ->
      files = take limit (listings dirPath entries)
      /\ Z.of_nat (length files) <= Scanner.maxFilesPerStudy)
  /\ (forallb Scanner.readable entries = true ->
      Scanner.scanForDicomFiles join extname toLowerCase dirPath (Some entries) <> None).
Proof.
  assert (Hpos : (0 < limit)%nat) by (vm_compute; lia).
  split.
  - intros files Hscan. cbn [Scanner.scanForDicomFiles] in Hscan.
    apply scan_first_files in Hscan; [|apply Forall_forall; intros e _;
                                       apply scanEntry_first_files | cbn [length]; lia].
    cbn [app] in Hscan. split; [exact Hscan|].
    rewrite Hscan, length_take.
    assert (Hlim : Z.of_nat limit = Scanner.maxFilesPerStudy) by (vm_compute; reflexivity).
    lia.
  - intros Hr. cbn [Scanner.scanForDicomFiles]. apply scan_readable.
    apply Forall_forall. intros e He. apply scanEntry_readable.
    rewrite forallb_forall in Hr. apply Hr. apply list_elem_of_In. exact He.
Qed.

End DirectoryScan.

Lemma scan_first_files_depth_first_witness :
  exists files,
    Scanner.scanForDicomFiles (fun a b => (a ++ "/" ++ b)%string)
      (fun n => if String.eqb n "notes.txt" then ".txt" else "") (fun s => s)
      "/scan"
      (Some [Scanner.Directory "a" (Some [Scanner.File "img1"; Scanner.File "notes.txt"]);
             Scanner.Other "link"; Scanner.File "img2"])
    = Some files
    /\ files = ["/scan/a/img1"; "/scan/img2"]
    /\ Z.of_nat (length files) <= Scanner.maxFilesPerStudy.
Proof.
  eexists. split; [vm_compute; reflexivity|]. split; [reflexivity|].
  apply (proj1 (scan_first_files_depth_first (fun a b => (a ++ "/" ++ b)%string)
                  (fun n => if String.eqb n "notes.txt" then ".txt" else "") (fun s => s)
                  "/scan"
                  [Scanner.Directory "a" (Some [Scanner.File "img1"; Scanner.File "notes.txt"]);
                   Scanner.Other "link"; Scanner.File "img2"])).
  vm_compute. reflexivity.
Defined.

(** ** What the annotation renderer draws *)

Section Shapes.
Context {number : Type} `{JS.Arith number}.

Lemma polylinePoints_pairs (n : nat) :
  forall graphicData : list number,
    (length graphicData <= n)%nat ->
    flattenPoints (AnnotationOverlay.polylinePoints graphicData) = graphicData
    /\ length (AnnotationOverlay.polylinePoints graphicData)
       = Nat.div2 (S (length graphicData))
    /\ (Forall (fun p => snd p <> None) (AnnotationOverlay.polylinePoints graphicData)
        <-> Nat.even (length graphicData) = true).
Proof.
  induction n as [|n IH]; intros [|x [|y rest]] Hlen; cbn [length] in Hlen; try lia.
  - split; [reflexivity|]. split; [reflexivity|]. split; [reflexivity | constructor].
  - split; [reflexivity|]. split; [reflexivity|]. split; [reflexivity | constructor].
  - split; [reflexivity|]. split; [reflexivity|]. split.
    + intros Hall. inversion Hall as [|p l Hp _]; subst. exfalso. apply Hp. reflexivity.
    + discriminate.
  - destruct (IH rest ltac:(lia)) as (Hflat & Hl & Hiff).
    cbn [AnnotationOverlay.polylinePoints]. split.
    + unfold flattenPoints in *. cbn. rewrite Hflat. reflexivity.
    + split.
      * cbn [length Nat.div2]. rewrite Hl. reflexivity.
      * cbn [length Nat.even]. rewrite <- Hiff. split.
        -- intros Hall. inversion Hall; subst. assumption.
        -- intros Hall. constructor; [discriminate | exact Hall].
Qed.

(** X18. A shape is left undrawn exactly when its annotation carries fewer
    coordinates than its type needs (2 for a point or a text, 4 for a
    polyline or a circle, 8 for an ellipse) or is a text without text;
    coordinates beyond those are ignored except by a polyline. A text
    annotation as the decoder builds it is therefore always drawn, at its
    first two coordinates and with its text. *)
Theorem shape_drawn_iff_enough_coordinates (a : GraphicAnnotation number) :
  (AnnotationOverlay.AnnotationShape a = None
   <-> (length (graphicData a) < requiredNumbers (graphicType a))%nat
       \/ (graphicType a = TEXT /\ JS.truthy (textValue a) = false))
  /\ (annotationWellFormed a -> graphicType a = TEXT ->
      exists x y rest text,
        graphicData a = x :: y :: rest
        /\ textValue a = Some text
        /\ AnnotationOverlay.AnnotationShape a
           = Some (AnnotationOverlay.svg_text x y text)).
Proof.
  destruct a as [ty gd text]. cbn [graphicData graphicType textValue]. split.
  - unfold AnnotationOverlay.AnnotationShape.
    cbn [graphicData graphicType textValue].
    destruct ty; cbn [requiredNumbers].
    + destruct gd as [|x [|y r]]; cbn; (split; [intros Hn; try discriminate; left; lia|]);
        intros [Hl|[Ht _]]; try discriminate; try reflexivity; lia.
    + destruct (Nat.ltb_spec (length gd) 4).
      * split; [intros _; left; assumption | reflexivity].
      * split; [discriminate|]. intros [Hl|[Ht _]]; [lia | discriminate].
    + destruct gd as [|a [|b [|c [|d r]]]]; cbn;
        (split; [intros Hn; try discriminate; left; lia|]);
        intros [Hl|[Ht _]]; try discriminate; try reflexivity; lia.
    + destruct gd as [|a1 [|a2 [|a3 [|a4 [|a5 [|a6 [|a7 [|a8 r]]]]]]]]; cbn;
        (split; [intros Hn; try discriminate; left; lia|]);
        intros [Hl|[Ht _]]; try discriminate; try reflexivity; lia.
    + destruct (JS.truthy text) eqn:Htext;
        destruct gd as [|x [|y r]]; cbn;
        (split; [intros Hn; try discriminate; auto; left; lia|]);
        intros [Hl|[_ Ht]]; try discriminate; try reflexivity; lia.
  - intros [Hne Hwf] ->. cbn [graphicType graphicData textValue] in *.
    destruct Hwf as [Htext Hlen].
    destruct gd as [|x [|y rest]]; cbn [length] in Hlen; try lia.
    destruct text as [t|]; [|discriminate].
    exists x, y, rest, t. split; [reflexivity|]. split; [reflexivity|].
    unfold AnnotationOverlay.AnnotationShape.
    cbn [graphicData graphicType textValue]. rewrite Htext. reflexivity.
Qed.

(** X19. A polyline is drawn through the points that its coordinates pair
    up to, in order: spelling the points out again gives back the
    coordinates. An odd number of coordinates leaves the last point without
    an ordinate; otherwise every point has both. *)
Theorem polyline_points_spell_coordinates (a : GraphicAnnotation number) :
  graphicType a = POLYLINE ->
  (4 <= length (graphicData a))%nat ->
  exists points,
    AnnotationOverlay.AnnotationShape a = Some (AnnotationOverlay.svg_polyline points)
    /\ flattenPoints points = graphicData a
    /\ length points = Nat.div2 (S (length (graphicData a)))
    /\ (Forall (fun p => snd p <> None) points
        <-> Nat.even (length (graphicData a)) = true).
Proof.
  intros Ht Hlen. exists (AnnotationOverlay.polylinePoints (graphicData a)). split.
  - unfold AnnotationOverlay.AnnotationShape. rewrite Ht.
    destruct (Nat.ltb_spec (length (graphicData a)) 4); [lia | reflexivity].
  - apply (polylinePoints_pairs (length (graphicData a))). lia.
Qed.

End Shapes.

Lemma shape_drawn_iff_enough_coordinates_witness :
  AnnotationOverlay.AnnotationShape
    {| graphicType := TEXT; graphicData := [5%R; 7%R]; textValue := Some "lesion" |}
  <> None.
Proof.
  intros Hnone.
  apply (proj1 (proj1 (shape_drawn_iff_enough_coordinates
                         {| graphicType := TEXT; graphicData := [5%R; 7%R];
                            textValue := Some "lesion" |}))) in Hnone.
  destruct Hnone as [Hl|[_ Ht]]; [cbn in Hl; lia | discriminate Ht].
Defined.

Lemma polyline_points_spell_coordinates_witness :
  exists points,
    AnnotationOverlay.AnnotationShape
      {| graphicType := POLYLINE; graphicData := [1%R; 2%R; 3%R; 4%R; 5%R];
         textValue := None |}
    = Some (AnnotationOverlay.svg_polyline points)
    /\ flattenPoints points = [1%R; 2%R; 3%R; 4%R; 5%R]
    /\ length points = 3%nat.
Proof.
  destruct (polyline_points_spell_coordinates
              {| graphicType := POLYLINE; graphicData := [1%R; 2%R; 3%R; 4%R; 5%R];
                 textValue := None |} eq_refl ltac:(cbn; lia))
    as (points & Hs & Hf & Hl & _).
  exists points. split; [exact Hs|]. split; [exact Hf | exact Hl].
Defined.

(** ** The bitmap layer *)

Section BitmapLayer.
Context {number : Type} `{JS.Arith number}.

Lemma paint_pixel (color : Z * Z * Z) (pre rest : list Z) (i : nat) :
  length pre = (i * 4)%nat ->
  <[(i * 4 + 3)%nat := 180]>
    (<[(i * 4 + 2)%nat := snd color]>
       (<[(i * 4 + 1)%nat := snd (fst color)]>
          (<[(i * 4)%nat := fst (fst color)]> (pre ++ 0 :: 0 :: 0 :: 0 :: rest))))
  = pre ++ [fst (fst color); snd (fst color); snd color; 180] ++ rest.
Proof.
  intros Hlen.
  rewrite !insert_app_r_alt by lia.
  rewrite Hlen.
  replace (i * 4 - i * 4)%nat with 0%nat by lia.
  replace (i * 4 + 1 - i * 4)%nat with 1%nat by lia.
  replace (i * 4 + 2 - i * 4)%nat with 2%nat by lia.
  replace (i * 4 + 3 - i * 4)%nat with 3%nat by lia.
  reflexivity.
Qed.

Lemma paintFrom_pixels (overlayData : list Z) (color : Z * Z * Z) (n : nat) :
  forall (i : nat) (pre rest : list Z),
    length pre = (i * 4)%nat ->
    (i + n <= length overlayData)%nat ->
    OverlayCanvas.paintFrom overlayData color i n (pre ++ replicate (n * 4) 0 ++ rest)
    = pre ++ flat_map (OverlayCanvas.pixelOf color) (take n (drop i overlayData)) ++ rest.
Proof.
  induction n as [|n IH]; intros i pre rest Hpre Hlen; [reflexivity|].
  cbn [OverlayCanvas.paintFrom].
  destruct (lookup_lt_is_Some_2 overlayData i ltac:(lia)) as [b Hb].
  rewrite (list_lookup_total_correct _ _ _ Hb).
  rewrite (drop_S _ _ _ Hb). cbn [take flat_map]. cbv zeta.
  change (S n * 4)%nat with (4 + n * 4)%nat.
  rewrite replicate_add. cbn [replicate app].
  assert (Hstep : (if negb (b =? 0)
                   then <[(i * 4 + 3)%nat := 180]>
                          (<[(i * 4 + 2)%nat := snd color]>
                             (<[(i * 4 + 1)%nat := snd (fst color)]>
                                (<[(i * 4)%nat := fst (fst color)]>
                                   (pre ++ 0 :: 0 :: 0 :: 0 :: replicate (n * 4) 0 ++ rest))))
                   else pre ++ 0 :: 0 :: 0 :: 0 :: replicate (n * 4) 0 ++ rest)
                  = (pre ++ OverlayCanvas.pixelOf color b) ++ replicate (n * 4) 0 ++ rest).
  { unfold OverlayCanvas.pixelOf. destruct (negb (b =? 0)).
    - rewrite paint_pixel by exact Hpre. rewrite <- app_assoc. reflexivity.
    - rewrite <- app_assoc. reflexivity. }
  rewrite Hstep. rewrite IH.
  - rewrite <- !app_assoc. reflexivity.
  - rewrite length_app, Hpre. unfold OverlayCanvas.pixelOf.
    destruct (negb (b =? 0)); cbn [length]; lia.
  - lia.
Qed.

(** X21. For an overlay plane with one byte per pixel, as the decoder
    builds them, the bitmap layer paints pixel [i] with the colour of the
    plane type (green for a region of interest, yellow otherwise) at opacity
    180 exactly when byte [i] is not zero and leaves it transparent black
    otherwise; the image has four bytes per pixel and is put at the 1-based
    origin of the plane moved to 0-based. *)
Theorem overlay_painted_where_set (overlay : GraphicOverlay number) :
  overlayWellFormed overlay ->
  let put := OverlayCanvas.renderOverlay overlay in
  OverlayCanvas.imageData put
  = flat_map (OverlayCanvas.pixelOf (OverlayCanvas.overlayColor (ov_type overlay)))
             (data overlay)
  /\ length (OverlayCanvas.imageData put)
     = (4 * Z.to_nat (ov_rows overlay * ov_columns overlay))%nat
  /\ OverlayCanvas.dx put = JS.sub (snd (origin overlay)) (JS.lit 1)
  /\ OverlayCanvas.dy put = JS.sub (fst (origin overlay)) (JS.lit 1).
Proof.
  intros (_ & _ & _ & _ & Hlen & Hbits). cbv zeta.
  assert (Himg : OverlayCanvas.imageData (OverlayCanvas.renderOverlay overlay)
                 = flat_map (OverlayCanvas.pixelOf
                               (OverlayCanvas.overlayColor (ov_type overlay)))
                            (data overlay)).
  { unfold OverlayCanvas.renderOverlay, OverlayCanvas.createImageData.
    cbn [OverlayCanvas.imageData].
    assert (Hsize : Z.to_nat (4 * ov_columns overlay * ov_rows overlay)
                    = (length (data overlay) * 4)%nat).
    { rewrite Hlen.
      replace (4 * ov_columns overlay * ov_rows overlay)
        with (ov_rows overlay * ov_columns overlay * 4) by ring.
      generalize (ov_rows overlay * ov_columns overlay). intros z. lia. }
    rewrite Hsize.
    pose proof (paintFrom_pixels (data overlay)
                  (OverlayCanvas.overlayColor (ov_type overlay))
                  (length (data overlay)) 0 [] [] eq_refl ltac:(lia)) as Hp.
    rewrite app_nil_r in Hp. cbn [app] in Hp. rewrite Hp.
    rewrite app_nil_r, drop_0, firstn_all. reflexivity. }
  split; [exact Himg|]. split; [|split; reflexivity].
  rewrite Himg, <- Hlen. clear Himg Hlen.
  induction Hbits as [|b l Hb _ IH]; [reflexivity|].
  cbn [flat_map length]. rewrite length_app, IH.
  unfold OverlayCanvas.pixelOf. destruct (negb (b =? 0)); cbn [length]; lia.
Qed.

End BitmapLayer.

Lemma overlay_painted_where_set_witness :
  OverlayCanvas.imageData (OverlayCanvas.renderOverlay FixturePR.roiOverlay)
  = [0; 255; 0; 180; 0; 0; 0; 0; 0; 0; 0; 0; 0; 255; 0; 180].
Proof.
  assert (Hwf : overlayWellFormed FixturePR.roiOverlay).
  { unfold overlayWellFormed.
    split; [vm_compute; left; reflexivity|].
    split; [vm_compute; discriminate|]. split; [vm_compute; discriminate|].
    split; [reflexivity|]. split; [reflexivity|].
    cbn [data FixturePR.roiOverlay].
    repeat (apply List.Forall_cons; [(left; reflexivity) || (right; reflexivity)|]).
    apply List.Forall_nil. }
  rewrite (proj1 (overlay_painted_where_set FixturePR.roiOverlay Hwf)). reflexivity.
Defined.

(** ** The viewer state *)

Section ViewerStore.
Context {number : Type}.

Local Abbreviation ViewerState := (Store.ViewerState (number := number)).

Lemma sliceValid_zero (st : ViewerState) :
  Store.currentSliceIndex st = 0 -> Store.sliceValid st.
Proof. intros H0. left. exact H0. Qed.

Lemma setSliceIndex_valid (index : Z) (st : ViewerState) :
  Store.sliceValid st -> Store.sliceValid (Store.setSliceIndex index st).
Proof.
  intros Hv. unfold Store.setSliceIndex.
  destruct (Store.findCurrentSeries st) as [s|] eqn:Hs; [|exact Hv].
  destruct (images s) as [|img r] eqn:Himgs.
  - left. cbn. lia.
  - right. exists s. split.
    + unfold Store.useCurrentSeries, Store.findCurrentSeries, Store.withSliceIndex.
      cbn [Store.study Store.currentSeriesId]. exact Hs.
    + rewrite Himgs. cbn [Store.withSliceIndex Store.currentSliceIndex length]. lia.
Qed.

Lemma dispatch_valid (st : ViewerState) (a : Store.Action) :
  Store.sliceValid st -> Store.sliceValid (Store.dispatch st a).
Proof.
  intros Hv.
  assert (Hkeep : forall st' : ViewerState,
             Store.study st' = Store.study st ->
             Store.currentSeriesId st' = Store.currentSeriesId st ->
             Store.currentSliceIndex st' = Store.currentSliceIndex st ->
             Store.sliceValid st').
  { intros st' H1 H2 H3. unfold Store.sliceValid, Store.useCurrentSeries,
      Store.findCurrentSeries in *. rewrite H1, H2, H3. exact Hv. }
  destruct a; cbn [Store.dispatch];
    try (apply Hkeep; reflexivity);
    try (apply sliceValid_zero; reflexivity).
  - apply setSliceIndex_valid. exact Hv.
  - apply setSliceIndex_valid. exact Hv.
  - apply setSliceIndex_valid. exact Hv.
  - unfold Store.goToLastSlice.
    destruct (Store.findCurrentSeries st) as [s|] eqn:Hs; [|exact Hv].
    destruct (Z.ltb_spec 0 (Z.of_nat (length (images s)))); [|exact Hv].
    right. exists s. split; [exact Hs|]. cbn. lia.
Qed.

Lemma run_valid (settings0 : Store.AppSettings) (actions : list Store.Action) :
  Store.sliceValid (Store.run (number := number) settings0 actions).
Proof.
  unfold Store.run.
  assert (Hgen : forall st : ViewerState,
             Store.sliceValid st -> Store.sliceValid (fold_left Store.dispatch actions st)).
  { induction actions as [|a r IH]; intros st Hv; [exact Hv|].
    cbn [fold_left]. apply IH, dispatch_valid, Hv. }
  apply Hgen, sliceValid_zero. reflexivity.
Qed.

(** X22. Whatever actions the store has gone through since its initial
    state (slice indices being integers), the slice index is 0 or a
    position inside the images of the current series; so when there is a
    current series and it has images, there is a current image, and
    stepping past either end stays on the first or the last image. *)
Theorem slice_index_always_inside (settings0 : Store.AppSettings)
  (actions : list Store.Action) :
  let st := Store.run (number := number) settings0 actions in
  Store.sliceValid st
  /\ (forall s, Store.useCurrentSeries st = Some s -> images s <> [] ->
        0 <= Store.currentSliceIndex st < Store.useSliceCount st
        /\ Store.useCurrentImage st <> None
        /\ (Store.currentSliceIndex st = Store.useSliceCount st - 1 ->
            Store.currentSliceIndex (Store.nextSlice st) = Store.currentSliceIndex st)
        /\ (Store.currentSliceIndex st = 0 ->
            Store.currentSliceIndex (Store.prevSlice st) = 0)).
Proof.
  cbv zeta. pose proof (run_valid settings0 actions) as Hv.
  split; [exact Hv|]. intros s Hs Hne.
  set (st := Store.run settings0 actions) in *.
  assert (Hlen : (0 < length (images s))%nat).
  { destruct (images s); [contradiction | cbn; lia]. }
  assert (Hidx : 0 <= Store.currentSliceIndex st < Z.of_nat (length (images s))).
  { destruct Hv as [H0|(s' & Hs' & Hin)].
    - rewrite H0. lia.
    - rewrite Hs in Hs'. injection Hs' as <-. exact Hin. }
  unfold Store.useSliceCount, Store.useCurrentImage. rewrite Hs.
  split; [exact Hidx|]. split.
  - destruct (Z.leb_spec 0 (Store.currentSliceIndex st)); [|lia].
    intros Hnone. apply lookup_ge_None_1 in Hnone. lia.
  - unfold Store.nextSlice, Store.prevSlice, Store.setSliceIndex.
    unfold Store.useCurrentSeries in Hs. rewrite Hs.
    cbn [Store.withSliceIndex Store.currentSliceIndex]. split; intros Heq; lia.
Qed.

(** ** Presentation states and key images of the current image *)

Lemma JSMap_get_set {V : Type} (m : JSMap.t V) (k k' : string) (v : V) :
  JSMap.get (JSMap.set m k v) k'
  = if String.eqb k k' then Some v else JSMap.get m k'.
Proof.
  induction m as [|[k0 v0] r IH]; cbn [JSMap.set JSMap.get].
  - reflexivity.
  - destruct (String.eqb_spec k0 k) as [->|Hne]; cbn [JSMap.get].
    + destruct (String.eqb k k'); reflexivity.
    + rewrite IH. destruct (String.eqb_spec k0 k') as [->|Hne'].
      * destruct (String.eqb_spec k k'); [congruence | reflexivity].
      * reflexivity.
Qed.

Lemma JSMap_get_set_all {V : Type} (uids : list string) (v : V) (uid : string) :
  forall m : JSMap.t V,
    JSMap.get (fold_left (fun m u => JSMap.set m u v) uids m) uid
    = if existsb (String.eqb uid) uids then Some v else JSMap.get m uid.
Proof.
  induction uids as [|u r IH]; intros m; cbn [fold_left existsb]; [reflexivity|].
  rewrite IH, JSMap_get_set, (String.eqb_sym uid u).
  destruct (existsb (String.eqb uid) r); destruct (String.eqb u uid); reflexivity.
Qed.

(** X23. The presentation state applied to an image is the last one, in
    study order, among those that reference the image, and there is none
    exactly when no presentation state references it. *)
Theorem last_presentation_state_wins (states : list (PresentationState number))
  (uid : SOPInstanceUID) :
  JSMap.get (Store.presentationStateMapOf states) uid
  = last (List.filter (fun ps => existsb (String.eqb uid) (referencedImageUIDs ps)) states).
Proof.
  unfold Store.presentationStateMapOf.
  induction states as [|ps r IH] using rev_ind; [reflexivity|].
  rewrite fold_left_app. cbn [fold_left].
  rewrite JSMap_get_set_all, IH, List.filter_app. cbn [List.filter].
  destruct (existsb (String.eqb uid) (referencedImageUIDs ps)).
  - rewrite last_snoc. reflexivity.
  - rewrite app_nil_r. reflexivity.
Qed.

Lemma Set_add_has (s : list string) (x uid : string) :
  Store.Set_has (Store.Set_add s x) uid = String.eqb uid x || Store.Set_has s uid.
Proof.
  unfold Store.Set_add, Store.Set_has.
  destruct (existsb (String.eqb x) s) eqn:Hx.
  - destruct (String.eqb_spec uid x) as [->|]; [rewrite Hx|]; reflexivity.
  - rewrite existsb_app. cbn [existsb]. rewrite orb_false_r. apply orb_comm.
Qed.

Lemma Set_add_NoDup (s : list string) (x : string) :
  NoDup s -> NoDup (Store.Set_add s x).
Proof.
  intros Hnd. unfold Store.Set_add.
  destruct (existsb (String.eqb x) s) eqn:Hx; [exact Hnd|].
  apply NoDup_app. split; [exact Hnd|]. split; [|apply NoDup_singleton].
  intros y Hy Hyx. apply list_elem_of_In in Hy, Hyx. destruct Hyx as [<-|[]].
  assert (Ht : existsb (String.eqb x) s = true).
  { apply existsb_exists. exists x. split; [exact Hy | apply String.eqb_refl]. }
  congruence.
Qed.

Lemma Set_add_all (uids : list string) (uid : string) :
  forall s : list string,
    NoDup s ->
    NoDup (fold_left Store.Set_add uids s)
    /\ Store.Set_has (fold_left Store.Set_add uids s) uid
       = existsb (String.eqb uid) uids || Store.Set_has s uid.
Proof.
  induction uids as [|u r IH]; intros s Hnd; cbn [fold_left existsb]; [split; auto|].
  destruct (IH (Store.Set_add s u) (Set_add_NoDup s u Hnd)) as [Hnd' Hhas].
  split; [exact Hnd'|]. rewrite Hhas, Set_add_has.
  destruct (String.eqb uid u), (existsb (String.eqb uid) r); reflexivity.
Qed.

(** X24. An image is marked as a key image exactly when some key-object
    selection of the study lists it, and the set of key images holds every
    identifier once, however many selections list it. *)
Theorem key_image_iff_listed (keyObjects : list KeyObjectSelection) (uid : SOPInstanceUID) :
  Store.Set_has (Store.keyImageUIDsOf keyObjects) uid
  = existsb (fun ko => existsb (String.eqb uid) (keyImages ko)) keyObjects
  /\ NoDup (Store.keyImageUIDsOf keyObjects).
Proof.
  unfold Store.keyImageUIDsOf.
  assert (Hgen : forall s : list string,
             NoDup s ->
             NoDup (fold_left (fun uids ko => fold_left Store.Set_add (keyImages ko) uids)
                                   keyObjects s)
             /\ Store.Set_has
                  (fold_left (fun uids ko => fold_left Store.Set_add (keyImages ko) uids)
                             keyObjects s) uid
                = existsb (fun ko => existsb (String.eqb uid) (keyImages ko)) keyObjects
                  || Store.Set_has s uid).
  { induction keyObjects as [|ko r IH]; intros s Hnd; cbn [fold_left existsb]; [split; auto|].
    destruct (Set_add_all (keyImages ko) uid s Hnd) as [Hnd' Hhas].
    destruct (IH _ Hnd') as [Hnd'' Hhas'].
    split; [exact Hnd''|]. rewrite Hhas', Hhas.
    destruct (existsb (String.eqb uid) (keyImages ko)),
      (existsb (fun ko0 => existsb (String.eqb uid) (keyImages ko0)) r); reflexivity. }
  destruct (Hgen [] (NoDup_nil_2)) as [Hnd Hhas].
  split; [|exact Hnd]. rewrite Hhas. cbn. apply orb_false_r.
Qed.

End ViewerStore.

Lemma slice_index_always_inside_witness :
  exists study st s,
    snd (loadDicomFromFolder Fixture.readFile Fixture.parseDicom Fixture.filePaths)
    = Some study
    /\ st = Store.run (Store.mkAppSettings false true false)
              [Store.SetStudy study; Store.SelectSeries "1.2.2";
               Store.NextSlice; Store.NextSlice; Store.NextSlice]
    /\ Store.useCurrentSeries st = Some s
    /\ Store.currentSliceIndex st = 1
    /\ Store.useCurrentImage st <> None.
Proof.
  eexists _, _, _. split; [vm_compute; reflexivity|]. split; [reflexivity|].
  split; [vm_compute; reflexivity|]. split; [vm_compute; reflexivity|].
  match goal with
  | |- Store.useCurrentImage (Store.run ?s0 ?acts) <> None =>
      destruct (slice_index_always_inside s0 acts) as [_ Hcur];
        eapply Hcur; [vm_compute; reflexivity | vm_compute; discriminate]
  end.
Defined.
